(** * Package merge scripts: a shallow embedding and its checked properties

    The repository holds several Python scripts that merge two PowerPoint
    packages at the level of the zip container: [copy_elements_method.py],
    [mk2.py] and [mk3.py].  This development embeds the first two and states
    the properties of the specification over the embedding.

    Layout:
    - [Py]     : the Python string primitives the scripts use
                 ([str], [int], [str.replace], [in], [startswith], ...);
    - [Path]   : [os.path] (posixpath) functions;
    - [ET]     : [xml.etree.ElementTree] elements and the XPath subset used;
    - [FS]     : an extracted package as a tree of files;
    - [CopyElementsMethod] : copy_elements_method.py;
    - [Mk2]    : mk2.py;
    - the theorems. *)

From Stdlib Require Import ZArith Ascii String DecimalString DecimalZ DecimalPos Lia Sorted.
From stdpp Require Import gmap strings list.

Local Open Scope string_scope.
Local Open Scope Z_scope.

Set Warnings "-register-all".

(** String concatenation computes on literals under [simpl]. *)
#[local] Arguments String.append !_ _ /.

(* ===================================================================== *)
(** * Python strings *)
(* ===================================================================== *)

Module Py.

(** [all p s]: every character of [s] satisfies [p]. *)
Fixpoint all (p : ascii -> bool) (s : string) : bool :=
  match s with
  | EmptyString => true
  | String c r => p c && all p r
  end.

(** [s.startswith(pre)] *)
Fixpoint startswith (pre s : string) : bool :=
  match pre with
  | EmptyString => true
  | String a pre' =>
      match s with
      | EmptyString => false
      | String b s' => Ascii.eqb a b && startswith pre' s'
      end
  end.

(** [sub in s] *)
Fixpoint contains (sub s : string) : bool :=
  startswith sub s ||
  match s with
  | EmptyString => false
  | String _ r => contains sub r
  end.

(** [s.endswith(suf)] *)
Fixpoint endswith (suf s : string) : bool :=
  String.eqb suf s ||
  match s with
  | EmptyString => false
  | String _ r => endswith suf r
  end.

(** [s.replace(old, new)] for a non-empty [old]: occurrences are replaced
    from the left and do not overlap.  [skip] counts the characters of an
    occurrence that are still to be dropped. *)
Fixpoint replace_from (old new : string) (skip : nat) (s : string) : string :=
  match s with
  | EmptyString => EmptyString
  | String c r =>
      match skip with
      | S k => replace_from old new k r
      | O =>
          if startswith old s
          then new ++ replace_from old new (Nat.pred (String.length old)) r
          else String c (replace_from old new O r)
      end
  end.

Definition replace (old new s : string) : string := replace_from old new O s.

(** ** [str(n)] and [int(s)] *)

(** [str(n)] for an integer: decimal digits, a leading [-] when negative. *)
Definition str (z : Z) : string := NilZero.string_of_int (Z.to_int z).

Definition digit_of (c : ascii) : option Z :=
  let n := nat_of_ascii c in
  if (48 <=? n)%nat && (n <=? 57)%nat then Some (Z.of_nat n - 48) else None.

Definition is_digit (c : ascii) : bool :=
  match digit_of c with Some _ => true | None => false end.

(** ASCII white space as [int] and [str.strip] see it: TAB, LF, VT, FF, CR,
    FS, GS, RS, US and the space. *)
Definition is_space (c : ascii) : bool :=
  let n := nat_of_ascii c in
  ((9 <=? n)%nat && (n <=? 13)%nat) || ((28 <=? n)%nat && (n <=? 32)%nat).

Fixpoint lstrip (s : string) : string :=
  match s with
  | EmptyString => EmptyString
  | String c r => if is_space c then lstrip r else s
  end.

Fixpoint rstrip (s : string) : string :=
  match s with
  | EmptyString => EmptyString
  | String c r =>
      match rstrip r with
      | EmptyString => if is_space c then EmptyString else String c EmptyString
      | r' => String c r'
      end
  end.

Definition strip (s : string) : string := rstrip (lstrip s).

(** The digits of an integer literal: [digit (["_"] digit)*].
    [after_digit] tells whether the previous character was a digit. *)
Fixpoint int_digits (s : string) (acc : Z) (after_digit : bool) : option Z :=
  match s with
  | EmptyString => if after_digit then Some acc else None
  | String c r =>
      match digit_of c with
      | Some d => int_digits r (10 * acc + d) true
      | None =>
          if Ascii.eqb c "_" && after_digit
          then int_digits r acc false
          else None
      end
  end.

(** [int(s)] on an ASCII string; [None] stands for [ValueError]. *)
Definition int (s : string) : option Z :=
  match strip s with
  | String "-" r => Z.opp <$> int_digits r 0 false
  | String "+" r => int_digits r 0 false
  | t => int_digits t 0 false
  end.

(** [max(l) if l else d] *)
Definition max_or (d : Z) (l : list Z) : Z :=
  match l with
  | [] => d
  | x :: r => fold_left Z.max r x
  end.

(** [uuid.uuid4().hex[:8]]: the first 32 bits of the draw as eight
    lower-case hexadecimal digits. *)
Definition hexdigit (k : Z) : ascii :=
  match k with
  | 0 => "0" | 1 => "1" | 2 => "2" | 3 => "3" | 4 => "4" | 5 => "5"
  | 6 => "6" | 7 => "7" | 8 => "8" | 9 => "9" | 10 => "a" | 11 => "b"
  | 12 => "c" | 13 => "d" | 14 => "e" | _ => "f"
  end%char.

Definition hex8 (n : Z) : string :=
  String (hexdigit ((n / 268435456) mod 16))
 (String (hexdigit ((n / 16777216) mod 16))
 (String (hexdigit ((n / 1048576) mod 16))
 (String (hexdigit ((n / 65536) mod 16))
 (String (hexdigit ((n / 4096) mod 16))
 (String (hexdigit ((n / 256) mod 16))
 (String (hexdigit ((n / 16) mod 16))
 (String (hexdigit (n mod 16)) EmptyString))))))).

End Py.

(* ===================================================================== *)
(** * [os.path] on POSIX *)
(* ===================================================================== *)

Module Path.

(** [split_last c s = Some (h, t)] when [s = h ++ c ++ t] and [c] does not
    occur in [t] (the split at [s.rfind(c)]); [None] when [c] is not in [s]. *)
Fixpoint split_last (c : ascii) (s : string) : option (string * string) :=
  match s with
  | EmptyString => None
  | String a r =>
      match split_last c r with
      | Some (h, t) => Some (String a h, t)
      | None => if Ascii.eqb a c then Some (EmptyString, r) else None
      end
  end.

Definition is_slash (c : ascii) : bool := Ascii.eqb c "/".
Definition is_dot (c : ascii) : bool := Ascii.eqb c ".".

(** [s.rstrip('/')] *)
Fixpoint rstrip_slash (s : string) : string :=
  match s with
  | EmptyString => EmptyString
  | String c r =>
      match rstrip_slash r with
      | EmptyString => if is_slash c then EmptyString else String c EmptyString
      | r' => String c r'
      end
  end.

(** [os.path.basename] *)
Definition basename (p : string) : string :=
  match split_last "/" p with
  | Some (_, t) => t
  | None => p
  end.

(** [os.path.dirname]: the head up to the last slash, with its trailing
    slashes removed unless it consists of slashes only. *)
Definition dirname (p : string) : string :=
  match split_last "/" p with
  | Some (h, _) => if Py.all is_slash h then h ++ "/" else rstrip_slash h
  | None => ""
  end.

(** [os.path.join(a, b)] *)
Definition join (a b : string) : string :=
  if Py.startswith "/" b then b
  else if String.eqb a "" || Py.endswith "/" a then a ++ b
  else a ++ "/" ++ b.

(** [os.path.splitext(p)]: the extension starts at the last dot of the last
    component, unless only dots precede it there. *)
Definition splitext (p : string) : string * string :=
  let '(pre, b) :=
    match split_last "/" p with
    | Some (h, t) => (h ++ "/", t)
    | None => ("", p)
    end in
  match split_last "." b with
  | Some (x, e) => if Py.all is_dot x then (p, "") else (pre ++ x, "." ++ e)
  | None => (p, "")
  end.

(** [s.split('/')] *)
Fixpoint split_slash (s : string) : list string :=
  match s with
  | EmptyString => [""]
  | String a r =>
      if is_slash a then "" :: split_slash r
      else match split_slash r with
           | x :: xs => String a x :: xs
           | [] => [String a ""]
           end
  end.

(** ['/'.join(comps)] *)
Fixpoint join_slash (comps : list string) : string :=
  match comps with
  | [] => ""
  | [x] => x
  | x :: r => x ++ "/" ++ join_slash r
  end.

(** One step of the loop of [normpath]; [acc] is [new_comps] reversed. *)
Definition norm_step (initial_slashes : nat) (acc : list string) (comp : string)
  : list string :=
  if String.eqb comp "" || String.eqb comp "." then acc
  else if negb (String.eqb comp "..")
          || (Nat.eqb initial_slashes 0 && match acc with [] => true | _ => false end)
          || match acc with x :: _ => String.eqb x ".." | [] => false end
       then comp :: acc
       else match acc with _ :: r => r | [] => [] end.

(** [os.path.normpath] *)
Definition normpath (path : string) : string :=
  if String.eqb path "" then "."
  else
    let initial_slashes : nat :=
      if Py.startswith "/" path
      then if Py.startswith "//" path && negb (Py.startswith "///" path)
           then 2%nat else 1%nat
      else 0%nat in
    let comps := rev (fold_left (norm_step initial_slashes) (split_slash path) []) in
    let p := match initial_slashes with
             | O => join_slash comps
             | 1%nat => "/" ++ join_slash comps
             | _ => "//" ++ join_slash comps
             end in
    if String.eqb p "" then "." else p.

End Path.

(* ===================================================================== *)
(** * [xml.etree.ElementTree] *)
(* ===================================================================== *)

Module ET.

(** An element: its tag (in Clark notation, [{uri}local]), its attribute
    dictionary and its children in document order.  Text is not modelled:
    no script reads it. *)
Inductive element :=
  Element (tag : string) (attrib : list (string * string)) (children : list element).

Definition tag (e : element) : string := let 'Element t _ _ := e in t.
Definition attrib (e : element) : list (string * string) := let 'Element _ a _ := e in a.
Definition children (e : element) : list element := let 'Element _ _ c := e in c.

(** [attrib.get(k)] and [attrib[k] = v] on the attribute dictionary. *)
Fixpoint lookup_attr (k : string) (a : list (string * string)) : option string :=
  match a with
  | [] => None
  | (k', v) :: r => if String.eqb k k' then Some v else lookup_attr k r
  end.

Fixpoint store_attr (k v : string) (a : list (string * string)) : list (string * string) :=
  match a with
  | [] => [(k, v)]
  | (k', v') :: r => if String.eqb k k' then (k, v) :: r else (k', v') :: store_attr k v r
  end.

(** [e.get(k)], [e.set(k, v)], [e.append(c)] *)
Definition get (k : string) (e : element) : option string := lookup_attr k (attrib e).
Definition set (k v : string) (e : element) : element :=
  let 'Element t a c := e in Element t (store_attr k v a) c.
Definition append (c : element) (e : element) : element :=
  let 'Element t a cs := e in Element t a (cs ++ [c])%list.

(** [e.iter()]: the element and its descendants in document order. *)
Fixpoint iter (e : element) : list element :=
  let 'Element _ _ cs := e in
  e :: (fix go (l : list element) : list element :=
          match l with
          | [] => []
          | c :: r => (iter c ++ go r)%list
          end) cs.

(** The nodes [.//*] selects from [e]: every descendant, [e] excluded. *)
Definition descendants (e : element) : list element :=
  flat_map iter (children e).

(** A tag [prefix:local] of a path resolved through the prefix map. *)
Definition qname (ns local_name : string) : string := "{" ++ ns ++ "}" ++ local_name.

Definition tag_is (t : string) (e : element) : bool := String.eqb (tag e) t.
Definition has_attr (k : string) (e : element) : bool :=
  match get k e with Some _ => true | None => false end.
Definition attr_is (k v : string) (e : element) : bool :=
  match get k e with Some v' => String.eqb v' v | None => false end.

(** The wildcard step [{*}l]: the tag [l] in any namespace, or in none. *)
Definition local_is (l : string) (e : element) : bool :=
  String.eqb (tag e) l || Py.endswith ("}" ++ l) (tag e).

(** [e.find('.//T')], [e.findall('.//...')], [e.findall('./T')] *)
Definition find_desc (p : element -> bool) (e : element) : option element :=
  head (List.filter p (descendants e)).
Definition findall_desc (p : element -> bool) (e : element) : list element :=
  List.filter p (descendants e).
Definition findall_child (p : element -> bool) (e : element) : list element :=
  List.filter p (children e).

(** Writing back through a reference: the first descendant of [e] (document
    order) that satisfies [p] is replaced by [new].  [None] when there is
    none. *)
Fixpoint replace_first (p : element -> bool) (new : element) (e : element)
  : option element :=
  let 'Element t a cs := e in
  match (fix go (l : list element) : option (list element) :=
           match l with
           | [] => None
           | c :: r =>
               if p c then Some (new :: r)
               else match replace_first p new c with
                    | Some c' => Some (c' :: r)
                    | None => match go r with
                              | Some r' => Some (c :: r')
                              | None => None
                              end
                    end
           end) cs with
  | Some cs' => Some (Element t a cs')
  | None => None
  end.

(** The descendants of [e] that carry attribute [k] receive, in document
    order, the attribute dictionaries of [news]: the effect on the tree of
    a loop [for x in e.findall('.//*[@k]'): x.set(...)].
    The result pairs the rebuilt children with the unused part of [news]. *)
Fixpoint assign (k : string) (news : list element) (e : element)
  : element * list element :=
  let 'Element t a cs := e in
  let '(a', news1) :=
    if has_attr k e
    then match news with
         | n :: r => (attrib n, r)
         | [] => (a, [])
         end
    else (a, news) in
  let '(cs', news2) :=
    (fix go (l : list element) (ns : list element) : list element * list element :=
       match l with
       | [] => ([], ns)
       | c :: r =>
           let '(c', ns1) := assign k ns c in
           let '(r', ns2) := go r ns1 in
           (c' :: r', ns2)
       end) cs news1 in
  (Element t a' cs', news2).

Definition assign_desc (k : string) (news : list element) (e : element) : element :=
  let 'Element t a cs := e in
  Element t a
    (fst ((fix go (l : list element) (ns : list element) : list element * list element :=
             match l with
             | [] => ([], ns)
             | c :: r =>
                 let '(c', ns1) := assign k ns c in
                 let '(r', ns2) := go r ns1 in
                 (c' :: r', ns2)
             end) cs news)).

(** [get_namespace] of the scripts reads the namespace off a tag with a
    regular expression anchored at the start: an opening brace, a greedy
    group of characters other than the line feed, a closing brace.  The
    group therefore runs to the last closing brace of the first line. *)
Fixpoint first_line (s : string) : string :=
  match s with
  | EmptyString => EmptyString
  | String c r => if Ascii.eqb c "010" then EmptyString else String c (first_line r)
  end.

Definition brace_group (t : string) : option string :=
  match t with
  | String "{" r =>
      match Path.split_last "}" (first_line r) with
      | Some (g, _) => Some g
      | None => None
      end
  | _ => None
  end.

End ET.

(* ===================================================================== *)
(** * Extracted packages *)
(* ===================================================================== *)

Module FS.

(** A file holds bytes; [Xml] is a file whose bytes are the serialisation
    of an element tree, [Blob] one that [ET.parse] rejects. *)
Inductive content :=
  | Blob (bytes : string)
  | Xml (root : ET.element).

(** The tree below an extraction folder: each file's path relative to the
    folder, with its content.  Folders are implicit: a folder exists when a
    file lies below it.  Paths that leave the folder (absolute ones, or
    [..] above its root) name nothing.  Destinations the scripts write are
    taken not to be folders of the tree. *)
Abbreviation tree := (gmap string content).

Inductive exn :=
  | FileNotFoundError | IsADirectoryError | NotADirectoryError
  | ParseError | TypeError | ValueError | SyntaxError | BadZipFile.

Inductive node :=
  | Absent
  | IsFile (c : content)
  | IsDir.

(** The key of the path whose components, innermost first, are [cur]. *)
Definition key_of (cur : list string) : string := Path.join_slash (rev cur).

Definition is_dir (t : tree) (cur : list string) : bool :=
  match cur with
  | [] => true
  | _ => existsb (Py.startswith (key_of cur ++ "/")) (elements (dom t))
  end.

Definition kind (t : tree) (cur : list string) : node :=
  match t !! key_of cur with
  | Some c => IsFile c
  | None => if is_dir t cur then IsDir else Absent
  end.

(** Resolution of a relative path the way the system does it: component by
    component, each prefix being a folder. *)
Fixpoint walk (t : tree) (cur : list string) (comps : list string) : node :=
  match comps with
  | [] => kind t cur
  | c :: rest =>
      if is_dir t cur then
        if String.eqb c "" || String.eqb c "." then walk t cur rest
        else if String.eqb c ".." then
          match cur with
          | [] => Absent
          | _ :: up => walk t up rest
          end
        else walk t (c :: cur) rest
      else Absent
  end.

Definition stat (t : tree) (path : string) : node :=
  if Py.startswith "/" path then Absent
  else walk t [] (Path.split_slash path).

(** [os.path.exists] *)
Definition exists_ (t : tree) (path : string) : bool :=
  match stat t path with Absent => false | _ => true end.

Fixpoint strip_prefix (pre s : string) : option string :=
  match pre with
  | EmptyString => Some s
  | String a pre' =>
      match s with
      | EmptyString => None
      | String b s' => if Ascii.eqb a b then strip_prefix pre' s' else None
      end
  end.

Definition first_component (s : string) : string :=
  match Path.split_slash s with
  | x :: _ => x
  | [] => s
  end.

Fixpoint dedup_str (l : list string) : list string :=
  match l with
  | [] => []
  | x :: r => if existsb (String.eqb x) r then dedup_str r else x :: dedup_str r
  end.

(** The names directly below the folder [dir] (a clean relative path). *)
Definition entries (t : tree) (dir : string) : list string :=
  dedup_str
    (omap (fun k => first_component <$> strip_prefix (dir ++ "/") k)
          (elements (dom t))).

(** [os.listdir] *)
Definition listdir (t : tree) (dir : string) : exn + list string :=
  match stat t dir with
  | Absent => inl FileNotFoundError
  | IsFile _ => inl NotADirectoryError
  | IsDir => inr (entries t dir)
  end.

(** [ET.parse(path).getroot()] *)
Definition parse (t : tree) (path : string) : exn + ET.element :=
  match stat t path with
  | Absent => inl FileNotFoundError
  | IsDir => inl IsADirectoryError
  | IsFile (Blob _) => inl ParseError
  | IsFile (Xml r) => inr r
  end.

(** What [shutil.copy2] reads at its source. *)
Definition read (t : tree) (path : string) : exn + content :=
  match stat t path with
  | Absent => inl FileNotFoundError
  | IsDir => inl IsADirectoryError
  | IsFile c => inr c
  end.

End FS.

(* ===================================================================== *)
(** * The machine the scripts run on *)
(* ===================================================================== *)

Module Sys.
Import FS.

(** What is on disk, as far as the scripts can tell: the zip archives by
    path, each given by the tree it extracts to, and the working folders,
    each with the trees below its sub-folders. *)
Record world := World {
  archives : gmap string (gmap string content);
  folders : gmap string (gmap string (gmap string content))
}.

(** [os.path.join(dir, *parts)], relative to [dir]. *)
Definition in_dir (parts : list string) : string := fold_left Path.join parts "".

(** [zipfile.ZipFile(path).extractall(dir)]: the members of the archive land
    over whatever the folder held. *)
Definition extract (w : world) (path : string) (old : tree) : exn + tree :=
  match archives w !! path with
  | Some z => inr (z ∪ old)
  | None => inl FileNotFoundError
  end.

End Sys.

(* ===================================================================== *)
(** * copy_elements_method.py *)
(* ===================================================================== *)

Module CopyElementsMethod.
Import FS Sys.

(** The lines the script prints. *)
Inductive line :=
  | NoSlidesFound
  | SuccessfullyMerged (output_path : string)
  | ErrorMerging (e : exn).

(** The state the script mutates while it runs: the tree below [base_dir],
    its standard output and the number of [uuid.uuid4()] calls made. *)
Record state := State {
  base : tree;
  stdout : list line;
  draws : nat
}.

Inductive outcome (A : Type) :=
  | Ok (a : A) (s : state)
  | Raise (e : exn).
Arguments Ok {A} a s.
Arguments Raise {A} e.

Definition M (A : Type) : Type := state -> outcome A.

Definition ret {A} (a : A) : M A := fun s => Ok a s.
Definition bind {A B} (m : M A) (f : A -> M B) : M B :=
  fun s => match m s with
           | Ok a s' => f a s'
           | Raise e => Raise e
           end.
Definition raise {A} (e : exn) : M A := fun _ => Raise e.
Definition lift {A} (r : exn + A) : M A :=
  match r with inl e => raise e | inr a => ret a end.

Declare Scope cem_scope.
Delimit Scope cem_scope with cem.
Notation "'let*' p ':=' m 'in' k" := (bind m (fun p => k))
  (at level 10, p pattern, m at level 100, k at level 200) : cem_scope.
Notation "m '>>' k" := (bind m (fun _ => k))
  (at level 100, k at level 200, right associativity) : cem_scope.
Local Open Scope cem_scope.

Definition get_base : M tree := fun s => Ok (base s) s.
Definition write (path : string) (c : content) : M unit :=
  fun s => Ok tt (State (<[path := c]> (base s)) (stdout s) (draws s)).
Definition print (l : line) : M unit :=
  fun s => Ok tt (State (base s) (stdout s ++ [l]) (draws s)).

Fixpoint mapM {A B} (f : A -> M B) (l : list A) : M (list B) :=
  match l with
  | [] => ret []
  | x :: r => let* y := f x in let* ys := mapM f r in ret (y :: ys)
  end.

(** [shutil.copy2(src, dst)], [src] below [add_dir], [dst] below [base_dir]. *)
Definition copy2 (add : tree) (src dst : string) : M unit :=
  let* c := lift (read add src) in write dst c.

Definition parse_base (path : string) : M ET.element :=
  let* b := get_base in lift (parse b path).

(** [get_namespace(element, prefix)] *)
Definition get_namespace (element : ET.element) (prefix : string) : string :=
  match ET.brace_group (ET.tag element) with
  | Some namespace =>
      if String.eqb prefix "p" then namespace
      else if String.eqb prefix "r" then
        Py.replace "schemas.openxmlformats.org/presentationml"
                   "schemas.openxmlformats.org/officeDocument" namespace
      else ""
  | None => ""
  end.

Section Run.

(** The values [uuid.uuid4()] takes in this run: call number [k] returns a
    value whose first 32 bits are [uuid4 k]. *)
Variable uuid4 : nat -> Z.

Definition uuid4_hex8 : M string :=
  fun s => Ok (Py.hex8 (uuid4 (draws s))) (State (base s) (stdout s) (S (draws s))).

(** ** [process_chart_relationships] *)

(** The body of its loop, for one element that has a [Target]. *)
Definition chart_rel_step (add : tree) (rel : ET.element) : M ET.element :=
  match ET.get "Target" rel, ET.get "Type" rel with
  | Some target, Some rel_type =>
      if Py.contains "package" rel_type && Py.contains ".xlsx" target then
        let excel_path := default target (strip_prefix "../" target) in
        let source_excel_path := in_dir [excel_path] in
        let* h := uuid4_hex8 in
        let excel_id := "embeddings/Microsoft_Excel_Sheet" ++ h ++ ".xlsx" in
        let target_excel_path := in_dir [excel_id] in
        (if exists_ add source_excel_path
         then copy2 add source_excel_path target_excel_path
         else ret tt) >>
        ret (ET.set "Target" ("../" ++ excel_id) rel)
      else ret rel
  | _, _ => raise TypeError
  end.

Definition process_chart_relationships (add : tree)
    (chart_rel_path target_chart_rel_path : string) : M unit :=
  if negb (exists_ add chart_rel_path) then ret tt
  else
    let* rels_root := lift (parse add chart_rel_path) in
    let* news := mapM (chart_rel_step add)
                 (ET.findall_desc (ET.has_attr "Target") rels_root) in
    write target_chart_rel_path (Xml (ET.assign_desc "Target" news rels_root)).

(** ** [process_slide_relationships] *)

Definition is_media_type (rel_type : string) : bool :=
  existsb (fun type_id => Py.contains type_id rel_type) ["image"; "audio"; "video"].

(** The body of its loop.  [added_media] is the dictionary shared by all
    slides of the merge; the step returns it as updated. *)
Definition slide_rel_step (add : tree) (slide_path : string)
    (added_media : gmap string string) (rel : ET.element)
  : M (gmap string string * ET.element) :=
  match ET.get "Target" rel, ET.get "Type" rel with
  | Some target, Some rel_type =>
      if is_media_type rel_type then
        if negb (Py.startswith "http" target) then
          let media_path := Path.normpath (Path.join (Path.dirname slide_path) target) in
          let source_media_path := in_dir ["ppt"; media_path] in
          match added_media !! media_path with
          | Some new_filename =>
              ret (added_media, ET.set "Target" ("../" ++ new_filename) rel)
          | None =>
              let ext := snd (Path.splitext media_path) in
              let new_filename :=
                "media/image" ++ Py.str (Z.of_nat (size added_media) + 1) ++ ext in
              let target_media_path := in_dir ["ppt"; new_filename] in
              (if exists_ add source_media_path
               then copy2 add source_media_path target_media_path
               else ret tt) >>
              ret (<[media_path := new_filename]> added_media,
                   ET.set "Target" ("../" ++ new_filename) rel)
          end
        else ret (added_media, rel)
      else if Py.contains "chart" rel_type then
        let chart_path := Path.normpath (Path.join (Path.dirname slide_path) target) in
        let source_chart_path := in_dir ["ppt"; chart_path] in
        let* h := uuid4_hex8 in
        let chart_id := "chart" ++ h in
        let new_chart_path := "charts/" ++ chart_id ++ ".xml" in
        let target_chart_path := in_dir ["ppt"; new_chart_path] in
        (if exists_ add source_chart_path then
           copy2 add source_chart_path target_chart_path >>
           let chart_rel_path :=
             in_dir ["ppt"; "charts"; "_rels"; Path.basename chart_path ++ ".rels"] in
           let target_chart_rel_path :=
             in_dir ["ppt"; "charts"; "_rels"; chart_id ++ ".xml.rels"] in
           if exists_ add chart_rel_path
           then process_chart_relationships add chart_rel_path target_chart_rel_path
           else ret tt
         else ret tt) >>
        ret (added_media, ET.set "Target" ("../" ++ new_chart_path) rel)
      else ret (added_media, rel)
  | _, _ => raise TypeError
  end.

Fixpoint slide_rels_loop (add : tree) (slide_path : string)
    (added_media : gmap string string) (rels : list ET.element)
  : M (gmap string string * list ET.element) :=
  match rels with
  | [] => ret (added_media, [])
  | rel :: rest =>
      let* (added1, rel') := slide_rel_step add slide_path added_media rel in
      let* (added2, rest') := slide_rels_loop add slide_path added1 rest in
      ret (added2, rel' :: rest')
  end.

Definition process_slide_relationships (add : tree)
    (slide_path new_slide_path : string) (added_media : gmap string string)
  : M (gmap string string) :=
  let slide_rel_path :=
    in_dir ["ppt"; Path.dirname slide_path; "_rels"; Path.basename slide_path ++ ".rels"] in
  let target_rel_path :=
    in_dir ["ppt"; Path.dirname new_slide_path; "_rels";
            Path.basename new_slide_path ++ ".rels"] in
  if negb (exists_ add slide_rel_path) then ret added_media
  else
    let* rels_root := lift (parse add slide_rel_path) in
    let* (added', news) := slide_rels_loop add slide_path added_media
                         (ET.findall_desc (ET.has_attr "Target") rels_root) in
    write target_rel_path (Xml (ET.assign_desc "Target" news rels_root)) >>
    ret added'.

(** ** The loop over the slides of the presentation that is added *)

(** The variables of [merge_presentations] the loop updates. *)
Record vars := Vars {
  slides_element : ET.element;
  rels_root : ET.element;
  max_slide_id : Z;
  max_rel_id : Z;
  added_media : gmap string string
}.

Definition slide_rel_type : string :=
  "http://schemas.openxmlformats.org/officeDocument/2006/relationships/slide".

(** One iteration.  [ns], [rns] and [rels_ns] are the namespaces read off
    the roots of the base presentation and of its relationships, [add_rns]
    the one read off the root of the added presentation. *)
Definition slide_step (add : tree) (ns rns rels_ns add_rns : string)
    (v : vars) (slide_id_elem : ET.element) : M vars :=
  let rid := ET.get (ET.qname add_rns "id") slide_id_elem in
  let* add_rels_root := lift (parse add (in_dir ["ppt"; "_rels"; "presentation.xml.rels"])) in
  match List.find (fun rel => bool_decide (ET.get "Id" rel = rid))
                  (ET.findall_desc (ET.has_attr "Id") add_rels_root) with
  | None => ret v
  | Some slide_rel =>
      match ET.get "Target" slide_rel with
      | None => raise TypeError
      | Some slide_path =>
          let full_add_slide_path := in_dir ["ppt"; slide_path] in
          if negb (exists_ add full_add_slide_path) then ret v
          else
            let new_max_slide_id := max_slide_id v + 1 in
            let new_max_rel_id := max_rel_id v + 1 in
            let new_slide_id := Py.str new_max_slide_id in
            let new_rel_id := "rId" ++ Py.str new_max_rel_id in
            let new_slide_path := "slides/slide" ++ Py.str new_max_slide_id ++ ".xml" in
            let full_new_slide_path := in_dir ["ppt"; new_slide_path] in
            copy2 add full_add_slide_path full_new_slide_path >>
            let new_slide_elem :=
              ET.set (ET.qname rns "id") new_rel_id
                (ET.set "id" new_slide_id (ET.Element (ET.qname ns "sldId") [] [])) in
            let new_rel_elem :=
              ET.set "Target" new_slide_path
                (ET.set "Type" slide_rel_type
                   (ET.set "Id" new_rel_id
                      (ET.Element (ET.qname rels_ns "Relationship") [] []))) in
            let* added := process_slide_relationships add slide_path new_slide_path
                       (added_media v) in
            ret (Vars (ET.append new_slide_elem (slides_element v))
                      (ET.append new_rel_elem (rels_root v))
                      new_max_slide_id new_max_rel_id added)
      end
  end.

Fixpoint slides_loop (add : tree) (ns rns rels_ns add_rns : string)
    (v : vars) (slide_id_elems : list ET.element) : M vars :=
  match slide_id_elems with
  | [] => ret v
  | e :: rest =>
      let* v' := slide_step add ns rns rels_ns add_rns v e in
      slides_loop add ns rns rels_ns add_rns v' rest
  end.

(** ** [update_content_types] *)

Definition ct_ns : string := "http://schemas.openxmlformats.org/package/2006/content-types".

Definition content_type_slides : string :=
  "application/vnd.openxmlformats-officedocument.presentationml.slide+xml".
Definition content_type_chart : string :=
  "application/vnd.openxmlformats-officedocument.drawingml.chart+xml".

Definition extensions : list (string * string) :=
  [ (".jpeg", "image/jpeg"); (".jpg", "image/jpeg"); (".png", "image/png");
    (".gif", "image/gif"); (".wmf", "image/x-wmf"); (".mp3", "audio/mp3");
    (".mp4", "video/mp4");
    (".xlsx", "application/vnd.openxmlformats-officedocument.spreadsheetml.sheet") ].

Definition tail_str (s : string) : string :=
  match s with EmptyString => EmptyString | String _ r => r end.

Definition add_default (existing_defaults : list (option string))
    (root : ET.element) (em : string * string) : ET.element :=
  let ext_clean := tail_str (fst em) in
  if bool_decide (Some ext_clean ∈ existing_defaults) then root
  else ET.append
         (ET.set "ContentType" (snd em)
            (ET.set "Extension" ext_clean (ET.Element (ET.qname ct_ns "Default") [] [])))
         root.

Definition add_override (folder content_type : string) (existing_overrides : list string)
    (root : ET.element) (file : string) : ET.element :=
  if Py.endswith ".xml" file then
    let part_name := folder ++ file in
    if bool_decide (part_name ∈ existing_overrides) then root
    else ET.append
           (ET.set "ContentType" content_type
              (ET.set "PartName" part_name (ET.Element (ET.qname ct_ns "Override") [] [])))
           root
  else root.

Definition update_content_types : M unit :=
  let content_types_path := in_dir ["[Content_Types].xml"] in
  let* b := get_base in
  if negb (exists_ b content_types_path) then ret tt
  else
    let* root := lift (parse b content_types_path) in
    let existing_defaults :=
      map (ET.get "Extension") (ET.findall_desc (ET.local_is "Default") root) in
    let root := fold_left (add_default existing_defaults) extensions root in
    let existing_overrides :=
      omap (fun override =>
              match ET.get "PartName" override with
              | Some part_name => if String.eqb part_name "" then None else Some part_name
              | None => None
              end)
           (ET.findall_desc (ET.local_is "Override") root) in
    let* slide_files := lift (listdir b (in_dir ["ppt"; "slides"])) in
    let root :=
      fold_left (add_override "/ppt/slides/" content_type_slides existing_overrides)
                slide_files root in
    let* root := (if exists_ b (in_dir ["ppt"; "charts"]) then
               let* chart_files := lift (listdir b (in_dir ["ppt"; "charts"])) in
               ret (fold_left (add_override "/ppt/charts/" content_type_chart
                                 existing_overrides) chart_files root)
             else ret root) in
    write content_types_path (Xml root).

(** ** [merge_presentations] *)

(** What the [try] block did when it ended without an exception. *)
Inductive ending :=
  | ReturnedEarly
  | Created (package : tree).

(** [int(x)] for an attribute value: [int(None)] is a [TypeError]. *)
Definition int_attr (o : option string) : exn + Z :=
  match o with
  | None => inl TypeError
  | Some s => match Py.int s with
              | Some z => inr z
              | None => inl ValueError
              end
  end.

Fixpoint mapE {A B} (f : A -> exn + B) (l : list A) : exn + list B :=
  match l with
  | [] => inr []
  | x :: r =>
      match f x with
      | inl e => inl e
      | inr y => match mapE f r with
                 | inl e => inl e
                 | inr ys => inr (y :: ys)
                 end
      end
  end.

(** The slide ids of the list [slides_element], as the script reads them. *)
Definition slide_ids_of (ns : string) (slides_element : ET.element) : exn + list Z :=
  mapE (fun slide_id => int_attr (ET.get "id" slide_id))
       (ET.findall_child (ET.tag_is (ET.qname ns "sldId")) slides_element).

(** The numbers of the relationship ids of the document [rels_root]. *)
Definition rel_ids_of (rels_root : ET.element) : exn + list Z :=
  mapE (fun rel => int_attr (Py.replace "rId" "" <$> ET.get "Id" rel))
       (ET.findall_desc (ET.has_attr "Id") rels_root).

(** The slide list the script works on: the first [sldIdLst] below the
    root, or a new one created under the first [presentation] element
    below the root ([parent]). *)
Definition locate_slides (ns : string) (root : ET.element)
  : exn + (ET.element * option ET.element) :=
  match ET.find_desc (ET.tag_is (ET.qname ns "sldIdLst")) root with
  | Some e => inr (e, None)
  | None =>
      match ET.find_desc (ET.tag_is (ET.qname ns "presentation")) root with
      | Some parent => inr (ET.Element (ET.qname ns "sldIdLst") [] [], Some parent)
      | None => inl TypeError
      end
  end.

(** The presentation tree as [tree.write] finds it: the mutated slide list
    sits where the script took it from. *)
Definition written_root (ns : string) (root : ET.element)
    (parent : option ET.element) (slides_element : ET.element) : ET.element :=
  match parent with
  | None =>
      default root (ET.replace_first (ET.tag_is (ET.qname ns "sldIdLst")) slides_element root)
  | Some p =>
      default root (ET.replace_first (ET.tag_is (ET.qname ns "presentation"))
                      (ET.append slides_element p) root)
  end.

(** The body of the [try] block, once both archives are extracted. *)
Definition merge_body (add : tree) (output_path : string) : M ending :=
  let presentation_xml_path := in_dir ["ppt"; "presentation.xml"] in
  let* root := parse_base presentation_xml_path in
  let ns := get_namespace root "p" in
  let* (slides0, parent) := lift (locate_slides ns root) in
  let* slide_ids := lift (slide_ids_of ns slides0) in
  let seed_slide_id := Py.max_or 255 slide_ids in
  let rels_path := in_dir ["ppt"; "_rels"; "presentation.xml.rels"] in
  let* rels0 := parse_base rels_path in
  let* rel_ids := lift (rel_ids_of rels0) in
  let seed_rel_id := Py.max_or 0 rel_ids in
  let* add_root := lift (parse add (in_dir ["ppt"; "presentation.xml"])) in
  let add_ns := get_namespace add_root "p" in
  match ET.find_desc (ET.tag_is (ET.qname add_ns "sldIdLst")) add_root with
  | None => print NoSlidesFound >> ret ReturnedEarly
  | Some add_slides_element =>
      let* v := slides_loop add ns (get_namespace root "r") (get_namespace rels0 "p")
             (get_namespace add_root "r")
             (Vars slides0 rels0 seed_slide_id seed_rel_id ∅)
             (ET.findall_child (ET.tag_is (ET.qname add_ns "sldId")) add_slides_element) in
      write presentation_xml_path (Xml (written_root ns root parent (slides_element v))) >>
      write rels_path (Xml (rels_root v)) >>
      update_content_types >>
      let* package := get_base in
      print (SuccessfullyMerged output_path) >>
      ret (Created package)
  end.

Definition temp_dir : string := "temp_ppt_merge".

(** [merge_presentations(base_ppt_path, add_ppt_path, output_path)] on the
    machine [w]: the machine it leaves and what it printed. *)
Definition merge_presentations (w : world)
    (base_ppt_path add_ppt_path output_path : string) : world * list line :=
  let old := default ∅ (folders w !! temp_dir) in
  (* try *)
  let attempt : outcome ending :=
    match extract w base_ppt_path (default ∅ (old !! "base")) with
    | inl e => Raise e
    | inr base0 =>
        match extract w add_ppt_path (default ∅ (old !! "add")) with
        | inl e => Raise e
        | inr add0 => merge_body add0 output_path (State base0 [] 0)
        end
    end in
  (* finally *)
  let cleaned := delete temp_dir (folders w) in
  match attempt with
  | Ok (Created package) s =>
      (World (<[output_path := package]> (archives w)) cleaned, stdout s)
  | Ok ReturnedEarly s => (World (archives w) cleaned, stdout s)
  | Raise e => (World (archives w) cleaned, [ErrorMerging e])
  end.

End Run.

End CopyElementsMethod.

(* ===================================================================== *)
(** * mk2.py *)
(* ===================================================================== *)

Module Mk2.
Import FS Sys.

(** The script mutates the tree below [base_dir].  An exception leaves the
    tree as it was when it was raised: nothing catches it. *)
Inductive outcome (A : Type) :=
  | Ok (a : A) (base : tree)
  | Raise (e : exn) (base : tree).
Arguments Ok {A} a base.
Arguments Raise {A} e base.

Definition M (A : Type) : Type := tree -> outcome A.

Definition ret {A} (a : A) : M A := fun s => Ok a s.
Definition bind {A B} (m : M A) (f : A -> M B) : M B :=
  fun s => match m s with
           | Ok a s' => f a s'
           | Raise e s' => Raise e s'
           end.
Definition raise {A} (e : exn) : M A := fun s => Raise e s.
Definition lift {A} (r : exn + A) : M A :=
  match r with inl e => raise e | inr a => ret a end.

Declare Scope mk2_scope.
Delimit Scope mk2_scope with mk2.
Notation "'let*' p ':=' m 'in' k" := (bind m (fun p => k))
  (at level 10, p pattern, m at level 100, k at level 200) : mk2_scope.
Notation "m '>>' k" := (bind m (fun _ => k))
  (at level 100, k at level 200, right associativity) : mk2_scope.
Local Open Scope mk2_scope.

Definition get_base : M tree := fun s => Ok s s.
Definition write (path : string) (c : content) : M unit :=
  fun s => Ok tt (<[path := c]> s).
Definition copy2 (second : tree) (src dst : string) : M unit :=
  let* c := lift (read second src) in write dst c.
Definition parse_base (path : string) : M ET.element :=
  let* b := get_base in lift (parse b path).

Fixpoint forM {A} (f : A -> M unit) (l : list A) : M unit :=
  match l with
  | [] => ret tt
  | x :: r => f x >> forM f r
  end.

(** A path step [p:local] under the prefix map [ns_dict], which is
    [{'p': ns}] when [ns] is a non-empty string and empty otherwise; with
    the empty map the path does not compile. *)
Definition p_tag (ns : option string) (local_name : string) : exn + string :=
  match ns with
  | Some n => if String.eqb n "" then inl SyntaxError else inr (ET.qname n local_name)
  | None => inl SyntaxError
  end.

(** The highest slide id of the first presentation. *)
Fixpoint highest_slide_id (max_id : Z) (slides : list ET.element) : exn + Z :=
  match slides with
  | [] => inr max_id
  | slide :: rest =>
      match Py.int (default "0" (ET.get "id" slide)) with
      | Some id_val => highest_slide_id (Z.max max_id id_val) rest
      | None => inl ValueError
      end
  end.

(** The highest [rId] number of a relationship document. *)
Fixpoint highest_rel_id (max_rel_id : Z) (rels : list ET.element) : Z :=
  match rels with
  | [] => max_rel_id
  | rel :: rest =>
      let rid := default "" (ET.get "Id" rel) in
      if Py.startswith "rId" rid then
        match Py.int (default "" (strip_prefix "rId" rid)) with
        | Some rid_num => highest_rel_id (Z.max max_rel_id rid_num) rest
        | None => highest_rel_id max_rel_id rest
        end
      else highest_rel_id max_rel_id rest
  end.

(** The variables the loop over the slides updates. *)
Record vars := Vars {
  slide_id_list1 : ET.element;
  rels_root : ET.element;
  max_id : Z;
  max_rel_id : Z;
  slide_mapping : gmap (option string) string;
  rel_mapping : gmap (option string) string
}.

Definition slide_rel_type : string :=
  "http://schemas.openxmlformats.org/officeDocument/2006/relationships/slide".

(** [f"{x}"] for an attribute value that may be [None]. *)
Definition fmt (o : option string) : string := default "None" o.

(** [root.findall(".//*[@Id='v']")]; a quote inside [v] breaks the
    predicate. *)
Definition findall_id (v : string) (root : ET.element) : exn + list ET.element :=
  if Py.contains "'" v then inl SyntaxError
  else inr (ET.findall_desc (ET.attr_is "Id" v) root).

(** One iteration of the loop over the slides of the second presentation. *)
Definition slide_step (second : tree) (ns : string) (v : vars) (slide_id : ET.element)
  : M vars :=
  let old_id := ET.get "id" slide_id in
  let old_rid := ET.get (ET.qname ns "id") slide_id in
  let new_max_id := max_id v + 1 in
  let new_max_rel_id := max_rel_id v + 1 in
  let new_id := Py.str new_max_id in
  let new_rid := "rId" ++ Py.str new_max_rel_id in
  let v := Vars (slide_id_list1 v) (rels_root v) new_max_id new_max_rel_id
                (<[old_id := new_id]> (slide_mapping v))
                (<[old_rid := new_rid]> (rel_mapping v)) in
  let* rel_root := lift (parse second (in_dir ["ppt"; "_rels"; "presentation.xml.rels"])) in
  let* found := lift (findall_id (fmt old_rid) rel_root) in
  let slide_path := match found with rel :: _ => ET.get "Target" rel | [] => None end in
  match slide_path with
  | None => ret v
  | Some slide_path =>
      if String.eqb slide_path "" then ret v
      else
        let slide_filename := Path.basename slide_path in
        let old_slide_path := in_dir ["ppt"; slide_path] in
        let new_slide_path := in_dir ["ppt"; "slides"; slide_filename] in
        copy2 second old_slide_path new_slide_path >>
        let old_slide_rels_dir := Path.join (Path.dirname old_slide_path) "_rels" in
        let old_slide_rels_file := Path.join old_slide_rels_dir (slide_filename ++ ".rels") in
        (if exists_ second old_slide_rels_file
         then copy2 second old_slide_rels_file
                (in_dir ["ppt"; "slides"; "_rels"; slide_filename ++ ".rels"])
         else ret tt) >>
        let new_slide_elem :=
          ET.set (ET.qname ns "id") new_rid
            (ET.set "id" new_id (ET.Element (ET.qname ns "sldId") [] [])) in
        let new_rel_elem :=
          ET.set "Target" ("slides/" ++ slide_filename)
            (ET.set "Type" slide_rel_type
               (ET.set "Id" new_rid (ET.Element "Relationship" [] []))) in
        ret (Vars (ET.append new_slide_elem (slide_id_list1 v))
                  (ET.append new_rel_elem (rels_root v))
                  (max_id v) (max_rel_id v) (slide_mapping v) (rel_mapping v))
  end.

Fixpoint slides_loop (second : tree) (ns : string) (v : vars)
    (slides : list ET.element) : M vars :=
  match slides with
  | [] => ret v
  | e :: rest => let* v' := slide_step second ns v e in slides_loop second ns v' rest
  end.

(** [os.path.isfile], [os.path.isdir] *)
Definition isfile (t : tree) (path : string) : bool :=
  match stat t path with IsFile _ => true | _ => false end.
Definition isdir (t : tree) (path : string) : bool :=
  match stat t path with IsDir => true | _ => false end.

(** [shutil.copytree(src, dst)] for folders given by clean relative paths:
    every file below [src] lands at the same place below [dst]. *)
Definition copytree (second : tree) (src dst : string) : M unit :=
  fun s =>
    Ok tt (fold_left
             (fun acc k =>
                match strip_prefix (src ++ "/") k, second !! k with
                | Some rest, Some c => <[dst ++ "/" ++ rest := c]> acc
                | _, _ => acc
                end)
             (elements (dom second)) s).

(** The loops that copy whole folders of the second package. *)
Definition copy_folder (second : tree) (folder : string) : M unit :=
  let src_folder := in_dir ["ppt"; folder] in
  let dst_folder := in_dir ["ppt"; folder] in
  if exists_ second src_folder then
    let* items := lift (listdir second src_folder) in
    forM (fun item =>
            let src_item := Path.join src_folder item in
            let dst_item := Path.join dst_folder item in
            if isfile second src_item then copy2 second src_item dst_item
            else if isdir second src_item then
              let* b := get_base in
              if negb (exists_ b dst_item) then copytree second src_item dst_item
              else ret tt
            else ret tt)
         items
  else ret tt.

Definition copy_chart_rels (second : tree) : M unit :=
  let charts_rels := in_dir ["ppt"; "charts"; "_rels"] in
  if exists_ second charts_rels then
    let* items := lift (listdir second charts_rels) in
    forM (fun item =>
            let src_item := Path.join charts_rels item in
            if isfile second src_item then copy2 second src_item src_item else ret tt)
         items
  else ret tt.

(** The merge of the content-type documents: the elements of the second
    that carry a [PartName] the first does not have are appended. *)
Definition merge_content_types (ct_root1 ct_root2 : ET.element) : ET.element :=
  let existing_partnames :=
    map (ET.get "PartName") (ET.findall_desc (ET.has_attr "PartName") ct_root1) in
  fold_left
    (fun root override =>
       if bool_decide (ET.get "PartName" override ∈ existing_partnames) then root
       else ET.append override root)
    (ET.findall_desc (ET.has_attr "PartName") ct_root2) ct_root1.

(** The function from the reading of the presentations to the writing of
    the three documents. *)
Definition merge_body (second : tree) : M unit :=
  let pres1_xml_path := in_dir ["ppt"; "presentation.xml"] in
  let* root1 := parse_base pres1_xml_path in
  let* root2 := lift (parse second (in_dir ["ppt"; "presentation.xml"])) in
  let ns := ET.brace_group (ET.tag root1) in
  let* lst_tag := lift (p_tag ns "sldIdLst") in
  let* sld_tag := lift (p_tag ns "sldId") in
  match ET.find_desc (ET.tag_is lst_tag) root1, ET.find_desc (ET.tag_is lst_tag) root2 with
  | Some list1, Some slide_id_list2 =>
      let* seed_id := lift (highest_slide_id 0 (ET.findall_desc (ET.tag_is sld_tag) list1)) in
      let rels_path := in_dir ["ppt"; "_rels"; "presentation.xml.rels"] in
      let* rels0 := parse_base rels_path in
      let seed_rel_id := highest_rel_id 0 (ET.findall_desc (ET.has_attr "Id") rels0) in
      let* v := slides_loop second (default "" ns)
                  (Vars list1 rels0 seed_id seed_rel_id ∅ ∅)
                  (ET.findall_desc (ET.tag_is sld_tag) slide_id_list2) in
      forM (copy_folder second) ["charts"; "media"; "embeddings"; "theme"] >>
      copy_chart_rels second >>
      let content_types_path := in_dir ["[Content_Types].xml"] in
      let* ct_root1 := parse_base content_types_path in
      let* ct_root2 := lift (parse second content_types_path) in
      write pres1_xml_path
        (Xml (default root1 (ET.replace_first (ET.tag_is lst_tag) (slide_id_list1 v) root1))) >>
      write rels_path (Xml (rels_root v)) >>
      write content_types_path (Xml (merge_content_types ct_root1 ct_root2))
  | _, _ => raise ValueError
  end.

(** [merge_pptx_files(pptx1_path, pptx2_path, output_path)] on the machine
    [w], where [temp_dir] is the folder [mkdtemp()] creates: the machine it
    leaves, and the value it returns or the exception that escapes. *)
Definition merge_pptx_files (temp_dir : string) (w : world)
    (pptx1_path pptx2_path output_path : string) : world * (exn + string) :=
  let staged (l : list (string * tree)) : world :=
    World (archives w) (<[temp_dir := list_to_map l]> (folders w)) in
  match extract w pptx1_path ∅ with
  | inl e => (staged [("base", ∅)], inl e)
  | inr base0 =>
      match extract w pptx2_path ∅ with
      | inl e => (staged [("base", base0); ("second", ∅)], inl e)
      | inr second =>
          match merge_body second base0 with
          | Raise e b => (staged [("base", b); ("second", second)], inl e)
          | Ok _ b =>
              (World (<[output_path ++ ".pptx" := b]>
                        (delete (output_path ++ ".zip") (archives w)))
                     (delete temp_dir (folders w)),
               inr (output_path ++ ".pptx"))
          end
      end
  end.

End Mk2.

(* ===================================================================== *)
(** * mk3.py *)
(* ===================================================================== *)

Module Mk3.
Import FS.

(** What [merge_pptx_files] of [mk3.py] computes from the six documents it
    parses, up to the three it writes back.  The copying of the folders of
    the second package (its step 1) reads and writes none of them. *)

(** The lines the script prints while it works on the documents. *)
Inductive line :=
  | NoSlideListFirst
  | NoSlideListSecond
  | NoRelationshipFor (old_id : option string).

(** An exception leaves what was printed before it. *)
Inductive outcome (A : Type) :=
  | Ok (a : A) (stdout : list line)
  | Raise (e : exn) (stdout : list line).
Arguments Ok {A} a stdout.
Arguments Raise {A} e stdout.

Definition M (A : Type) : Type := list line -> outcome A.

Definition ret {A} (a : A) : M A := fun out => Ok a out.
Definition bind {A B} (m : M A) (f : A -> M B) : M B :=
  fun out => match m out with
             | Ok a out' => f a out'
             | Raise e out' => Raise e out'
             end.
Definition raise {A} (e : exn) : M A := fun out => Raise e out.
Definition lift {A} (r : exn + A) : M A :=
  match r with inl e => raise e | inr a => ret a end.
Definition print (l : line) : M unit := fun out => Ok tt (out ++ [l]).

Declare Scope mk3_scope.
Delimit Scope mk3_scope with mk3.
Notation "'let*' p ':=' m 'in' k" := (bind m (fun p => k))
  (at level 10, p pattern, m at level 100, k at level 200) : mk3_scope.
Notation "m '>>' k" := (bind m (fun _ => k))
  (at level 100, k at level 200, right associativity) : mk3_scope.
Local Open Scope mk3_scope.

(** The namespace the script puts under the prefix [r]. *)
Definition rel_ns : string :=
  "http://schemas.openxmlformats.org/officeDocument/2006/relationships".

Definition slide_rel_type : string :=
  "http://schemas.openxmlformats.org/officeDocument/2006/relationships/slide".

(** The variables the two loops update. *)
Record vars := Vars {
  slide_id_list1 : ET.element;
  rels_root1 : ET.element;
  max_id : Z;
  max_rel_id : Z;
  rid_mapping : gmap (option string) string
}.

(** Step 3: one iteration of the loop over the slides of the second
    presentation. *)
Definition slide_step (ns : string) (rels_root2 : ET.element) (v : vars)
    (slide_id : ET.element) : M vars :=
  let old_id := ET.get "id" slide_id in
  let r_id_attr := ET.qname rel_ns "id" in
  let old_rid := ET.get r_id_attr slide_id in
  let new_max_id := max_id v + 1 in
  let new_max_rel_id := max_rel_id v + 1 in
  let new_id := Py.str new_max_id in
  let new_rid := "rId" ++ Py.str new_max_rel_id in
  let v := Vars (slide_id_list1 v) (rels_root1 v) new_max_id new_max_rel_id
                (<[old_rid := new_rid]> (rid_mapping v)) in
  let* found := lift (Mk2.findall_id (Mk2.fmt old_rid) rels_root2) in
  let slide_target := match found with rel :: _ => ET.get "Target" rel | [] => None end in
  let skip := print (NoRelationshipFor old_id) >> ret v in
  match slide_target with
  | None => skip
  | Some slide_target =>
      if String.eqb slide_target "" then skip
      else
        let new_slide_elem :=
          ET.set r_id_attr new_rid
            (ET.set "id" new_id (ET.Element (ET.qname ns "sldId") [] [])) in
        let rel_elem :=
          ET.set "Target" slide_target
            (ET.set "Type" slide_rel_type
               (ET.set "Id" new_rid (ET.Element "Relationship" [] []))) in
        ret (Vars (ET.append new_slide_elem (slide_id_list1 v))
                  (ET.append rel_elem (rels_root1 v))
                  (max_id v) (max_rel_id v) (rid_mapping v))
  end.

Fixpoint slides_loop (ns : string) (rels_root2 : ET.element) (v : vars)
    (slides : list ET.element) : M vars :=
  match slides with
  | [] => ret v
  | e :: rest => let* v' := slide_step ns rels_root2 v e in slides_loop ns rels_root2 v' rest
  end.

(** Step 4: whether the first relationship document already has a
    relationship with this target and this type. *)
Definition target_exists (rels_root1 : ET.element) (target rel_type : option string)
  : bool :=
  existsb (fun existing_rel =>
             bool_decide (ET.get "Target" existing_rel = target)
             && bool_decide (ET.get "Type" existing_rel = rel_type))
          (ET.findall_desc (ET.has_attr "Target") rels_root1).

(** One iteration of the loop over the relationships of the second
    presentation.  A relationship without [Type] or without [Target] that
    is not passed over is appended with the value [None], which the
    writing of the document refuses with a [TypeError]; nothing the script
    does in between can be observed, so the exception is raised here. *)
Definition rel_step (v : vars) (rel : ET.element) : M vars :=
  let rid := ET.get "Id" rel in
  let rel_type := ET.get "Type" rel in
  let target := ET.get "Target" rel in
  if bool_decide (rel_type = Some slide_rel_type) then ret v
  else if target_exists (rels_root1 v) target rel_type then ret v
  else
    match rel_type, target with
    | Some ty, Some t =>
        let new_max_rel_id := max_rel_id v + 1 in
        let new_rid := "rId" ++ Py.str new_max_rel_id in
        let new_rel :=
          ET.set "Target" t
            (ET.set "Type" ty
               (ET.set "Id" new_rid (ET.Element "Relationship" [] []))) in
        let new_rel :=
          if bool_decide (ET.get "TargetMode" rel = Some "External")
          then ET.set "TargetMode" "External" new_rel
          else new_rel in
        ret (Vars (slide_id_list1 v) (ET.append new_rel (rels_root1 v))
                  (max_id v) new_max_rel_id (<[rid := new_rid]> (rid_mapping v)))
    | _, _ => raise TypeError
    end.

Fixpoint rels_loop (v : vars) (rels : list ET.element) : M vars :=
  match rels with
  | [] => ret v
  | rel :: rest => let* v' := rel_step v rel in rels_loop v' rest
  end.

(** From the parsed documents to the documents written. *)
Definition merge_documents (root1 root2 rels1 rels_root2 ct_root1 ct_root2 : ET.element)
  : M (ET.element * ET.element * ET.element) :=
  let ns := ET.brace_group (ET.tag root1) in
  let* lst_tag := lift (Mk2.p_tag ns "sldIdLst") in
  let* sld_tag := lift (Mk2.p_tag ns "sldId") in
  match ET.find_desc (ET.tag_is lst_tag) root1, ET.find_desc (ET.tag_is lst_tag) root2 with
  | Some list1, Some slide_id_list2 =>
      let* seed_id :=
        lift (Mk2.highest_slide_id 0 (ET.findall_child (ET.tag_is sld_tag) list1)) in
      let seed_rel_id := Mk2.highest_rel_id 0 (ET.findall_desc (ET.has_attr "Id") rels1) in
      let ct := Mk2.merge_content_types ct_root1 ct_root2 in
      let* v := slides_loop (default "" ns) rels_root2
                  (Vars list1 rels1 seed_id seed_rel_id ∅)
                  (ET.findall_child (ET.tag_is sld_tag) slide_id_list2) in
      let* v := rels_loop v (ET.findall_desc (ET.has_attr "Id") rels_root2) in
      ret (default root1 (ET.replace_first (ET.tag_is lst_tag) (slide_id_list1 v) root1),
           rels_root1 v, ct)
  | list1, list2 =>
      (match list1 with None => print NoSlideListFirst | Some _ => ret tt end) >>
      (match list2 with None => print NoSlideListSecond | Some _ => ret tt end) >>
      raise ValueError
  end.

End Mk3.

(* ===================================================================== *)
(** * Vocabulary of the properties *)
(* ===================================================================== *)

(** The value of a decimal numeral read from the left, starting from [acc]:
    what [Py.int_digits] computes on its digits. *)
Fixpoint uval (d : Decimal.uint) (acc : Z) : Z :=
  match d with
  | Decimal.Nil => acc
  | Decimal.D0 l => uval l (10 * acc + 0)
  | Decimal.D1 l => uval l (10 * acc + 1)
  | Decimal.D2 l => uval l (10 * acc + 2)
  | Decimal.D3 l => uval l (10 * acc + 3)
  | Decimal.D4 l => uval l (10 * acc + 4)
  | Decimal.D5 l => uval l (10 * acc + 5)
  | Decimal.D6 l => uval l (10 * acc + 6)
  | Decimal.D7 l => uval l (10 * acc + 7)
  | Decimal.D8 l => uval l (10 * acc + 8)
  | Decimal.D9 l => uval l (10 * acc + 9)
  end.

(** The characters [Py.str] produces: digits and the sign. *)
Definition is_numeral_char (c : ascii) : bool := Py.is_digit c || Ascii.eqb c "-".

Definition not_slash (c : ascii) : bool := negb (Path.is_slash c).

(** The places [copy_elements_method.py] writes for the unit numbered [k]. *)
Definition new_slide_path (k : Z) : string := "slides/slide" ++ Py.str k ++ ".xml".
Definition slide_key (k : Z) : string := "ppt/slides/slide" ++ Py.str k ++ ".xml".
Definition slide_rels_key (k : Z) : string :=
  "ppt/slides/_rels/slide" ++ Py.str k ++ ".xml.rels".

(** The part a relationship target names, seen from the part at [owner]
    (both relative to the folder [ppt]). *)
Definition resolve (owner target : string) : string :=
  Path.normpath (Path.join (Path.dirname owner) target).

(** The two elements [copy_elements_method.py] appends for a merged unit
    that receives slide id [sid] and relationship number [rid]. *)
Definition new_slide_elem (ns rns : string) (sid rid : Z) : ET.element :=
  ET.set (ET.qname rns "id") ("rId" ++ Py.str rid)
    (ET.set "id" (Py.str sid) (ET.Element (ET.qname ns "sldId") [] [])).

Definition new_rel_elem (rels_ns : string) (sid rid : Z) : ET.element :=
  ET.set "Target" (new_slide_path sid)
    (ET.set "Type" CopyElementsMethod.slide_rel_type
       (ET.set "Id" ("rId" ++ Py.str rid)
          (ET.Element (ET.qname rels_ns "Relationship") [] []))).

(** [m + 1, ..., m + n] *)
Definition upfrom (m : Z) (n : nat) : list Z := map (fun i => m + Z.of_nat i) (seq 1 n).

(** ** Vocabulary for copy_elements_method.py *)

(** The source part a unit of the added presentation stands for: the
    target of the relationship its [id] attribute names, when that
    relationship exists and the part is in the package.  [None] for a unit
    the loop skips. *)
Definition unit_source (add : FS.tree) (add_rns : string) (u : ET.element)
  : option string :=
  match FS.parse add (Sys.in_dir ["ppt"; "_rels"; "presentation.xml.rels"]) with
  | inr add_rels_root =>
      match List.find
              (fun rel => bool_decide (ET.get "Id" rel = ET.get (ET.qname add_rns "id") u))
              (ET.findall_desc (ET.has_attr "Id") add_rels_root) with
      | Some slide_rel =>
          match ET.get "Target" slide_rel with
          | Some slide_path =>
              if FS.exists_ add (Sys.in_dir ["ppt"; slide_path])
              then Some slide_path else None
          | None => None
          end
      | None => None
      end
  | inl _ => None
  end.

(** The keys below which media, charts and embedded workbooks are copied. *)
Definition resource_key (k : string) : Prop :=
  Py.startswith "ppt/media/" k = true \/ Py.startswith "ppt/charts/" k = true
  \/ Py.startswith "embeddings/" k = true.

(** [s'] comes from [s] by writing files whose keys satisfy [P]: nothing is
    printed, no file disappears, and the files outside [P] are untouched. *)
Definition frame (P : string -> Prop) (s s' : CopyElementsMethod.state) : Prop :=
  CopyElementsMethod.stdout s' = CopyElementsMethod.stdout s
  /\ (forall k, is_Some (CopyElementsMethod.base s !! k) ->
                is_Some (CopyElementsMethod.base s' !! k))
  /\ (forall k, ~ P k -> CopyElementsMethod.base s' !! k = CopyElementsMethod.base s !! k).

(** The relationship file of the slide at [slide_path] in the source. *)
Definition slide_rel_path (slide_path : string) : string :=
  Sys.in_dir ["ppt"; Path.dirname slide_path; "_rels"; Path.basename slide_path ++ ".rels"].

(** [e'] is [e] with the elements [news] appended. *)
Definition extends (e e' : ET.element) (news : list ET.element) : Prop :=
  ET.tag e' = ET.tag e /\ ET.attrib e' = ET.attrib e
  /\ ET.children e' = (ET.children e ++ news)%list.

(** The keys the loop of [copy_elements_method.py] may write while its
    slide counter goes from [m] to [m']. *)
Definition loop_key (m m' : Z) (key : string) : Prop :=
  resource_key key
  \/ exists j, m < j <= m' /\ (key = slide_key j \/ key = slide_rels_key j).

(** The dictionary [added_media] against the target tree [t]: every
    destination it holds is a name [media/image...], and the destination of
    a media file that is in the source package is in the target. *)
Definition media_inv (add : FS.tree) (am : gmap string string) (t : FS.tree) : Prop :=
  forall p f, am !! p = Some f ->
    (exists name, f = "media/" ++ name /\ Py.all not_slash name = true
                  /\ Py.startswith "image" name = true)
    /\ (FS.exists_ add (Sys.in_dir ["ppt"; p]) = true -> is_Some (t !! ("ppt/" ++ f))).

(** The relationship [rel] of the source slide at [slide_path], rewritten
    to [rel'] for the new slide number [k], against the tree [final]: when
    [rel] is a media relationship with a local target, or a chart
    relationship, and the part it names is in the source package, then the
    target of [rel'] names a part of [final]. *)
Definition closed_rel (add final : FS.tree) (slide_path : string) (k : Z)
    (rel rel' : ET.element) : Prop :=
  forall target ty,
    ET.get "Target" rel = Some target -> ET.get "Type" rel = Some ty ->
    (CopyElementsMethod.is_media_type ty = true /\ Py.startswith "http" target = false)
    \/ (CopyElementsMethod.is_media_type ty = false /\ Py.contains "chart" ty = true) ->
    FS.exists_ add (Sys.in_dir ["ppt"; resolve slide_path target]) = true ->
    exists target', ET.get "Target" rel' = Some target'
      /\ is_Some (final !! ("ppt/" ++ resolve (new_slide_path k) target')).

(** The unit copied from [slide_path] to slide number [k], against [final]:
    when the source slide has a relationship file, [final] holds the
    rewritten file at the place of the new slide, and each of its rewritten
    relationships is closed. *)
Definition unit_closed (add final : FS.tree) (slide_path : string) (k : Z) : Prop :=
  forall rels_root, FS.parse add (slide_rel_path slide_path) = inr rels_root ->
    exists news,
      final !! slide_rels_key k = Some (FS.Xml (ET.assign_desc "Target" news rels_root))
      /\ Forall2 (closed_rel add final slide_path k)
                 (ET.findall_desc (ET.has_attr "Target") rels_root) news.

(** What the loop over the slides has done when it ends in [(v', s')],
    started in [(v, s)], for the source parts [srcs] of the units it did
    not skip: the counters advanced by their number, one [sldId] and one
    [Relationship] were appended for each with consecutive numbers, only
    loop keys were written, and each unit's part and relationships are in
    the tree. *)
Definition loop_post (add : FS.tree) (ns rns rels_ns : string) (srcs : list string)
    (v v' : CopyElementsMethod.vars) (s s' : CopyElementsMethod.state) : Prop :=
  let m := CopyElementsMethod.max_slide_id v in
  let r := CopyElementsMethod.max_rel_id v in
  let n := length srcs in
  CopyElementsMethod.max_slide_id v' = m + Z.of_nat n
  /\ CopyElementsMethod.max_rel_id v' = r + Z.of_nat n
  /\ extends (CopyElementsMethod.slides_element v) (CopyElementsMethod.slides_element v')
       (map (fun i : nat => new_slide_elem ns rns (m + Z.of_nat i) (r + Z.of_nat i)) (seq 1 n))
  /\ extends (CopyElementsMethod.rels_root v) (CopyElementsMethod.rels_root v')
       (map (fun i : nat => new_rel_elem rels_ns (m + Z.of_nat i) (r + Z.of_nat i)) (seq 1 n))
  /\ frame (loop_key m (CopyElementsMethod.max_slide_id v')) s s'
  /\ CopyElementsMethod.added_media v ⊆ CopyElementsMethod.added_media v'
  /\ media_inv add (CopyElementsMethod.added_media v') (CopyElementsMethod.base s')
  /\ forall (j : nat) sp, srcs !! j = Some sp ->
       (exists c, FS.read add (Sys.in_dir ["ppt"; sp]) = inr c
                  /\ CopyElementsMethod.base s' !! slide_key (m + Z.of_nat (S j)) = Some c)
       /\ unit_closed add (CopyElementsMethod.base s') sp (m + Z.of_nat (S j)).

(** The three documents [copy_elements_method.py] rewrites. *)
Definition pres_key : string := "ppt/presentation.xml".
Definition rels_key : string := "ppt/_rels/presentation.xml.rels".
Definition ct_key : string := "[Content_Types].xml".

(** The first element that satisfies [p] among the elements of [l] and
    their descendants, in document order; and the list with that element
    replaced by [new], as [ET.replace_first] does below an element. *)
Definition first_in (p : ET.element -> bool) (l : list ET.element) : option ET.element :=
  head (List.filter p (flat_map ET.iter l)).

Definition replace_in (p : ET.element -> bool) (new : ET.element)
  : list ET.element -> option (list ET.element) :=
  fix go (l : list ET.element) : option (list ET.element) :=
    match l with
    | [] => None
    | c :: r =>
        if p c then Some (new :: r)
        else match ET.replace_first p new c with
             | Some c' => Some (c' :: r)
             | None => match go r with
                       | Some r' => Some (c :: r')
                       | None => None
                       end
             end
    end.

(** The seeds of the two counters of [copy_elements_method.py], read off a
    target tree the way the script does, and the source parts of the units
    of a source tree that its loop does not skip. *)
Definition unit_seed (base0 : FS.tree) : Z :=
  match FS.parse base0 pres_key with
  | inr root =>
      let ns := CopyElementsMethod.get_namespace root "p" in
      match CopyElementsMethod.locate_slides ns root with
      | inr (slides0, _) =>
          match CopyElementsMethod.slide_ids_of ns slides0 with
          | inr ids => Py.max_or 255 ids
          | inl _ => 255
          end
      | inl _ => 255
      end
  | inl _ => 255
  end.

Definition rel_seed (base0 : FS.tree) : Z :=
  match FS.parse base0 rels_key with
  | inr rels0 =>
      match CopyElementsMethod.rel_ids_of rels0 with
      | inr rids => Py.max_or 0 rids
      | inl _ => 0
      end
  | inl _ => 0
  end.

Definition source_units (add : FS.tree) : list ET.element :=
  match FS.parse add pres_key with
  | inr add_root =>
      let add_ns := CopyElementsMethod.get_namespace add_root "p" in
      match ET.find_desc (ET.tag_is (ET.qname add_ns "sldIdLst")) add_root with
      | Some add_slides =>
          ET.findall_child (ET.tag_is (ET.qname add_ns "sldId")) add_slides
      | None => []
      end
  | inl _ => []
  end.

Definition merged_sources (add : FS.tree) : list string :=
  match FS.parse add pres_key with
  | inr add_root =>
      omap (unit_source add (CopyElementsMethod.get_namespace add_root "r"))
           (source_units add)
  | inl _ => []
  end.

(** ** The claims of the specification, as predicates on a package *)

(** Graph closure: every relationship of the relationship file of every
    slide the slide list reaches names a part of the package.  [rid_attr]
    is the attribute of a [sldId] that holds its relationship id. *)
Definition graph_closed (rid_attr : string) (pkg : FS.tree) : Prop :=
  forall root rels_doc unit rid top slide_path slide_rels rel target,
    pkg !! pres_key = Some (FS.Xml root) ->
    pkg !! rels_key = Some (FS.Xml rels_doc) ->
    In unit (ET.descendants root) -> ET.get rid_attr unit = Some rid ->
    In top (ET.descendants rels_doc) -> ET.get "Id" top = Some rid ->
    ET.get "Target" top = Some slide_path ->
    pkg !! slide_rel_path slide_path = Some (FS.Xml slide_rels) ->
    In rel (ET.descendants slide_rels) -> ET.get "Target" rel = Some target ->
    ET.get "TargetMode" rel <> Some "External" ->
    is_Some (pkg !! ("ppt/" ++ resolve slide_path target)).

(** A relationship id some relationship document of the package uses. *)
Definition used_rel_id (pkg : FS.tree) (rid : string) : Prop :=
  exists key doc e,
    pkg !! key = Some (FS.Xml doc) /\ Py.endswith ".rels" key = true
    /\ In e (ET.descendants doc) /\ ET.get "Id" e = Some rid.

(** The declarations of a content-type document. *)
Definition declares_default (root : ET.element) (ext : string) : Prop :=
  exists e, In e (ET.findall_desc (ET.local_is "Default") root)
            /\ ET.get "Extension" e = Some ext.
Definition declares_override (root : ET.element) (part : string) : Prop :=
  exists e, In e (ET.findall_desc (ET.local_is "Override") root)
            /\ ET.get "PartName" e = Some part.

(** An element [update_content_types] may append to the document [root]:
    a [Default] for an extension, or an [Override] for a part name, that
    [root] does not declare. *)
Definition new_declaration (root : ET.element) (e : ET.element) : Prop :=
  ET.children e = []
  /\ ((ET.tag e = ET.qname CopyElementsMethod.ct_ns "Default"
       /\ exists ext, ET.get "Extension" e = Some ext /\ ~ declares_default root ext)
      \/ (ET.tag e = ET.qname CopyElementsMethod.ct_ns "Override"
          /\ exists part, ET.get "PartName" e = Some part /\ ~ declares_override root part)).

(** ** Vocabulary for mk2.py *)

(** The entry [mk2.py] appends to the slide list for a unit that receives
    the slide id [sid] and the relationship number [rid]. *)
Definition mk2_slide_elem (ns : string) (sid rid : Z) : ET.element :=
  ET.set (ET.qname ns "id") ("rId" ++ Py.str rid)
    (ET.set "id" (Py.str sid) (ET.Element (ET.qname ns "sldId") [] [])).

(** The slide ids and the relationship numbers of a list of allocations,
    counted from the watermarks [m] and [r]. *)
Definition ids_from (m : Z) (ks : list nat) : list Z := map (fun i : nat => m + Z.of_nat i) ks.

(** ** Two runs of copy_elements_method.py *)

(** The keys whose names hold a value of [uuid.uuid4()]: the copies of
    charts and of embedded workbooks. *)
Definition drawn_key (key : string) : bool :=
  Py.startswith "ppt/charts/" key || Py.startswith "embeddings/" key.

Definition drawn (key : string) : Prop := drawn_key key = true.

(** Two trees hold the same paths, the drawn ones apart. *)
Definition same_paths (t1 t2 : FS.tree) : Prop :=
  forall key, drawn_key key = false -> (is_Some (t1 !! key) <-> is_Some (t2 !! key)).

(** ** Further vocabulary *)

(** Two results of [FS.stat] that the scripts cannot tell apart unless they
    read the file. *)
Definition same_node (n n' : FS.node) : Prop :=
  match n, n' with
  | FS.Absent, FS.Absent | FS.IsDir, FS.IsDir | FS.IsFile _, FS.IsFile _ => True
  | _, _ => False
  end.

(** The destination [copy_elements_method.py] gives to the media file at
    the source path [p] when the dictionary holds [i] entries. *)
Definition media_name (i : nat) (p : string) : string :=
  "media/image" ++ Py.str (Z.of_nat i + 1) ++ snd (Path.splitext p).

(** The dictionary [added_media] numbers its entries: each destination is
    the name made from the entry's source path and a number below the size
    of the dictionary, and two entries never have the same number. *)
Definition media_numbered (am : gmap string string) : Prop :=
  exists idx : string -> nat,
    (forall p f, am !! p = Some f -> (idx p < size am)%nat /\ f = media_name (idx p) p)
    /\ (forall p1 p2 f1 f2, am !! p1 = Some f1 -> am !! p2 = Some f2 ->
                            idx p1 = idx p2 -> p1 = p2).

(** The registry [update_content_types] writes, from the document it read
    and the listings of [ppt/slides] and [ppt/charts]. *)
Definition updated_registry (root : ET.element) (slide_files chart_files : list string)
  : ET.element :=
  let existing_defaults :=
    map (ET.get "Extension") (ET.findall_desc (ET.local_is "Default") root) in
  let root1 :=
    fold_left (CopyElementsMethod.add_default existing_defaults)
              CopyElementsMethod.extensions root in
  let existing_overrides :=
    omap (fun override =>
            match ET.get "PartName" override with
            | Some part_name => if String.eqb part_name "" then None else Some part_name
            | None => None
            end)
         (ET.findall_desc (ET.local_is "Override") root1) in
  fold_left (CopyElementsMethod.add_override "/ppt/charts/"
               CopyElementsMethod.content_type_chart existing_overrides)
            chart_files
            (fold_left (CopyElementsMethod.add_override "/ppt/slides/"
                          CopyElementsMethod.content_type_slides existing_overrides)
                       slide_files root1).

(** The listing of [ppt/charts] as [update_content_types] takes it: none
    when the folder does not exist. *)
Definition chart_listing (t : FS.tree) (chart_files : list string) : Prop :=
  if FS.exists_ t (Sys.in_dir ["ppt"; "charts"])
  then FS.listdir t (Sys.in_dir ["ppt"; "charts"]) = inr chart_files
  else chart_files = [].

(** ** Vocabulary for mk3.py *)

(** The target [mk3.py] finds for a unit of the second presentation: that
    of the first relationship with the unit's relationship id, when it is
    not empty. *)
Definition mk3_unit_target (rels_root2 : ET.element) (u : ET.element) : option string :=
  match Mk2.findall_id (Mk2.fmt (ET.get (ET.qname Mk3.rel_ns "id") u)) rels_root2 with
  | inr (rel :: _) =>
      match ET.get "Target" rel with
      | Some t => if String.eqb t "" then None else Some t
      | None => None
      end
  | _ => None
  end.

Definition mk3_resolves (rels_root2 : ET.element) (u : ET.element) : bool :=
  match mk3_unit_target rels_root2 u with Some _ => true | None => false end.

(** The type and the target of a relationship. *)
Definition rel_key (rel : ET.element) : option string * option string :=
  (ET.get "Type" rel, ET.get "Target" rel).

(* ===================================================================== *)
(** * Two small packages *)
(* ===================================================================== *)

(** A target with one slide (id 256, stored as [slide257.xml]) and a source
    with three units: the first and the third resolve, the second names a
    relationship id the source does not have.  Both source slides show the
    same picture and the same chart; the second also names a picture that
    is not in the source package.  The units carry their relationship ids
    under the attribute name [copy_elements_method.py] computes. *)
Module Example.
Import FS Sys.

Definition pns : string := "http://schemas.openxmlformats.org/presentationml/2006/main".
Definition rns : string := "http://schemas.openxmlformats.org/officeDocument/2006/main".
Definition relns : string := "http://schemas.openxmlformats.org/package/2006/relationships".
Definition ctns : string := "http://schemas.openxmlformats.org/package/2006/content-types".
Definition image_type : string :=
  "http://schemas.openxmlformats.org/officeDocument/2006/relationships/image".
Definition chart_type : string :=
  "http://schemas.openxmlformats.org/officeDocument/2006/relationships/chart".
Definition master_type : string :=
  "http://schemas.openxmlformats.org/officeDocument/2006/relationships/slideMaster".
Definition layout_type : string :=
  "http://schemas.openxmlformats.org/officeDocument/2006/relationships/slideLayout".
Definition slide_type : string := CopyElementsMethod.slide_rel_type.

Definition sld (id rid : string) : ET.element :=
  ET.Element (ET.qname pns "sldId") [("id", id); (ET.qname rns "id", rid)] [].
Definition slide_list (l : list ET.element) : ET.element :=
  ET.Element (ET.qname pns "sldIdLst") [] l.
Definition presentation (l : list ET.element) : ET.element :=
  ET.Element (ET.qname pns "presentation") []
    [ET.Element (ET.qname pns "sldMasterIdLst") [] []; slide_list l].
Definition rel (id ty target : string) : ET.element :=
  ET.Element (ET.qname relns "Relationship")
    [("Id", id); ("Type", ty); ("Target", target)] [].
Definition rels (l : list ET.element) : ET.element :=
  ET.Element (ET.qname relns "Relationships") [] l.
Definition default_type (ext mime : string) : ET.element :=
  ET.Element (ET.qname ctns "Default") [("Extension", ext); ("ContentType", mime)] [].
Definition override_type (part mime : string) : ET.element :=
  ET.Element (ET.qname ctns "Override") [("PartName", part); ("ContentType", mime)] [].
Definition types (l : list ET.element) : ET.element :=
  ET.Element (ET.qname ctns "Types") [] l.

Definition base_root : ET.element := presentation [sld "256" "rId2"].
Definition base_rels : ET.element :=
  rels [rel "rId1" master_type "slideMasters/slideMaster1.xml";
        rel "rId2" slide_type "slides/slide257.xml"].
Definition base_slide_rels : ET.element :=
  rels [rel "rId1" layout_type "../slideLayouts/slideLayout1.xml";
        rel "rId3" image_type "../media/image1.png"].
Definition base_types : ET.element :=
  types [default_type "png" "image/png";
         override_type "/ppt/slides/slide257.xml" CopyElementsMethod.content_type_slides].

Definition base_pkg : tree :=
  list_to_map
    [("ppt/presentation.xml", Xml base_root);
     ("ppt/_rels/presentation.xml.rels", Xml base_rels);
     ("ppt/slides/slide257.xml", Blob "target slide");
     ("ppt/slides/_rels/slide257.xml.rels", Xml base_slide_rels);
     ("ppt/media/image1.png", Blob "target picture");
     ("[Content_Types].xml", Xml base_types)].

Definition add_root : ET.element :=
  presentation [sld "256" "rId2"; sld "257" "rId9"; sld "258" "rId3"].
Definition add_rels : ET.element :=
  rels [rel "rId1" master_type "slideMasters/slideMaster1.xml";
        rel "rId2" slide_type "slides/slide1.xml";
        rel "rId3" slide_type "slides/slide2.xml"].
Definition add_slide1_rels : ET.element :=
  rels [rel "rId1" image_type "../media/image1.png";
        rel "rId2" chart_type "../charts/chart1.xml"].
Definition add_slide2_rels : ET.element :=
  rels [rel "rId1" image_type "../media/image1.png";
        rel "rId2" chart_type "../charts/chart1.xml";
        rel "rId3" image_type "../media/missing.png"].
Definition add_types : ET.element :=
  types [default_type "png" "image/x-png";
         override_type "/ppt/slides/slide257.xml" "application/xml"].

Definition add_pkg : tree :=
  list_to_map
    [("ppt/presentation.xml", Xml add_root);
     ("ppt/_rels/presentation.xml.rels", Xml add_rels);
     ("ppt/slides/slide1.xml", Blob "source slide 1");
     ("ppt/slides/slide2.xml", Blob "source slide 2");
     ("ppt/slides/_rels/slide1.xml.rels", Xml add_slide1_rels);
     ("ppt/slides/_rels/slide2.xml.rels", Xml add_slide2_rels);
     ("ppt/media/image1.png", Blob "source picture");
     ("ppt/charts/chart1.xml", Blob "source chart");
     ("[Content_Types].xml", Xml add_types)].

(** Two runs, told apart by the values [uuid.uuid4()] takes. *)
Definition uuid_a (k : nat) : Z := 100 + Z.of_nat k.
Definition uuid_b (k : nat) : Z := 200 + Z.of_nat k.

Definition start : CopyElementsMethod.state := CopyElementsMethod.State base_pkg [] 0.

Definition run_a : CopyElementsMethod.outcome CopyElementsMethod.ending :=
  Eval vm_compute in CopyElementsMethod.merge_body uuid_a add_pkg "out.pptx" start.
Definition run_b : CopyElementsMethod.outcome CopyElementsMethod.ending :=
  Eval vm_compute in CopyElementsMethod.merge_body uuid_b add_pkg "out.pptx" start.

Definition package_of (r : CopyElementsMethod.outcome CopyElementsMethod.ending) : tree :=
  match r with
  | CopyElementsMethod.Ok (CopyElementsMethod.Created p) _ => p
  | _ => ∅
  end.
Definition state_of (r : CopyElementsMethod.outcome CopyElementsMethod.ending)
  : CopyElementsMethod.state :=
  match r with
  | CopyElementsMethod.Ok _ s => s
  | _ => start
  end.

Definition pkg_a : tree := Eval vm_compute in package_of run_a.
Definition pkg_b : tree := Eval vm_compute in package_of run_b.
Definition end_a : CopyElementsMethod.state := Eval vm_compute in state_of run_a.
Definition end_b : CopyElementsMethod.state := Eval vm_compute in state_of run_b.

(** The same merge into a target whose slide list is empty. *)
Definition empty_base_pkg : tree :=
  <["ppt/presentation.xml" := Xml (presentation [])]> base_pkg.
Definition empty_start : CopyElementsMethod.state :=
  CopyElementsMethod.State empty_base_pkg [] 0.
Definition run_e : CopyElementsMethod.outcome CopyElementsMethod.ending :=
  Eval vm_compute in CopyElementsMethod.merge_body uuid_a add_pkg "out.pptx" empty_start.
Definition pkg_e : tree := Eval vm_compute in package_of run_e.
Definition end_e : CopyElementsMethod.state := Eval vm_compute in state_of run_e.

(** The content-type step alone, on the target package. *)
Definition state_after {A} (r : CopyElementsMethod.outcome A) : CopyElementsMethod.state :=
  match r with
  | CopyElementsMethod.Ok _ s => s
  | _ => start
  end.
Definition end_types : CopyElementsMethod.state :=
  Eval vm_compute in state_after (CopyElementsMethod.update_content_types start).

(** The loop of [mk2.py] over two units that carry their relationship id
    the way the script reads it: the first names a relationship the source
    does not have, the second is copied. *)
Definition mk2_sld (i r : string) : ET.element :=
  ET.Element (ET.qname pns "sldId") [("id", i); (ET.qname pns "id", r)] [].
Definition mk2_units : list ET.element := [mk2_sld "300" "rId7"; mk2_sld "301" "rId2"].
Definition mk2_vars : Mk2.vars :=
  Mk2.Vars (slide_list [mk2_sld "256" "rId2"]) base_rels 256 2 ∅ ∅.
Definition mk2_loop : Mk2.outcome Mk2.vars :=
  Eval vm_compute in Mk2.slides_loop add_pkg pns mk2_vars mk2_units base_pkg.
Definition mk2_end_vars : Mk2.vars :=
  Eval vm_compute in match mk2_loop with Mk2.Ok v _ => v | _ => mk2_vars end.
Definition mk2_end_base : tree :=
  Eval vm_compute in match mk2_loop with Mk2.Ok _ b => b | Mk2.Raise _ b => b end.

(** The machine before the merge: the two archives on disk. *)
Definition disk : world :=
  World (list_to_map [("base.pptx", base_pkg); ("add.pptx", add_pkg)]) ∅.

End Example.

(* ===================================================================== *)
(** * More small packages *)
(* ===================================================================== *)

(** A source whose units carry their relationship ids the way
    presentation packages do, under the relationships namespace; a target
    with a relationship id that is no [rId<n>]; a target without a slide
    list; and the loops of the three scripts on the packages above. *)
Module Example2.
Import FS Sys.

Definition std_sld (id rid : string) : ET.element :=
  ET.Element (ET.qname Example.pns "sldId")
    [("id", id); (ET.qname Mk3.rel_ns "id", rid)] [].
Definition std_add_root : ET.element :=
  Example.presentation [std_sld "256" "rId2"; std_sld "258" "rId3"].
Definition std_add_pkg : tree :=
  <["ppt/presentation.xml" := Xml std_add_root]> Example.add_pkg.

Definition run_std : CopyElementsMethod.outcome CopyElementsMethod.ending :=
  Eval vm_compute in
    CopyElementsMethod.merge_body Example.uuid_a std_add_pkg "out.pptx" Example.start.
Definition pkg_std : tree := Eval vm_compute in Example.package_of run_std.
Definition end_std : CopyElementsMethod.state := Eval vm_compute in Example.state_of run_std.

Definition odd_rels : ET.element :=
  Example.rels [Example.rel "rId1" Example.master_type "slideMasters/slideMaster1.xml";
                Example.rel "slide1" Example.slide_type "slides/slide257.xml"].
Definition odd_start : CopyElementsMethod.state :=
  CopyElementsMethod.State
    (<["ppt/_rels/presentation.xml.rels" := Xml odd_rels]> Example.base_pkg) [] 0.


(** The loop of [copy_elements_method.py] on the first example. *)
Definition loop_vars : CopyElementsMethod.vars :=
  CopyElementsMethod.Vars (Example.slide_list [Example.sld "256" "rId2"])
    Example.base_rels 256 2 ∅.
Definition loop_units : list ET.element :=
  [Example.sld "256" "rId2"; Example.sld "257" "rId9"; Example.sld "258" "rId3"].
Definition loop_run : CopyElementsMethod.outcome CopyElementsMethod.vars :=
  Eval vm_compute in
    CopyElementsMethod.slides_loop Example.uuid_a Example.add_pkg Example.pns Example.rns
      Example.relns Example.rns loop_vars loop_units Example.start.
Definition loop_end_vars : CopyElementsMethod.vars :=
  Eval vm_compute in
    match loop_run with CopyElementsMethod.Ok v _ => v | _ => loop_vars end.
Definition loop_end : CopyElementsMethod.state :=
  Eval vm_compute in Example.state_after loop_run.

(** One iteration of [mk2.py] that copies, and its loop over units it
    cannot resolve. *)
Definition mk2_step : Mk2.outcome Mk2.vars :=
  Eval vm_compute in
    Mk2.slide_step Example.add_pkg Example.pns Example.mk2_vars
      (Example.mk2_sld "301" "rId2") Example.base_pkg.
Definition mk2_step_vars : Mk2.vars :=
  Eval vm_compute in match mk2_step with Mk2.Ok v _ => v | _ => Example.mk2_vars end.
Definition mk2_step_base : tree :=
  Eval vm_compute in match mk2_step with Mk2.Ok _ b => b | Mk2.Raise _ b => b end.

Definition mk2_skip_loop : Mk2.outcome Mk2.vars :=
  Eval vm_compute in
    Mk2.slides_loop Example.add_pkg Example.pns Example.mk2_vars
      [std_sld "256" "rId2"; std_sld "258" "rId3"] Example.base_pkg.
Definition mk2_skip_vars : Mk2.vars :=
  Eval vm_compute in match mk2_skip_loop with Mk2.Ok v _ => v | _ => Example.mk2_vars end.

(** The two loops of [mk3.py], and its documents. *)
Definition theme_type : string :=
  "http://schemas.openxmlformats.org/officeDocument/2006/relationships/theme".
Definition mk3_rels2 : ET.element :=
  Example.rels [Example.rel "rId1" Example.master_type "slideMasters/slideMaster1.xml";
                Example.rel "rId2" Example.slide_type "slides/slide1.xml";
                Example.rel "rId3" Example.slide_type "slides/slide2.xml";
                Example.rel "rId5" theme_type "theme/theme1.xml";
                Example.rel "rId6" theme_type "theme/theme1.xml"].
Definition mk3_units : list ET.element :=
  [std_sld "300" "rId2"; std_sld "301" "rId9"; std_sld "302" "rId3"].
Definition mk3_vars : Mk3.vars :=
  Mk3.Vars (Example.slide_list [std_sld "256" "rId2"]) Example.base_rels 256 2 ∅.

Definition mk3_vars_of (r : Mk3.outcome Mk3.vars) : Mk3.vars :=
  match r with Mk3.Ok v _ => v | _ => mk3_vars end.
Definition mk3_out_of {A} (r : Mk3.outcome A) : list Mk3.line :=
  match r with Mk3.Ok _ o => o | Mk3.Raise _ o => o end.

Definition mk3_loop3 : Mk3.outcome Mk3.vars :=
  Eval vm_compute in Mk3.slides_loop Example.pns mk3_rels2 mk3_vars mk3_units [].
Definition mk3_vars3 : Mk3.vars := Eval vm_compute in mk3_vars_of mk3_loop3.
Definition mk3_out3 : list Mk3.line := Eval vm_compute in mk3_out_of mk3_loop3.

Definition mk3_loop4 : Mk3.outcome Mk3.vars :=
  Eval vm_compute in
    Mk3.rels_loop mk3_vars3 (ET.findall_desc (ET.has_attr "Id") mk3_rels2) mk3_out3.
Definition mk3_vars4 : Mk3.vars := Eval vm_compute in mk3_vars_of mk3_loop4.

Definition mk3_root1 : ET.element := Example.presentation [std_sld "256" "rId2"].
Definition mk3_root2 : ET.element := Example.presentation mk3_units.
Definition mk3_docs : Mk3.outcome (ET.element * ET.element * ET.element) :=
  Eval vm_compute in
    Mk3.merge_documents mk3_root1 mk3_root2 Example.base_rels mk3_rels2
      Example.base_types Example.add_types [].
Definition mk3_written : ET.element * ET.element * ET.element :=
  Eval vm_compute in
    match mk3_docs with
    | Mk3.Ok d _ => d
    | _ => (mk3_root1, Example.base_rels, Example.base_types)
    end.

(** The relationship of a chart to its embedded workbook, and the name
    the first draw of the first run gives to the copy. *)
Definition package_type : string :=
  "http://schemas.openxmlformats.org/officeDocument/2006/relationships/package".
Definition wb_target : string := "../embeddings/Microsoft_Excel_Sheet1.xlsx".
Definition wb_rel : ET.element := Example.rel "rId1" package_type wb_target.
Definition wb_name : string :=
  "embeddings/Microsoft_Excel_Sheet" ++ Py.hex8 (Example.uuid_a 0) ++ ".xlsx".

(** A source that holds the workbook where packages keep it. *)
Definition wb_add : FS.tree :=
  <["ppt/embeddings/Microsoft_Excel_Sheet1.xlsx" := FS.Blob "source workbook"]>
    Example.add_pkg.

End Example2.

Example normpath_up : Path.normpath (Path.join (Path.dirname "slides/slide1.xml") "../media/image1.png")
  = "media/image1.png".
Proof. reflexivity. Qed.
Example splitext_ex : Path.splitext "media/a.b/.hidden" = ("media/a.b/.hidden", "")
  /\ Path.splitext "media/pic.tar.gz" = ("media/pic.tar", ".gz").
Proof. split; reflexivity. Qed.
Example int_ex : Py.int " 1_000 " = Some 1000 /\ Py.int "-12" = Some (-12) /\ Py.int "1__0" = None
  /\ Py.int "" = None /\ Py.int "x" = None /\ Py.int (Py.replace "rId" "" "rId12") = Some 12.
Proof. repeat split; reflexivity. Qed.
Example hex_ex : Py.hex8 3735928559 = "deadbeef" /\ Py.str (-30) = "-30" /\ Py.str 257 = "257".
Proof. repeat split; reflexivity. Qed.

Example iter_ex :
  let leaf := ET.Element "c" [("Id", "rId1")] [] in
  let mid := ET.Element "b" [] [leaf] in
  ET.descendants (ET.Element "a" [] [mid; leaf]) = [mid; leaf; leaf].
Proof. reflexivity. Qed.
Example stat_ex :
  let t : FS.tree := {[ "ppt/slides/slide1.xml" := FS.Blob "s1" ]} in
  FS.stat t "ppt/slides/../slides/slide1.xml" = FS.IsFile (FS.Blob "s1")
  /\ FS.stat t "ppt/nothing/../slides/slide1.xml" = FS.Absent
  /\ FS.stat t "ppt/slides" = FS.IsDir
  /\ FS.stat t "../x" = FS.Absent
  /\ FS.listdir t "ppt" = inr ["slides"].
Proof. repeat split; vm_compute; reflexivity. Qed.
(* ===================================================================== *)
(** * Facts about the string primitives *)
(* ===================================================================== *)

Section PyFacts.
Import Py.

Lemma int_digits_uint d : forall acc b,
  (d <> Decimal.Nil \/ b = true) ->
  int_digits (NilEmpty.string_of_uint d) acc b = Some (uval d acc).
Proof.
  induction d; intros acc b H; simpl;
    try (apply IHd; right; reflexivity).
  destruct H as [H|H]; [congruence | subst; reflexivity].
Qed.

Lemma uval_pos d : forall p, uval d (Z.pos p) = Z.pos (Pos.of_uint_acc d p).
Proof.
  induction d; intros p; simpl; try reflexivity;
    try (rewrite <- IHd; f_equal; lia).
Qed.

Lemma uval_zero d : uval d 0 = Z.of_N (Pos.of_uint d).
Proof.
  induction d; simpl; try reflexivity; try assumption;
    try (change (10 * 0 + _) with (Z.pos 1) || idtac; apply uval_pos).
Qed.

(** Characters of a decimal numeral. *)
Lemma all_digits_uint d : all is_digit (NilEmpty.string_of_uint d) = true.
Proof. induction d; simpl; auto. Qed.

Lemma all_impl (p q : ascii -> bool) s :
  (forall c, p c = true -> q c = true) -> all p s = true -> all q s = true.
Proof.
  intros H. induction s as [|c r IH]; simpl; [reflexivity|].
  intros [Hc Hr]%andb_prop. rewrite (H _ Hc), (IH Hr). reflexivity.
Qed.

Lemma is_digit_cases c : is_digit c = true ->
  c = "0"%char \/ c = "1"%char \/ c = "2"%char \/ c = "3"%char \/ c = "4"%char \/
  c = "5"%char \/ c = "6"%char \/ c = "7"%char \/ c = "8"%char \/ c = "9"%char.
Proof.
  destruct c as [[] [] [] [] [] [] [] []]; cbv; intros; try discriminate; tauto.
Qed.

Lemma digit_not_space c : is_digit c = true -> is_space c = false.
Proof.
  intros H. destruct (is_digit_cases c H) as [->|[->|[->|[->|[->|[->|[->|[->|[->| ->]]]]]]]]]; reflexivity.
Qed.

Lemma lstrip_id s : all (fun c => negb (is_space c)) s = true -> lstrip s = s.
Proof.
  destruct s as [|c r]; simpl; [reflexivity|].
  intros [Hc _]%andb_prop. apply negb_true_iff in Hc. rewrite Hc. reflexivity.
Qed.

Lemma rstrip_id s : all (fun c => negb (is_space c)) s = true -> rstrip s = s.
Proof.
  induction s as [|c r IH]; simpl; [reflexivity|].
  intros [Hc Hr]%andb_prop. apply negb_true_iff in Hc. rewrite (IH Hr), Hc.
  destruct r; reflexivity.
Qed.

Lemma strip_id s : all (fun c => negb (is_space c)) s = true -> strip s = s.
Proof. intros H. unfold strip. rewrite (lstrip_id _ H). apply rstrip_id, H. Qed.

Lemma nospace_uint d : all (fun c => negb (is_space c)) (NilEmpty.string_of_uint d) = true.
Proof.
  apply (all_impl is_digit); [|apply all_digits_uint].
  intros c Hc. rewrite (digit_not_space _ Hc). reflexivity.
Qed.

Lemma to_uint_nonnil p : Pos.to_uint p <> Decimal.Nil.
Proof.
  intros H. pose proof (DecimalPos.Unsigned.of_to p) as E. rewrite H in E. discriminate.
Qed.

Lemma str_pos p : str (Z.pos p) = NilEmpty.string_of_uint (Pos.to_uint p).
Proof.
  unfold str. simpl. unfold NilZero.string_of_uint.
  pose proof (to_uint_nonnil p). destruct (Pos.to_uint p); congruence.
Qed.

Lemma str_neg p : str (Z.neg p) = String "-" (NilEmpty.string_of_uint (Pos.to_uint p)).
Proof.
  unfold str. simpl. unfold NilZero.string_of_uint.
  pose proof (to_uint_nonnil p). destruct (Pos.to_uint p); congruence.
Qed.

Lemma uval_to_uint p : uval (Pos.to_uint p) 0 = Z.pos p.
Proof. rewrite uval_zero, DecimalPos.Unsigned.of_to. reflexivity. Qed.

Lemma int_uint d : d <> Decimal.Nil ->
  int (NilEmpty.string_of_uint d) = Some (uval d 0).
Proof.
  intros Hd. unfold int. rewrite (strip_id _ (nospace_uint d)).
  rewrite <- (int_digits_uint d 0 false (or_introl Hd)).
  destruct d; try congruence; reflexivity.
Qed.

(** [int(str(z)) == z] *)
Lemma int_str z : int (str z) = Some z.
Proof.
  destruct z as [|p|p].
  - reflexivity.
  - rewrite str_pos, (int_uint _ (to_uint_nonnil p)), uval_to_uint. reflexivity.
  - rewrite str_neg. unfold int.
    assert (Hs : all (fun c => negb (is_space c))
                   (String "-" (NilEmpty.string_of_uint (Pos.to_uint p))) = true).
    { simpl. apply nospace_uint. }
    rewrite (strip_id _ Hs).
    rewrite (int_digits_uint _ 0 false (or_introl (to_uint_nonnil p))), uval_to_uint.
    reflexivity.
Qed.

Lemma str_inj a b : str a = str b -> a = b.
Proof. intros H. pose proof (int_str a) as Ha. rewrite H, int_str in Ha. congruence. Qed.

Lemma all_numeral_str z : all is_numeral_char (str z) = true.
Proof.
  assert (H : forall d, all is_numeral_char (NilEmpty.string_of_uint d) = true).
  { intros d. apply (all_impl is_digit); [|apply all_digits_uint].
    intros c Hc. unfold is_numeral_char. rewrite Hc. reflexivity. }
  destruct z as [|p|p].
  - reflexivity.
  - rewrite str_pos. apply H.
  - rewrite str_neg. simpl. apply H.
Qed.

End PyFacts.

Section MoreStringFacts.
Import Py.

Lemma all_app p a b : all p (a ++ b) = all p a && all p b.
Proof. induction a as [|c r IH]; simpl; [reflexivity|]. rewrite IH, andb_assoc. reflexivity. Qed.

Lemma startswith_app pre s : startswith pre (pre ++ s) = true.
Proof. induction pre as [|c r IH]; simpl; [reflexivity|]. rewrite Ascii.eqb_refl. exact IH. Qed.

Lemma numeral_char_cases c : is_numeral_char c = true ->
  c = "-"%char \/ is_digit c = true.
Proof.
  unfold is_numeral_char. intros [H|H]%orb_prop; [right; exact H|left].
  apply Ascii.eqb_eq in H. exact H.
Qed.

(** A predicate that holds of the ten digits and of the sign holds of every
    character of [str z]. *)
Lemma all_str (p : ascii -> bool) z :
  p "-"%char = true ->
  (forall c, is_digit c = true -> p c = true) ->
  all p (str z) = true.
Proof.
  intros Hm Hd. apply (all_impl is_numeral_char); [|apply all_numeral_str].
  intros c [->|H]%numeral_char_cases; auto.
Qed.

Lemma digit_pred (p : ascii -> bool) :
  p "0"%char = true -> p "1"%char = true -> p "2"%char = true -> p "3"%char = true ->
  p "4"%char = true -> p "5"%char = true -> p "6"%char = true -> p "7"%char = true ->
  p "8"%char = true -> p "9"%char = true ->
  forall c, is_digit c = true -> p c = true.
Proof.
  intros ? ? ? ? ? ? ? ? ? ? c H.
  destruct (is_digit_cases c H) as [->|[->|[->|[->|[->|[->|[->|[->|[->| ->]]]]]]]]]; assumption.
Qed.

Lemma not_slash_str z : all not_slash (str z) = true.
Proof. apply all_str; [reflexivity|]. apply digit_pred; reflexivity. Qed.

Lemma hexdigit_cases k : exists c, hexdigit k = c /\
  In c ["0";"1";"2";"3";"4";"5";"6";"7";"8";"9";"a";"b";"c";"d";"e";"f"]%char.
Proof.
  unfold hexdigit. eexists; split; [reflexivity|].
  destruct k as [|p|p]; simpl; try tauto.
  do 4 (destruct p as [p|p|]; simpl; try tauto).
Qed.

Lemma hexdigit_pred (p : ascii -> bool) k :
  forallb p ["0";"1";"2";"3";"4";"5";"6";"7";"8";"9";"a";"b";"c";"d";"e";"f"]%char = true ->
  p (hexdigit k) = true.
Proof.
  intros H. destruct (hexdigit_cases k) as (c & -> & Hc).
  rewrite forallb_forall in H. apply H, Hc.
Qed.

Lemma all_hex8 (p : ascii -> bool) n :
  forallb p ["0";"1";"2";"3";"4";"5";"6";"7";"8";"9";"a";"b";"c";"d";"e";"f"]%char = true ->
  all p (hex8 n) = true.
Proof.
  intros H. unfold hex8. simpl. rewrite !(hexdigit_pred p _ H). reflexivity.
Qed.

Lemma not_slash_hex8 n : all not_slash (hex8 n) = true.
Proof. apply all_hex8. reflexivity. Qed.

(** [replace] leaves a string without the first character of [old] alone. *)
Lemma replace_from_absent old new c0 old' s :
  old = String c0 old' ->
  all (fun c => negb (Ascii.eqb c0 c)) s = true ->
  replace_from old new O s = s.
Proof.
  intros ->. induction s as [|c r IH]; simpl; [reflexivity|].
  intros [Hc Hr]%andb_prop. apply negb_true_iff in Hc. rewrite Hc. simpl.
  rewrite (IH Hr). reflexivity.
Qed.

Lemma replace_rId_str z : replace "rId" "" ("rId" ++ str z) = str z.
Proof.
  unfold replace. simpl.
  apply (replace_from_absent _ _ "r"%char "Id" _ eq_refl).
  apply all_str; [reflexivity|]. apply digit_pred; reflexivity.
Qed.

Lemma strip_prefix_app pre s : FS.strip_prefix pre (pre ++ s) = Some s.
Proof. induction pre as [|c r IH]; simpl; [reflexivity|]. rewrite Ascii.eqb_refl. exact IH. Qed.

End MoreStringFacts.

Section PathFacts.
Import Py Path.

Lemma split_last_none a s :
  all (fun c => negb (Ascii.eqb c a)) s = true -> split_last a s = None.
Proof.
  induction s as [|c r IH]; simpl; [reflexivity|].
  intros [Hc Hr]%andb_prop. apply negb_true_iff in Hc. rewrite (IH Hr), Hc. reflexivity.
Qed.

Lemma split_last_some a s h t :
  split_last a s = Some (h, t) ->
  s = h ++ String a t /\ all (fun c => negb (Ascii.eqb c a)) t = true.
Proof.
  revert h. induction s as [|c r IH]; simpl; intros h H; [discriminate|].
  destruct (split_last a r) as [[h' t']|] eqn:E.
  - injection H as <- <-. destruct (IH h' eq_refl) as [-> Ht]. split; [reflexivity|exact Ht].
  - destruct (Ascii.eqb c a) eqn:Ec; [|discriminate].
    injection H as <- <-. apply Ascii.eqb_eq in Ec. subst c. split; [reflexivity|].
    clear IH. induction r as [|c r IH]; simpl in *; [reflexivity|].
    destruct (split_last a r) as [[? ?]|]; [discriminate|].
    destruct (Ascii.eqb c a); [discriminate|]. simpl. apply IH. reflexivity.
Qed.

Lemma split_last_app_tail a pre t :
  all (fun c => negb (Ascii.eqb c a)) t = true ->
  split_last a (pre ++ String a t) = Some (pre, t).
Proof.
  intros Ht. induction pre as [|c r IH]; simpl.
  - rewrite (split_last_none _ _ Ht), Ascii.eqb_refl. reflexivity.
  - rewrite IH. reflexivity.
Qed.

Lemma split_slash_clean s : all not_slash s = true -> split_slash s = [s].
Proof.
  induction s as [|c r IH]; simpl; [reflexivity|].
  intros [Hc Hr]%andb_prop. unfold not_slash in Hc. apply negb_true_iff in Hc.
  rewrite Hc, (IH Hr). reflexivity.
Qed.

Lemma split_slash_cons c s : is_slash c = false ->
  split_slash (String c s) =
  match split_slash s with x :: xs => String c x :: xs | [] => [String c ""] end.
Proof. intros H. simpl. rewrite H. reflexivity. Qed.

(** The extension [splitext] returns holds no slash. *)
Lemma splitext_ext_clean p : all not_slash (snd (splitext p)) = true.
Proof.
  unfold splitext.
  assert (Hb : forall b, all not_slash b = true ->
     all not_slash (snd (match split_last "." b with
                         | Some (x, e) => if all is_dot x then (p, "") else (b, "." ++ e)
                         | None => (p, "") end)) = true).
  { intros b Hb. destruct (split_last "." b) as [[x e]|] eqn:E; [|reflexivity].
    destruct (all is_dot x); [reflexivity|]. simpl.
    apply split_last_some in E as [-> _]. rewrite all_app in Hb.
    apply andb_prop in Hb as [_ Hb]. simpl in Hb. exact Hb. }
  destruct (split_last "/" p) as [[h t]|] eqn:E.
  - apply split_last_some in E as [_ Ht].
    specialize (Hb t Ht).
    destruct (split_last "." t) as [[x e]|]; [|reflexivity].
    destruct (all is_dot x); [reflexivity|exact Hb].
  - destruct (split_last "." p) as [[x e]|] eqn:E2; [|reflexivity].
    destruct (all is_dot x); [reflexivity|]. simpl.
    apply split_last_some in E2 as [-> _].
    assert (Hp : all not_slash (x ++ String "." e) = true).
    { clear -E. revert E. generalize (x ++ String "." e). intros s.
      induction s as [|c r IH]; simpl; [reflexivity|].
      destruct (split_last "/" r) as [[? ?]|]; [discriminate|].
      unfold not_slash, is_slash. destruct (Ascii.eqb c "/"); [discriminate|].
      intros _. simpl. apply IH. reflexivity. }
    rewrite all_app in Hp. apply andb_prop in Hp as [_ Hp]. simpl in Hp. exact Hp.
Qed.

(** The extension is empty or starts with a dot. *)
Lemma splitext_ext_shape p :
  snd (splitext p) = "" \/ exists e, snd (splitext p) = String "." e.
Proof.
  unfold splitext.
  destruct (split_last "/" p) as [[h t]|];
    match goal with |- context [split_last "." ?b] =>
      destruct (split_last "." b) as [[x e]|] end;
    try (left; reflexivity);
    destruct (all is_dot x); try (left; reflexivity); right; eexists; reflexivity.
Qed.

End PathFacts.

Section PlaceFacts.
Import Py Path Sys.

Lemma in_dir_ppt x : startswith "/" x = false -> in_dir ["ppt"; x] = "ppt/" ++ x.
Proof.
  intros H. unfold in_dir. cbn [fold_left]. change (join "" "ppt") with "ppt".
  unfold join. rewrite H. reflexivity.
Qed.

Lemma app_assoc_str (a b c : string) : (a ++ b) ++ c = a ++ (b ++ c).
Proof. induction a as [|x a IH]; simpl; [reflexivity|]. rewrite IH. reflexivity. Qed.

Lemma not_slash_ne_slash t :
  all not_slash t = true -> all (fun c => negb (Ascii.eqb c "/")) t = true.
Proof. intros H. exact H. Qed.

Lemma dirname_under d t :
  all not_slash t = true ->
  dirname (d ++ String "/" t) = if all is_slash d then d ++ "/" else rstrip_slash d.
Proof. intros H. unfold dirname. rewrite (split_last_app_tail _ _ _ H). reflexivity. Qed.

Lemma basename_under d t :
  all not_slash t = true -> basename (d ++ String "/" t) = t.
Proof. intros H. unfold basename. rewrite (split_last_app_tail _ _ _ H). reflexivity. Qed.

Lemma not_slash_slide_name k : all not_slash ("slide" ++ str k ++ ".xml") = true.
Proof. simpl. rewrite all_app, not_slash_str. reflexivity. Qed.

Lemma dirname_new_slide k : dirname (new_slide_path k) = "slides".
Proof. exact (dirname_under "slides" _ (not_slash_slide_name k)). Qed.

Lemma basename_new_slide k : basename (new_slide_path k) = "slide" ++ str k ++ ".xml".
Proof. exact (basename_under "slides" _ (not_slash_slide_name k)). Qed.

Lemma full_new_slide_path k : in_dir ["ppt"; new_slide_path k] = slide_key k.
Proof. apply in_dir_ppt. reflexivity. Qed.

Lemma target_rel_path_new k :
  in_dir ["ppt"; dirname (new_slide_path k); "_rels"; basename (new_slide_path k) ++ ".rels"]
  = slide_rels_key k.
Proof.
  rewrite dirname_new_slide, basename_new_slide. unfold in_dir, slide_rels_key. simpl.
  unfold join at 1. simpl. rewrite !app_assoc_str. reflexivity.
Qed.

(** A target [../d/name] written into the relationships of a new slide
    names the part [d/name]. *)
Lemma resolve_up k d name :
  all not_slash d = true -> all not_slash name = true ->
  d <> "" -> d <> "." -> d <> ".." -> name <> "" -> name <> "." -> name <> ".." ->
  resolve (new_slide_path k) ("../" ++ d ++ "/" ++ name) = d ++ "/" ++ name.
Proof.
  intros Hd Hn Hd0 Hd1 Hd2 Hn0 Hn1 Hn2. unfold resolve. rewrite dirname_new_slide.
  unfold join. simpl. unfold normpath. simpl.
  assert (Hs : split_slash (d ++ String "/" name) = [d; name]).
  { clear -Hd Hn. induction d as [|c r IH]; simpl.
    - rewrite (split_slash_clean _ Hn). reflexivity.
    - simpl in Hd. apply andb_prop in Hd as [Hc Hr]. unfold not_slash in Hc.
      apply negb_true_iff in Hc. rewrite Hc, (IH Hr). reflexivity. }
  rewrite Hs. simpl.
  unfold norm_step at 2. simpl.
  apply String.eqb_neq in Hd0, Hd1, Hd2, Hn0, Hn1, Hn2.
  unfold norm_step. rewrite Hd0, Hd1, Hd2, Hn0, Hn1, Hn2. simpl.
  destruct (d ++ String "/" name) eqn:E; [destruct d; discriminate|].
  rewrite <- E. destruct d; [discriminate|]. simpl in E. reflexivity.
Qed.

End PlaceFacts.

(* ===================================================================== *)
(** * Facts about elements *)
(* ===================================================================== *)

Section ElementFacts.
Import ET.

Lemma element_ind' (P : element -> Prop) :
  (forall t a cs, Forall P cs -> P (Element t a cs)) -> forall e, P e.
Proof.
  intros H. fix IH 1. intros [t a cs]. apply H.
  induction cs as [|c cs IHcs]; constructor; [apply IH|exact IHcs].
Qed.

Lemma iter_unfold e : iter e = e :: flat_map iter (children e).
Proof.
  destruct e as [t a cs]. reflexivity.
Qed.

Lemma lookup_store_eq k v a : lookup_attr k (store_attr k v a) = Some v.
Proof.
  induction a as [|[k' v'] a IH]; simpl.
  - rewrite String.eqb_refl. reflexivity.
  - destruct (String.eqb k k') eqn:E; simpl.
    + rewrite String.eqb_refl. reflexivity.
    + rewrite E. exact IH.
Qed.

Lemma lookup_store_ne k k' v a :
  k <> k' -> lookup_attr k' (store_attr k v a) = lookup_attr k' a.
Proof.
  intros Hne. induction a as [|[k0 v0] a IH]; simpl.
  - apply not_eq_sym in Hne. apply String.eqb_neq in Hne. rewrite Hne. reflexivity.
  - destruct (String.eqb k k0) eqn:E; simpl.
    + apply String.eqb_eq in E. subst k0.
      apply not_eq_sym in Hne. apply String.eqb_neq in Hne. rewrite Hne. reflexivity.
    + destruct (String.eqb k' k0); [reflexivity|exact IH].
Qed.

Lemma get_set_eq k v e : get k (set k v e) = Some v.
Proof. destruct e. apply lookup_store_eq. Qed.

Lemma get_set_ne k k' v e : k <> k' -> get k' (set k v e) = get k' e.
Proof. destruct e. apply lookup_store_ne. Qed.

Lemma tag_set k v e : tag (set k v e) = tag e.
Proof. destruct e. reflexivity. Qed.

Lemma children_set k v e : children (set k v e) = children e.
Proof. destruct e. reflexivity. Qed.

Lemma tag_append c e : tag (append c e) = tag e.
Proof. destruct e. reflexivity. Qed.

Lemma attrib_append c e : attrib (append c e) = attrib e.
Proof. destruct e. reflexivity. Qed.

Lemma children_append c e : children (append c e) = (children e ++ [c])%list.
Proof. destruct e. reflexivity. Qed.

Lemma descendants_append c e :
  descendants (append c e) = (descendants e ++ iter c)%list.
Proof.
  unfold descendants. rewrite children_append, flat_map_app. simpl.
  rewrite app_nil_r. reflexivity.
Qed.

Lemma element_eta e : e = Element (tag e) (attrib e) (children e).
Proof. destruct e. reflexivity. Qed.

End ElementFacts.

(* ===================================================================== *)
(** * Facts about copy_elements_method.py *)
(* ===================================================================== *)

Section CemMonad.
Import FS Sys CopyElementsMethod.

Lemma bind_Ok {A B} (m : M A) (f : A -> M B) s b s' :
  bind m f s = Ok b s' <-> exists a s1, m s = Ok a s1 /\ f a s1 = Ok b s'.
Proof.
  unfold bind. destruct (m s) as [a s1|e]; split.
  - intros H. exists a, s1. split; [reflexivity|exact H].
  - intros (a' & s1' & E & H). injection E as <- <-. exact H.
  - discriminate.
  - intros (a' & s1' & E & _). discriminate.
Qed.

Lemma ret_Ok {A} (a b : A) s s' : ret a s = Ok b s' <-> a = b /\ s = s'.
Proof. unfold ret. split; [intros H; injection H; auto|intros [-> ->]; reflexivity]. Qed.

Lemma lift_Ok {A} (r : exn + A) a s s' : lift r s = Ok a s' <-> r = inr a /\ s = s'.
Proof.
  destruct r as [e|x]; simpl; unfold raise, ret; split.
  - discriminate.
  - intros [H _]. discriminate.
  - intros H. injection H as -> ->. auto.
  - intros [H ->]. injection H as ->. reflexivity.
Qed.

Lemma raise_Ok {A} e (a : A) s s' : raise e s = Ok a s' <-> False.
Proof. unfold raise. split; [discriminate|tauto]. Qed.

Lemma write_Ok path c u s s' :
  write path c s = Ok u s' <->
  s' = State (<[path := c]> (base s)) (stdout s) (draws s).
Proof. unfold write. split; [intros H; injection H; auto|intros ->; destruct u; reflexivity]. Qed.

Lemma copy2_Ok add src dst u s s' :
  copy2 add src dst s = Ok u s' <->
  exists c, read add src = inr c /\
            s' = State (<[dst := c]> (base s)) (stdout s) (draws s).
Proof.
  unfold copy2. rewrite bind_Ok. split.
  - intros (c & s1 & [-> ->]%lift_Ok & H%write_Ok). exists c. auto.
  - intros (c & -> & ->). exists c, s. split; [apply lift_Ok; auto|apply write_Ok; auto].
Qed.

End CemMonad.

Section CemFrame.
Import FS Sys CopyElementsMethod.
Variable uuid4 : nat -> Z.

Lemma frame_refl P s : frame P s s.
Proof. repeat split; auto. Qed.

Lemma frame_trans P s1 s2 s3 : frame P s1 s2 -> frame P s2 s3 -> frame P s1 s3.
Proof.
  intros (Ho & Hg & Hf) (Ho' & Hg' & Hf'). repeat split.
  - congruence.
  - auto.
  - intros k Hk. rewrite (Hf' k Hk). auto.
Qed.

Lemma frame_weaken (P Q : string -> Prop) s s' :
  (forall k, P k -> Q k) -> frame P s s' -> frame Q s s'.
Proof. intros H (Ho & Hg & Hf). repeat split; auto. Qed.

Lemma frame_write (P : string -> Prop) path c u s s' :
  P path -> write path c s = Ok u s' -> frame P s s'.
Proof.
  intros HP ->%write_Ok. repeat split; simpl.
  - intros k Hk. destruct (decide (path = k)) as [->|Hne].
    + rewrite lookup_insert_eq. eauto.
    + rewrite lookup_insert_ne by exact Hne. exact Hk.
  - intros k Hk. apply lookup_insert_ne. intros ->. auto.
Qed.

Lemma frame_copy2 (P : string -> Prop) add src dst u s s' :
  P dst -> copy2 add src dst s = Ok u s' -> frame P s s'.
Proof.
  intros HP (c & _ & ->)%copy2_Ok.
  apply (frame_write P dst c tt); [exact HP|reflexivity].
Qed.

Lemma frame_draw P h s s' : uuid4_hex8 uuid4 s = Ok h s' -> frame P s s'.
Proof.
  unfold uuid4_hex8. intros H. injection H as _ <-. repeat split; auto.
Qed.

Lemma draw_value h s s' :
  uuid4_hex8 uuid4 s = Ok h s' -> h = Py.hex8 (uuid4 (draws s)).
Proof. unfold uuid4_hex8. intros H. injection H as <- _. reflexivity. Qed.

Lemma frame_mapM {A B} (P : string -> Prop) (f : A -> M B) l :
  (forall x y s s', f x s = Ok y s' -> frame P s s') ->
  forall ys s s', mapM f l s = Ok ys s' -> frame P s s'.
Proof.
  intros Hf. induction l as [|x l IH]; simpl; intros ys s s'.
  - intros [_ <-]%ret_Ok. apply frame_refl.
  - intros (y & s1 & H1 & (ys' & s2 & H2 & [_ <-]%ret_Ok)%bind_Ok)%bind_Ok.
    eapply frame_trans; eauto.
Qed.

Lemma mapM_length {A B} (f : A -> M B) l ys s s' :
  mapM f l s = Ok ys s' -> length ys = length l.
Proof.
  revert ys s. induction l as [|x l IH]; simpl; intros ys s.
  - intros [<- _]%ret_Ok. reflexivity.
  - intros (y & s1 & H1 & (ys' & s2 & H2 & [<- <-]%ret_Ok)%bind_Ok)%bind_Ok.
    simpl. f_equal. eauto.
Qed.

(** Where the chart branch writes. *)
Lemma excel_key h :
  in_dir ["embeddings/Microsoft_Excel_Sheet" ++ h ++ ".xlsx"]
  = "embeddings/Microsoft_Excel_Sheet" ++ h ++ ".xlsx".
Proof. reflexivity. Qed.

Lemma chart_key h :
  in_dir ["ppt"; "charts/" ++ ("chart" ++ h) ++ ".xml"] = "ppt/charts/chart" ++ h ++ ".xml".
Proof. rewrite in_dir_ppt by reflexivity. reflexivity. Qed.

Lemma chart_rels_key h :
  in_dir ["ppt"; "charts"; "_rels"; ("chart" ++ h) ++ ".xml.rels"]
  = "ppt/charts/_rels/chart" ++ h ++ ".xml.rels".
Proof. reflexivity. Qed.

Lemma media_key n ext :
  in_dir ["ppt"; "media/image" ++ n ++ ext] = "ppt/media/image" ++ n ++ ext.
Proof. apply in_dir_ppt. reflexivity. Qed.

Lemma frame_chart_rel_step add rel rel' s s' :
  chart_rel_step uuid4 add rel s = Ok rel' s' -> frame resource_key s s'.
Proof.
  unfold chart_rel_step.
  destruct (ET.get "Target" rel) as [target|]; [|intros []%raise_Ok].
  destruct (ET.get "Type" rel) as [rel_type|]; [|intros []%raise_Ok].
  destruct (_ && _).
  - intros (h & s1 & Hd & (u & s2 & Hc & [_ <-]%ret_Ok)%bind_Ok)%bind_Ok.
    eapply frame_trans; [eapply frame_draw; exact Hd|].
    destruct (exists_ add _).
    + eapply frame_copy2; [|exact Hc]. right; right. reflexivity.
    + apply ret_Ok in Hc as [_ <-]. apply frame_refl.
  - intros [_ <-]%ret_Ok. apply frame_refl.
Qed.

Lemma frame_process_chart add h crp u s s' :
  process_chart_relationships uuid4 add crp
    (in_dir ["ppt"; "charts"; "_rels"; ("chart" ++ h) ++ ".xml.rels"]) s = Ok u s' ->
  frame resource_key s s'.
Proof.
  unfold process_chart_relationships. destruct (negb _).
  - intros [_ <-]%ret_Ok. apply frame_refl.
  - intros (root & s1 & [_ <-]%lift_Ok & (news & s2 & Hm & Hw)%bind_Ok)%bind_Ok.
    eapply frame_trans.
    + eapply frame_mapM; [|exact Hm]. intros; eapply frame_chart_rel_step; eauto.
    + eapply frame_write; [|exact Hw]. rewrite chart_rels_key. right; left. reflexivity.
Qed.

Lemma frame_slide_rel_step add sp am rel am' rel' s s' :
  slide_rel_step uuid4 add sp am rel s = Ok (am', rel') s' -> frame resource_key s s'.
Proof.
  unfold slide_rel_step.
  destruct (ET.get "Target" rel) as [target|]; [|intros []%raise_Ok].
  destruct (ET.get "Type" rel) as [rel_type|]; [|intros []%raise_Ok].
  destruct (is_media_type rel_type).
  - destruct (negb _); [|intros [_ <-]%ret_Ok; apply frame_refl].
    destruct (am !! _) as [f|].
    + intros [_ <-]%ret_Ok. apply frame_refl.
    + intros (u & s1 & Hc & [_ <-]%ret_Ok)%bind_Ok.
      destruct (exists_ add _).
      * eapply frame_copy2; [|exact Hc]. rewrite media_key. left. reflexivity.
      * apply ret_Ok in Hc as [_ <-]. apply frame_refl.
  - destruct (Py.contains "chart" rel_type); [|intros [_ <-]%ret_Ok; apply frame_refl].
    intros (h & s1 & Hd & (u & s2 & Hc & [_ <-]%ret_Ok)%bind_Ok)%bind_Ok.
    eapply frame_trans; [eapply frame_draw; exact Hd|].
    destruct (exists_ add _).
    + apply bind_Ok in Hc as (u1 & s3 & Hc1 & Hc2).
      eapply frame_trans.
      * eapply frame_copy2; [|exact Hc1]. rewrite chart_key. right; left. reflexivity.
      * destruct (exists_ add _).
        -- eapply frame_process_chart; exact Hc2.
        -- apply ret_Ok in Hc2 as [_ <-]. apply frame_refl.
    + apply ret_Ok in Hc as [_ <-]. apply frame_refl.
Qed.

Lemma frame_slide_rels_loop add sp rels : forall am am' news s s',
  slide_rels_loop uuid4 add sp am rels s = Ok (am', news) s' -> frame resource_key s s'.
Proof.
  induction rels as [|rel rest IH]; simpl; intros am am' news s s'.
  - intros [_ <-]%ret_Ok. apply frame_refl.
  - intros ([am1 rel'] & s1 & H1 & ([am2 rest'] & s2 & H2 & [_ <-]%ret_Ok)%bind_Ok)%bind_Ok.
    eapply frame_trans; [eapply frame_slide_rel_step; exact H1|eapply IH; exact H2].
Qed.

End CemFrame.

Section KeyFacts.

Lemma app_inv_head_str (a b c : string) : a ++ b = a ++ c -> b = c.
Proof. induction a as [|x a IH]; simpl; [auto|]. intros H. injection H as H. auto. Qed.

Lemma length_app_str (a b : string) :
  String.length (a ++ b) = (String.length a + String.length b)%nat.
Proof. induction a as [|x a IH]; simpl; [reflexivity|]. rewrite IH. reflexivity. Qed.

Lemma app_inv_tail_str (a b c : string) : a ++ c = b ++ c -> a = b.
Proof.
  intros H.
  assert (Hl : String.length a = String.length b).
  { apply (f_equal String.length) in H. rewrite !length_app_str in H. lia. }
  revert b H Hl. induction a as [|x a IH]; intros [|y b] H Hl; simpl in *;
    try discriminate; [reflexivity|].
  injection H as -> H. f_equal. apply IH; [exact H|lia].
Qed.

Lemma slide_key_inj j k : slide_key j = slide_key k -> j = k.
Proof.
  unfold slide_key. intros H. apply (app_inv_head_str "ppt/slides/slide") in H.
  apply app_inv_tail_str in H. apply str_inj, H.
Qed.

Lemma slide_rels_key_inj j k : slide_rels_key j = slide_rels_key k -> j = k.
Proof.
  unfold slide_rels_key. intros H. apply (app_inv_head_str "ppt/slides/_rels/slide") in H.
  apply app_inv_tail_str in H. apply str_inj, H.
Qed.

Lemma slide_key_ne_rels j k : slide_key j <> slide_rels_key k.
Proof. unfold slide_key, slide_rels_key. simpl. discriminate. Qed.

Lemma not_resource_slide_key j : ~ resource_key (slide_key j).
Proof. intros [H|[H|H]]; discriminate H. Qed.

Lemma not_resource_slide_rels_key j : ~ resource_key (slide_rels_key j).
Proof. intros [H|[H|H]]; discriminate H. Qed.

End KeyFacts.

Section CemSteps.
Import FS Sys CopyElementsMethod.
Variable uuid4 : nat -> Z.

(** What one call of [process_slide_relationships] for a new slide does. *)
Lemma process_slide_relationships_inv add sp k am am' s s' :
  process_slide_relationships uuid4 add sp (new_slide_path k) am s = Ok am' s' ->
  (exists_ add (slide_rel_path sp) = false /\ am' = am /\ s' = s)
  \/ (exists rels_root news s1,
        parse add (slide_rel_path sp) = inr rels_root
        /\ slide_rels_loop uuid4 add sp am
             (ET.findall_desc (ET.has_attr "Target") rels_root) s = Ok (am', news) s1
        /\ s' = State (<[slide_rels_key k := Xml (ET.assign_desc "Target" news rels_root)]>
                         (base s1)) (stdout s1) (draws s1)).
Proof.
  unfold process_slide_relationships. rewrite target_rel_path_new.
  fold (slide_rel_path sp).
  destruct (exists_ add (slide_rel_path sp)); simpl.
  - intros (root & s0 & [Hp <-]%lift_Ok & ([am1 news] & s1 & Hl & Hw)%bind_Ok)%bind_Ok.
    apply bind_Ok in Hw as (u & s2 & Hw%write_Ok & [<- <-]%ret_Ok).
    right. exists root, news, s1. auto.
  - intros [<- <-]%ret_Ok. left. auto.
Qed.

Lemma frame_process_slide_relationships add sp k am am' s s' :
  process_slide_relationships uuid4 add sp (new_slide_path k) am s = Ok am' s' ->
  frame (fun key => resource_key key \/ key = slide_rels_key k) s s'.
Proof.
  intros [(_ & _ & ->)|(root & news & s1 & _ & Hl & ->)]%process_slide_relationships_inv.
  - apply frame_refl.
  - eapply frame_trans.
    + eapply frame_weaken; [|eapply frame_slide_rels_loop; exact Hl]. auto.
    + eapply (frame_write _ _ _ tt); [|reflexivity]. right. reflexivity.
Qed.

(** What one iteration of the loop over the slides does. *)
Lemma slide_step_inv add ns rns rels_ns add_rns v u v' s s' :
  slide_step uuid4 add ns rns rels_ns add_rns v u s = Ok v' s' ->
  match unit_source add add_rns u with
  | None => v' = v /\ s' = s
  | Some sp =>
      let m := max_slide_id v + 1 in
      let r := max_rel_id v + 1 in
      exists c am',
        read add (in_dir ["ppt"; sp]) = inr c
        /\ process_slide_relationships uuid4 add sp (new_slide_path m) (added_media v)
             (State (<[slide_key m := c]> (base s)) (stdout s) (draws s)) = Ok am' s'
        /\ v' = Vars (ET.append (new_slide_elem ns rns m r) (slides_element v))
                     (ET.append (new_rel_elem rels_ns m r) (rels_root v)) m r am'
  end.
Proof.
  unfold slide_step, unit_source.
  intros (root & s0 & [Hp <-]%lift_Ok & H)%bind_Ok. rewrite Hp.
  destruct (List.find _ _) as [slide_rel|]; [|apply ret_Ok in H; intuition].
  destruct (ET.get "Target" slide_rel) as [slide_path|]; [|apply raise_Ok in H; tauto].
  destruct (exists_ add _); cbn [negb] in H; [|apply ret_Ok in H; intuition].
  apply bind_Ok in H as (u0 & s1 & Hc & H).
  fold (new_slide_path (max_slide_id v + 1)) in Hc, H.
  rewrite full_new_slide_path in Hc.
  apply copy2_Ok in Hc as (c & Hr & ->).
  apply bind_Ok in H as (am' & s2 & Hpsr & [<- <-]%ret_Ok).
  exists c, am'. auto.
Qed.

(** A unit whose relationship id names no relationship of the source is
    passed over: the iteration changes nothing. *)
Lemma slide_step_dangling add ns rns rels_ns add_rns v u s add_rels_root :
  parse add (in_dir ["ppt"; "_rels"; "presentation.xml.rels"]) = inr add_rels_root ->
  List.find (fun rel => bool_decide (ET.get "Id" rel = ET.get (ET.qname add_rns "id") u))
            (ET.findall_desc (ET.has_attr "Id") add_rels_root) = None ->
  slide_step uuid4 add ns rns rels_ns add_rns v u s = Ok v s.
Proof.
  intros Hp Hf. unfold slide_step, bind. rewrite Hp. simpl. rewrite Hf. reflexivity.
Qed.

(** So is a unit whose relationship names a part the source package does
    not hold. *)
Lemma slide_step_absent add ns rns rels_ns add_rns v u s add_rels_root slide_rel slide_path :
  parse add (in_dir ["ppt"; "_rels"; "presentation.xml.rels"]) = inr add_rels_root ->
  List.find (fun rel => bool_decide (ET.get "Id" rel = ET.get (ET.qname add_rns "id") u))
            (ET.findall_desc (ET.has_attr "Id") add_rels_root) = Some slide_rel ->
  ET.get "Target" slide_rel = Some slide_path ->
  exists_ add (in_dir ["ppt"; slide_path]) = false ->
  slide_step uuid4 add ns rns rels_ns add_rns v u s = Ok v s.
Proof.
  intros Hp Hf Ht He. unfold slide_step, bind. rewrite Hp. simpl. rewrite Hf, Ht, He.
  reflexivity.
Qed.

Lemma frame_slide_step add ns rns rels_ns add_rns v u v' s s' :
  slide_step uuid4 add ns rns rels_ns add_rns v u s = Ok v' s' ->
  frame (loop_key (max_slide_id v) (max_slide_id v')) s s'.
Proof.
  intros H%slide_step_inv. destruct (unit_source add add_rns u) as [sp|].
  - destruct H as (c & am' & _ & Hpsr & ->). simpl.
    eapply frame_trans.
    + eapply (frame_write _ (slide_key (max_slide_id v + 1)) c tt); [|reflexivity].
      right. exists (max_slide_id v + 1). split; [lia|auto].
    + eapply frame_weaken; [|eapply frame_process_slide_relationships; exact Hpsr].
      intros key [Hk| ->]; [left; exact Hk|].
      right. exists (max_slide_id v + 1). split; [lia|auto].
  - destruct H as [-> ->]. apply frame_refl.
Qed.

End CemSteps.

Section CemMedia.
Import FS Sys CopyElementsMethod.
Variable uuid4 : nat -> Z.

Lemma image_name_proper name :
  Py.startswith "image" name = true -> name <> "" /\ name <> "." /\ name <> "..".
Proof. intros H. repeat split; intros ->; discriminate H. Qed.

Lemma resolve_media k name :
  Py.all not_slash name = true -> Py.startswith "image" name = true ->
  resolve (new_slide_path k) ("../" ++ "media/" ++ name) = "media/" ++ name.
Proof.
  intros Hn Hi. destruct (image_name_proper name Hi) as (H0 & H1 & H2).
  apply (resolve_up k "media" name); auto; discriminate.
Qed.

Lemma resolve_chart k h :
  Py.all not_slash h = true ->
  resolve (new_slide_path k) ("../" ++ "charts/" ++ ("chart" ++ h) ++ ".xml")
  = "charts/chart" ++ h ++ ".xml".
Proof.
  intros Hh.
  apply (resolve_up k "charts" ("chart" ++ h ++ ".xml")); try discriminate; try reflexivity.
  simpl. rewrite all_app. rewrite Hh. reflexivity.
Qed.

Lemma closed_rel_mono add (t t' : tree) sp k rel rel' :
  (forall key, is_Some (t !! key) -> is_Some (t' !! key)) ->
  closed_rel add t sp k rel rel' -> closed_rel add t' sp k rel rel'.
Proof.
  intros Hg Hc target ty Ht Hty Hk He.
  destruct (Hc target ty Ht Hty Hk He) as (target' & Ht' & Hp). eauto.
Qed.

Lemma media_inv_mono add am (t t' : tree) :
  (forall key, is_Some (t !! key) -> is_Some (t' !! key)) ->
  media_inv add am t -> media_inv add am t'.
Proof.
  intros Hg Hi p f Hpf. destruct (Hi p f Hpf) as [Hs Hp]. split; auto.
Qed.

Lemma media_inv_empty add t : media_inv add ∅ t.
Proof. intros p f H. rewrite lookup_empty in H. discriminate. Qed.

(** One relationship of a slide: the dictionary only grows, it stays
    consistent with the target, and the rewritten relationship is closed. *)
Lemma slide_rel_step_closed add sp k am rel am' rel' s s' :
  media_inv add am (base s) ->
  slide_rel_step uuid4 add sp am rel s = Ok (am', rel') s' ->
  media_inv add am' (base s') /\ am ⊆ am' /\ closed_rel add (base s') sp k rel rel'.
Proof.
  intros Hinv Hstep. pose proof (frame_slide_rel_step _ _ _ _ _ _ _ _ _ Hstep) as (_ & Hg & _).
  revert Hstep. unfold slide_rel_step.
  destruct (ET.get "Target" rel) as [target|] eqn:Et; [|intros []%raise_Ok].
  destruct (ET.get "Type" rel) as [rel_type|] eqn:Ety; [|intros []%raise_Ok].
  fold (resolve sp target).
  destruct (is_media_type rel_type) eqn:Em.
  - destruct (Py.startswith "http" target) eqn:Eh; cbn [negb].
    + intros [[= <- <-] <-]%ret_Ok. split; [exact Hinv|]. split; [reflexivity|].
      intros t0 ty0 Ht0 Hty0 [[_ Hh]|[Hm _]] _; congruence.
    + destruct (am !! resolve sp target) as [f|] eqn:Ef.
      * intros [[= <- <-] <-]%ret_Ok. split; [exact Hinv|]. split; [reflexivity|].
        intros t0 ty0 Ht0 Hty0 _ He. assert (t0 = target) as -> by congruence.
        destruct (Hinv _ _ Ef) as [(name & -> & Hn & Hi) Hp].
        exists ("../" ++ "media/" ++ name). split; [apply get_set_eq|].
        rewrite (resolve_media k name Hn Hi). apply Hp, He.
      * intros (u & s1 & Hc & [[= <- <-] <-]%ret_Ok)%bind_Ok.
        set (name := "image" ++ Py.str (Z.of_nat (size am) + 1) ++ snd (Path.splitext (resolve sp target))).
        assert (Hn : Py.all not_slash name = true).
        { unfold name. simpl. rewrite all_app, not_slash_str, splitext_ext_clean. reflexivity. }
        assert (Hi : Py.startswith "image" name = true) by reflexivity.
        assert (Hp : exists_ add (in_dir ["ppt"; resolve sp target]) = true ->
                     is_Some (base s1 !! ("ppt/" ++ "media/" ++ name))).
        { intros He. rewrite He in Hc. apply copy2_Ok in Hc as (c & _ & ->).
          simpl. rewrite lookup_insert_eq. eauto. }
        split; [|split].
        -- intros p f Hpf. destruct (decide (resolve sp target = p)) as [<-|Hne].
           ++ rewrite lookup_insert_eq in Hpf. injection Hpf as <-.
              split; [exists name; auto|exact Hp].
           ++ rewrite lookup_insert_ne in Hpf by exact Hne.
              destruct (Hinv _ _ Hpf) as [Hs Hpr]. split; [exact Hs|]. intros He. apply Hg, Hpr, He.
        -- apply insert_subseteq, Ef.
        -- intros t0 ty0 Ht0 Hty0 _ He. assert (t0 = target) as -> by congruence.
           exists ("../" ++ "media/" ++ name). split; [apply get_set_eq|].
           rewrite (resolve_media k name Hn Hi). apply Hp, He.
  - destruct (Py.contains "chart" rel_type) eqn:Ec.
    + intros (h & s1 & Hd & (u & s2 & Hc & [[= <- <-] <-]%ret_Ok)%bind_Ok)%bind_Ok.
      split; [eapply media_inv_mono; [exact Hg|exact Hinv]|]. split; [reflexivity|].
      intros t0 ty0 Ht0 Hty0 _ He. assert (t0 = target) as -> by congruence.
      exists ("../" ++ "charts/" ++ ("chart" ++ h) ++ ".xml"). split; [apply get_set_eq|].
      rewrite resolve_chart by (rewrite (draw_value _ _ _ _ Hd); apply not_slash_hex8).
      rewrite He in Hc. apply bind_Ok in Hc as (u1 & s3 & Hc1 & Hc2).
      rewrite chart_key in Hc1. apply copy2_Ok in Hc1 as (c & _ & ->).
      assert (Hg2 : frame resource_key (State (<["ppt/charts/chart" ++ h ++ ".xml" := c]> (base s1)) (stdout s1) (draws s1)) s2).
      { destruct (exists_ add _).
        - eapply frame_process_chart; exact Hc2.
        - apply ret_Ok in Hc2 as [_ <-]. apply frame_refl. }
      destruct Hg2 as (_ & Hg2 & _). apply Hg2. simpl. rewrite lookup_insert_eq. eauto.
    + intros [[= <- <-] <-]%ret_Ok. split; [exact Hinv|]. split; [reflexivity|].
      intros t0 ty0 Ht0 Hty0 [[Hm _]|[_ Hc]] _; congruence.
Qed.

Lemma slide_rels_loop_closed add sp k rels : forall am am' news s s',
  media_inv add am (base s) ->
  slide_rels_loop uuid4 add sp am rels s = Ok (am', news) s' ->
  media_inv add am' (base s') /\ am ⊆ am'
  /\ Forall2 (closed_rel add (base s') sp k) rels news.
Proof.
  induction rels as [|rel rest IH]; simpl; intros am am' news s s' Hinv.
  - intros [[= <- <-] <-]%ret_Ok. split; [exact Hinv|split; [reflexivity|constructor]].
  - intros ([am1 rel'] & s1 & H1 & ([am2 rest'] & s2 & H2 & [[= <- <-] <-]%ret_Ok)%bind_Ok)%bind_Ok.
    destruct (slide_rel_step_closed _ _ k _ _ _ _ _ _ Hinv H1) as (Hi1 & Hs1 & Hc1).
    destruct (IH _ _ _ _ _ Hi1 H2) as (Hi2 & Hs2 & Hc2).
    pose proof (frame_slide_rels_loop _ _ _ _ _ _ _ _ _ H2) as (_ & Hg & _).
    split; [exact Hi2|]. split; [etrans; eauto|].
    constructor; [|exact Hc2]. eapply closed_rel_mono; [exact Hg|exact Hc1].
Qed.

End CemMedia.

Section CemLoop.
Import FS Sys CopyElementsMethod.
Variable uuid4 : nat -> Z.

Lemma parse_exists (t : tree) p r : parse t p = inr r -> exists_ t p = true.
Proof. unfold parse, exists_. destruct (stat t p) as [|[]|]; intros H; try discriminate; reflexivity. Qed.

Lemma not_loop_key_slide m m' k :
  k <= m -> ~ loop_key m m' (slide_key k) /\ ~ loop_key m m' (slide_rels_key k).
Proof.
  intros Hk. split; intros [Hr|(j & Hj & [E|E])].
  - exact (not_resource_slide_key _ Hr).
  - apply slide_key_inj in E. lia.
  - exact (slide_key_ne_rels _ _ E).
  - exact (not_resource_slide_rels_key _ Hr).
  - symmetry in E. exact (slide_key_ne_rels _ _ E).
  - apply slide_rels_key_inj in E. lia.
Qed.

Lemma loop_key_mono m1 m2 m1' m2' key :
  m2 <= m1 -> m1' <= m2' -> loop_key m1 m1' key -> loop_key m2 m2' key.
Proof.
  intros H1 H2 [Hr|(j & Hj & E)]; [left; exact Hr|]. right. exists j. split; [lia|exact E].
Qed.

Lemma unit_closed_frame add P s s' sp k :
  frame P s s' -> ~ P (slide_rels_key k) ->
  unit_closed add (base s) sp k -> unit_closed add (base s') sp k.
Proof.
  intros (_ & Hg & Hf) HP Hc root Hroot.
  destruct (Hc root Hroot) as (news & Hdoc & Hall).
  exists news. split; [rewrite (Hf _ HP); exact Hdoc|].
  eapply Forall2_impl; [exact Hall|]. intros rel rel'. apply closed_rel_mono, Hg.
Qed.

(** One unit that is not skipped: its part and its relationships are in
    the tree when the iteration ends. *)
Lemma slide_step_closed add ns rns rels_ns add_rns v u v' s s' sp :
  media_inv add (added_media v) (base s) ->
  slide_step uuid4 add ns rns rels_ns add_rns v u s = Ok v' s' ->
  unit_source add add_rns u = Some sp ->
  let k := max_slide_id v + 1 in
  media_inv add (added_media v') (base s')
  /\ added_media v ⊆ added_media v'
  /\ (exists c, read add (in_dir ["ppt"; sp]) = inr c /\ base s' !! slide_key k = Some c)
  /\ unit_closed add (base s') sp k.
Proof.
  intros Hinv Hstep Hsrc k. apply slide_step_inv in Hstep. rewrite Hsrc in Hstep.
  destruct Hstep as (c & am' & Hread & Hpsr & ->). fold k in Hpsr. simpl.
  set (s1 := State (<[slide_key k := c]> (base s)) (stdout s) (draws s)) in Hpsr.
  assert (Hinv1 : media_inv add (added_media v) (base s1)).
  { eapply media_inv_mono; [|exact Hinv]. intros key Hk. simpl.
    destruct (decide (slide_key k = key)) as [->|Hne].
    - rewrite lookup_insert_eq. eauto.
    - rewrite lookup_insert_ne by exact Hne. exact Hk. }
  pose proof (frame_process_slide_relationships _ _ _ _ _ _ _ _ Hpsr) as (_ & Hg & Hf).
  assert (Hkey : base s' !! slide_key k = Some c).
  { rewrite Hf.
    - simpl. apply lookup_insert_eq.
    - intros [Hr|E]; [exact (not_resource_slide_key _ Hr)|exact (slide_key_ne_rels _ _ E)]. }
  apply process_slide_relationships_inv in Hpsr
    as [(Hno & -> & ->)|(root & news & s2 & Hparse & Hloop & ->)].
  - split; [exact Hinv1|]. split; [reflexivity|]. split; [eauto|].
    intros root Hroot. apply parse_exists in Hroot. congruence.
  - destruct (slide_rels_loop_closed uuid4 _ _ k _ _ _ _ _ _ Hinv1 Hloop) as (Hi2 & Hs2 & Hc2).
    assert (Hgrow : forall key, is_Some (base s2 !! key) ->
              is_Some (<[slide_rels_key k := Xml (ET.assign_desc "Target" news root)]> (base s2) !! key)).
    { intros key Hk. destruct (decide (slide_rels_key k = key)) as [->|Hne].
      - rewrite lookup_insert_eq. eauto.
      - rewrite lookup_insert_ne by exact Hne. exact Hk. }
    split; [eapply media_inv_mono; [exact Hgrow|exact Hi2]|]. split; [exact Hs2|].
    split; [eauto|].
    intros root' Hroot'. assert (root' = root) as -> by congruence.
    exists news. simpl. split; [apply lookup_insert_eq|].
    eapply Forall2_impl; [exact Hc2|]. intros rel rel'. apply closed_rel_mono, Hgrow.
Qed.

Lemma seq_map_shift {A} (F : Z -> Z -> A) m r n :
  map (fun i : nat => F (m + Z.of_nat i) (r + Z.of_nat i)) (seq 1 (S n))
  = F (m + 1) (r + 1)
    :: map (fun i : nat => F (m + 1 + Z.of_nat i) (r + 1 + Z.of_nat i)) (seq 1 n).
Proof.
  cbn [seq map]. f_equal. rewrite <- seq_shift, map_map.
  apply map_ext. intros i. f_equal; lia.
Qed.

Lemma extends_refl e : extends e e [].
Proof. unfold extends. rewrite app_nil_r. auto. Qed.

Lemma extends_append_then e c e' news :
  extends (ET.append c e) e' news -> extends e e' (c :: news).
Proof.
  intros (Ht & Ha & Hc). unfold extends.
  rewrite tag_append in Ht. rewrite attrib_append in Ha. rewrite children_append in Hc.
  rewrite Hc, <- app_assoc. auto.
Qed.

Lemma omap_cons_match {A B} (f : A -> option B) x l :
  omap f (x :: l) = match f x with Some y => y :: omap f l | None => omap f l end.
Proof. reflexivity. Qed.

(** The loop over the slides. *)
Lemma slides_loop_post add ns rns rels_ns add_rns units : forall v v' s s',
  media_inv add (added_media v) (base s) ->
  slides_loop uuid4 add ns rns rels_ns add_rns v units s = Ok v' s' ->
  loop_post add ns rns rels_ns (omap (unit_source add add_rns) units) v v' s s'.
Proof.
  induction units as [|u rest IH]; intros v v' s s' Hinv; cbn [slides_loop].
  - intros [<- <-]%ret_Ok. unfold loop_post. simpl.
    rewrite !Z.add_0_r.
    split; [reflexivity|]. split; [reflexivity|]. split; [apply extends_refl|].
    split; [apply extends_refl|]. split; [apply frame_refl|]. split; [reflexivity|].
    split; [exact Hinv|]. intros j sp Hj. rewrite lookup_nil in Hj. discriminate.
  - intros (v1 & s1 & Hstep & Hloop)%bind_Ok. rewrite omap_cons_match.
    destruct (unit_source add add_rns u) as [sp|] eqn:Hsrc.
    + destruct (slide_step_closed _ _ _ _ _ _ _ _ _ _ _ Hinv Hstep Hsrc)
        as (Hinv1 & Hsub1 & Hpart & Hclosed).
      pose proof (frame_slide_step _ _ _ _ _ _ _ _ _ _ _ Hstep) as Hframe1.
      pose proof Hstep as Hstep'. apply slide_step_inv in Hstep'. rewrite Hsrc in Hstep'.
      destruct Hstep' as (c0 & am0 & _ & _ & Hv1).
      assert (Hm1 : max_slide_id v1 = max_slide_id v + 1) by (rewrite Hv1; reflexivity).
      assert (Hr1 : max_rel_id v1 = max_rel_id v + 1) by (rewrite Hv1; reflexivity).
      specialize (IH _ _ _ _ Hinv1 Hloop).
      destruct IH as (Hm & Hr & Hse & Hre & Hframe & Hsub & Hinv' & Hunits).
      rewrite Hm1 in Hm, Hse, Hre, Hframe, Hunits. rewrite Hr1 in Hr, Hse, Hre.
      unfold loop_post. cbn [length]. rewrite !seq_map_shift.
      set (n := length (omap (unit_source add add_rns) rest)) in *.
      split; [lia|]. split; [lia|].
      split; [apply extends_append_then; rewrite Hv1 in Hse; exact Hse|].
      split; [apply extends_append_then; rewrite Hv1 in Hre; exact Hre|].
      split.
      { eapply frame_trans.
        - eapply frame_weaken; [|exact Hframe1]. rewrite Hm1.
          intros key. apply loop_key_mono; lia.
        - eapply frame_weaken; [|exact Hframe]. intros key. apply loop_key_mono; lia. }
      split; [etrans; eauto|]. split; [exact Hinv'|].
      intros [|j] sp' Hj.
      * injection Hj as <-. change (Z.of_nat 1) with 1.
        destruct (not_loop_key_slide (max_slide_id v + 1) (max_slide_id v')
                    (max_slide_id v + 1) (Z.le_refl _)) as [Hk1 Hk2].
        split.
        -- destruct Hpart as (c & Hc & Hkey). exists c. split; [exact Hc|].
           destruct Hframe as (_ & _ & Hf). rewrite (Hf _ Hk1). exact Hkey.
        -- eapply unit_closed_frame; [exact Hframe|exact Hk2|exact Hclosed].
      * specialize (Hunits j sp' Hj).
        replace (max_slide_id v + Z.of_nat (S (S j)))
          with (max_slide_id v + 1 + Z.of_nat (S j)) by lia.
        exact Hunits.
    + apply slide_step_inv in Hstep. rewrite Hsrc in Hstep. destruct Hstep as [-> ->].
      apply (IH _ _ _ _ Hinv Hloop).
Qed.

End CemLoop.

Section ReplaceFirst.
Import ET.
Variable p : element -> bool.
Hypothesis p_tag : forall t a cs cs', p (Element t a cs) = p (Element t a cs').

Lemma replace_first_unfold new e :
  replace_first p new e =
  match replace_in p new (children e) with
  | Some cs' => Some (Element (tag e) (attrib e) cs')
  | None => None
  end.
Proof. destruct e as [t a cs]. reflexivity. Qed.

Lemma find_desc_unfold e : find_desc p e = first_in p (children e).
Proof. reflexivity. Qed.

Lemma first_in_cons c r :
  first_in p (c :: r) =
  if p c then Some c
  else match first_in p (children c) with
       | Some x => Some x
       | None => first_in p r
       end.
Proof.
  unfold first_in. cbn [flat_map]. rewrite iter_unfold. cbn [List.app List.filter].
  destruct (p c); [reflexivity|].
  rewrite List.filter_app.
  destruct (List.filter p (flat_map iter (children c))); reflexivity.
Qed.

Lemma replace_in_none new : forall l,
  first_in p l = None -> replace_in p new l = None.
Proof.
  assert (Hel : forall e, first_in p (children e) = None ->
                          replace_in p new (children e) = None).
  { induction e as [t a cs IH] using element_ind'. cbn [children].
    induction cs as [|c r IHr]; intros Hnone; [reflexivity|].
    rewrite first_in_cons in Hnone. cbn [replace_in].
    apply Forall_cons in IH as [IHc IHrest].
    destruct (p c); [discriminate|]. rewrite replace_first_unfold.
    destruct (first_in p (children c)) eqn:Ec; [discriminate|].
    rewrite (IHc eq_refl), (IHr IHrest Hnone). reflexivity. }
  intros l. exact (Hel (Element "" [] l)).
Qed.

Lemma replace_in_found new : p new = true ->
  forall l old, first_in p l = Some old ->
  exists l', replace_in p new l = Some l' /\ first_in p l' = Some new.
Proof.
  intros Hnew.
  assert (Hel : forall e, forall old, first_in p (children e) = Some old ->
            exists cs', replace_in p new (children e) = Some cs' /\ first_in p cs' = Some new).
  { induction e as [t a cs IH] using element_ind'. cbn [children].
    induction cs as [|c r IHr]; intros old Hold; [discriminate|].
    rewrite first_in_cons in Hold. cbn [replace_in].
    apply Forall_cons in IH as [IHc IHrest].
    destruct (p c) eqn:Epc.
    - eexists. split; [reflexivity|]. rewrite first_in_cons, Hnew. reflexivity.
    - rewrite replace_first_unfold.
      destruct (first_in p (children c)) as [x|] eqn:Ec.
      + destruct (IHc x eq_refl) as (cs' & -> & Hcs').
        eexists. split; [reflexivity|]. rewrite first_in_cons. cbn [children].
        rewrite (p_tag _ _ cs' (children c)), <- element_eta, Epc, Hcs'. reflexivity.
      + rewrite (replace_in_none new _ Ec).
        destruct (IHr IHrest old Hold) as (r' & -> & Hr').
        eexists. split; [reflexivity|]. rewrite first_in_cons, Epc, Ec. exact Hr'. }
  intros l old Hold. exact (Hel (Element "" [] l) old Hold).
Qed.

Lemma replace_first_found new e old : p new = true ->
  find_desc p e = Some old ->
  exists e', replace_first p new e = Some e' /\ find_desc p e' = Some new
             /\ tag e' = tag e /\ attrib e' = attrib e.
Proof.
  intros Hnew Hold. rewrite find_desc_unfold in Hold.
  destruct (replace_in_found new Hnew _ _ Hold) as (cs' & Hcs' & Hf).
  rewrite replace_first_unfold, Hcs'. eexists. split; [reflexivity|]. auto.
Qed.

End ReplaceFirst.

Section CemBody.
Import FS Sys CopyElementsMethod.
Variable uuid4 : nat -> Z.

Lemma get_base_Ok b s s' : get_base s = Ok b s' <-> b = base s /\ s' = s.
Proof. unfold get_base. split; [intros [= <- <-]; auto|intros [-> ->]; reflexivity]. Qed.

Lemma print_Ok l u s s' :
  print l s = Ok u s' <-> s' = State (base s) (stdout s ++ [l]) (draws s).
Proof. unfold print. split; [intros [= <-]; auto|intros ->; destruct u; reflexivity]. Qed.

Lemma parse_base_Ok path r s s' :
  parse_base path s = Ok r s' <-> parse (base s) path = inr r /\ s' = s.
Proof.
  unfold parse_base. rewrite bind_Ok. split.
  - intros (b & s1 & [-> ->]%get_base_Ok & [H <-]%lift_Ok). auto.
  - intros [H ->]. exists (base s), s. split; [apply get_base_Ok; auto|apply lift_Ok; auto].
Qed.

Lemma frame_update_content_types u s s' :
  update_content_types s = Ok u s' -> frame (fun key => key = ct_key) s s'.
Proof.
  unfold update_content_types.
  intros (b & s0 & [-> ->]%get_base_Ok & H)%bind_Ok.
  destruct (negb _); [apply ret_Ok in H as [_ <-]; apply frame_refl|].
  apply bind_Ok in H as (root & s1 & [_ <-]%lift_Ok & H).
  apply bind_Ok in H as (slide_files & s2 & [_ <-]%lift_Ok & H).
  apply bind_Ok in H as (root' & s3 & H3 & Hw).
  assert (s3 = s) as ->.
  { destruct (exists_ (base s) _).
    - apply bind_Ok in H3 as (cf & s4 & [_ <-]%lift_Ok & [_ <-]%ret_Ok). reflexivity.
    - apply ret_Ok in H3 as [_ <-]. reflexivity. }
  eapply frame_write; [|exact Hw]. reflexivity.
Qed.

(** A content-type document that parses is a file of the tree. *)
Lemma parse_ct_key (t : tree) r : parse t ct_key = inr r -> t !! ct_key = Some (Xml r).
Proof.
  unfold parse, stat. cbn. unfold kind.
  change (key_of ["[Content_Types].xml"]) with ct_key.
  destruct (t !! ct_key) as [[b|r']|].
  - discriminate.
  - intros [= ->]. reflexivity.
  - destruct (is_dir t _); discriminate.
Qed.

(** [update_content_types] creates no document: when it writes one, the
    tree held it. *)
Lemma update_content_types_had u s s' :
  update_content_types s = Ok u s' -> s' = s \/ is_Some (base s !! ct_key).
Proof.
  unfold update_content_types.
  intros (b & s0 & [-> ->]%get_base_Ok & H)%bind_Ok.
  destruct (negb _); [apply ret_Ok in H as [_ <-]; left; reflexivity|].
  apply bind_Ok in H as (root & s1 & [Hroot <-]%lift_Ok & _).
  right. rewrite (parse_ct_key _ _ Hroot). eauto.
Qed.

(** A run of the [try] block that creates the package: the loop ran from
    the seeds read off the two top-level documents of the target, and the
    package is the tree the loop left, with the three documents rewritten. *)
Lemma merge_body_inv add out s0 pkg s :
  merge_body uuid4 add out s0 = Ok (Created pkg) s ->
  exists root slides0 parent ids rels0 rids add_root add_slides v s1,
    parse (base s0) pres_key = inr root
    /\ locate_slides (get_namespace root "p") root = inr (slides0, parent)
    /\ slide_ids_of (get_namespace root "p") slides0 = inr ids
    /\ parse (base s0) rels_key = inr rels0
    /\ rel_ids_of rels0 = inr rids
    /\ parse add pres_key = inr add_root
    /\ ET.find_desc (ET.tag_is (ET.qname (get_namespace add_root "p") "sldIdLst")) add_root
       = Some add_slides
    /\ slides_loop uuid4 add (get_namespace root "p") (get_namespace root "r")
         (get_namespace rels0 "p") (get_namespace add_root "r")
         (Vars slides0 rels0 (Py.max_or 255 ids) (Py.max_or 0 rids) ∅)
         (ET.findall_child (ET.tag_is (ET.qname (get_namespace add_root "p") "sldId"))
            add_slides) s0 = Ok v s1
    /\ pkg = base s
    /\ stdout s = (stdout s0 ++ [SuccessfullyMerged out])%list
    /\ pkg !! pres_key
       = Some (Xml (written_root (get_namespace root "p") root parent (slides_element v)))
    /\ pkg !! rels_key = Some (Xml (rels_root v))
    /\ (forall key, key <> pres_key -> key <> rels_key -> key <> ct_key ->
                    pkg !! key = base s1 !! key)
    /\ (forall key, is_Some (base s1 !! key) -> is_Some (pkg !! key))
    /\ (is_Some (pkg !! ct_key) -> is_Some (base s1 !! ct_key)).
Proof.
  unfold merge_body.
  change (in_dir ["ppt"; "presentation.xml"]) with pres_key.
  change (in_dir ["ppt"; "_rels"; "presentation.xml.rels"]) with rels_key.
  intros (root & s' & [Hroot ->]%parse_base_Ok & H)%bind_Ok.
  apply bind_Ok in H as ([slides0 parent] & s' & [Hloc <-]%lift_Ok & H).
  apply bind_Ok in H as (ids & s' & [Hids <-]%lift_Ok & H).
  apply bind_Ok in H as (rels0 & s' & [Hrels ->]%parse_base_Ok & H).
  apply bind_Ok in H as (rids & s' & [Hrids <-]%lift_Ok & H).
  apply bind_Ok in H as (add_root & s' & [Hadd <-]%lift_Ok & H).
  destruct (ET.find_desc _ add_root) as [add_slides|] eqn:Hfind.
  2:{ apply bind_Ok in H as (u & s' & _ & [[=] _]%ret_Ok). }
  apply bind_Ok in H as (v & s1 & Hloop & H).
  apply bind_Ok in H as (u1 & s2 & ->%write_Ok & H).
  apply bind_Ok in H as (u2 & s3 & ->%write_Ok & H).
  apply bind_Ok in H as (u3 & s4 & Hct & H).
  apply bind_Ok in H as (package & s5 & [-> ->]%get_base_Ok & H).
  apply bind_Ok in H as (u4 & s6 & ->%print_Ok & [[= <-] <-]%ret_Ok).
  pose proof (frame_update_content_types _ _ _ Hct) as (Hout & Hg & Hf).
  simpl in Hout, Hf, Hg.
  pose proof (fun Hi => slides_loop_post uuid4 add _ _ _ _ _ _ _ _ _ Hi Hloop) as Hpost.
  specialize (Hpost (media_inv_empty add _)).
  destruct Hpost as (_ & _ & _ & _ & (Hout1 & _ & _) & _).
  exists root, slides0, parent, ids, rels0, rids, add_root, add_slides, v, s1.
  repeat (split; [assumption || reflexivity|]). simpl.
  split; [rewrite Hout, Hout1; reflexivity|].
  split; [rewrite Hf by discriminate; rewrite lookup_insert_ne by discriminate;
          apply lookup_insert_eq|].
  split; [rewrite Hf by discriminate; apply lookup_insert_eq|].
  split; [|split].
  - intros key H1 H2 H3. rewrite (Hf _ H3).
    rewrite lookup_insert_ne by (apply not_eq_sym; exact H2).
    apply lookup_insert_ne. apply not_eq_sym; exact H1.
  - intros key Hk. apply Hg.
    destruct (decide (rels_key = key)) as [<-|H2]; [rewrite lookup_insert_eq; eauto|].
    rewrite lookup_insert_ne by exact H2.
    destruct (decide (pres_key = key)) as [<-|H1]; [rewrite lookup_insert_eq; eauto|].
    rewrite lookup_insert_ne by exact H1. exact Hk.
  - intros Hk. destruct (update_content_types_had _ _ _ Hct) as [->|Hhad].
    + cbn [base] in Hk. rewrite !lookup_insert_ne in Hk by discriminate. exact Hk.
    + cbn [base] in Hhad. rewrite !lookup_insert_ne in Hhad by discriminate. exact Hhad.
Qed.

End CemBody.

Section CemSpec.
Import FS Sys CopyElementsMethod.
Variable uuid4 : nat -> Z.

(** A run of the [try] block that creates the package, in terms of the two
    trees it started from. *)
Lemma merge_body_spec add out s0 pkg s :
  merge_body uuid4 add out s0 = Ok (Created pkg) s ->
  exists root slides0 parent rels0 v s1,
    parse (base s0) pres_key = inr root
    /\ locate_slides (get_namespace root "p") root = inr (slides0, parent)
    /\ parse (base s0) rels_key = inr rels0
    /\ loop_post add (get_namespace root "p") (get_namespace root "r")
         (get_namespace rels0 "p") (merged_sources add)
         (Vars slides0 rels0 (unit_seed (base s0)) (rel_seed (base s0)) ∅) v s0 s1
    /\ pkg !! pres_key
       = Some (Xml (written_root (get_namespace root "p") root parent (slides_element v)))
    /\ pkg !! rels_key = Some (Xml (rels_root v))
    /\ (forall key, key <> pres_key -> key <> rels_key -> key <> ct_key ->
                    pkg !! key = base s1 !! key)
    /\ (forall key, is_Some (base s1 !! key) -> is_Some (pkg !! key))
    /\ stdout s = (stdout s0 ++ [SuccessfullyMerged out])%list.
Proof.
  intros H. apply merge_body_inv in H
    as (root & slides0 & parent & ids & rels0 & rids & add_root & add_slides & v & s1
        & Hroot & Hloc & Hids & Hrels & Hrids & Hadd & Hfind & Hloop & -> & Hout
        & Hpres & Hrk & Hother & Hgrow & _).
  exists root, slides0, parent, rels0, v, s1.
  assert (Hus : unit_seed (base s0) = Py.max_or 255 ids).
  { unfold unit_seed. rewrite Hroot, Hloc, Hids. reflexivity. }
  assert (Hrs : rel_seed (base s0) = Py.max_or 0 rids).
  { unfold rel_seed. rewrite Hrels, Hrids. reflexivity. }
  assert (Hms : merged_sources add
                = omap (unit_source add (get_namespace add_root "r"))
                    (ET.findall_child
                       (ET.tag_is (ET.qname (get_namespace add_root "p") "sldId")) add_slides)).
  { unfold merged_sources, source_units. rewrite Hadd, Hfind. reflexivity. }
  rewrite Hus, Hrs, Hms.
  pose proof (fun Hi => slides_loop_post uuid4 add _ _ _ _ _ _ _ _ _ Hi Hloop) as Hpost.
  specialize (Hpost (media_inv_empty add _)).
  exact (conj Hroot (conj Hloc (conj Hrels (conj Hpost (conj Hpres (conj Hrk
           (conj Hother (conj Hgrow Hout)))))))).
Qed.

End CemSpec.

Section IdFacts.
Import FS Sys CopyElementsMethod.

Lemma qname_ne_plain ns l (k : string) :
  Py.startswith "{" k = false -> ET.qname ns l <> k.
Proof. intros H <-. discriminate H. Qed.

Lemma new_slide_elem_id ns rns sid rid :
  ET.get "id" (new_slide_elem ns rns sid rid) = Some (Py.str sid).
Proof.
  unfold new_slide_elem. rewrite get_set_ne by (apply qname_ne_plain; reflexivity).
  apply get_set_eq.
Qed.

Lemma new_slide_elem_rid ns rns sid rid :
  ET.get (ET.qname rns "id") (new_slide_elem ns rns sid rid) = Some ("rId" ++ Py.str rid).
Proof. unfold new_slide_elem. apply get_set_eq. Qed.

Lemma new_slide_elem_tag ns rns sid rid :
  ET.tag (new_slide_elem ns rns sid rid) = ET.qname ns "sldId".
Proof. unfold new_slide_elem. rewrite !tag_set. reflexivity. Qed.

Lemma new_rel_elem_id rels_ns sid rid :
  ET.get "Id" (new_rel_elem rels_ns sid rid) = Some ("rId" ++ Py.str rid).
Proof.
  unfold new_rel_elem. rewrite !get_set_ne by discriminate. apply get_set_eq.
Qed.

Lemma new_rel_elem_target rels_ns sid rid :
  ET.get "Target" (new_rel_elem rels_ns sid rid) = Some (new_slide_path sid).
Proof. unfold new_rel_elem. apply get_set_eq. Qed.

Lemma new_rel_elem_type rels_ns sid rid :
  ET.get "Type" (new_rel_elem rels_ns sid rid) = Some slide_rel_type.
Proof. unfold new_rel_elem. rewrite get_set_ne by discriminate. apply get_set_eq. Qed.

Lemma fold_max_ge l : forall x, x <= fold_left Z.max l x /\ Forall (fun i => i <= fold_left Z.max l x) l.
Proof.
  induction l as [|y l IH]; intros x; simpl.
  - split; [lia|constructor].
  - destruct (IH (Z.max x y)) as [H1 H2]. split; [lia|]. constructor; [lia|exact H2].
Qed.

Lemma max_or_ge d l : Forall (fun i => i <= Py.max_or d l) l.
Proof.
  destruct l as [|x l]; [constructor|]. simpl.
  destruct (fold_max_ge l x) as [H1 H2]. constructor; assumption.
Qed.

Lemma mapE_Forall2 {A B} (f : A -> exn + B) l ys :
  mapE f l = inr ys -> Forall2 (fun x y => f x = inr y) l ys.
Proof.
  revert ys. induction l as [|x l IH]; simpl; intros ys.
  - intros [= <-]. constructor.
  - destruct (f x) as [e|y] eqn:Ex; [discriminate|].
    destruct (mapE f l) as [e|ys']; [discriminate|]. intros [= <-].
    constructor; [exact Ex|apply IH; reflexivity].
Qed.

Lemma int_attr_inr o z :
  int_attr o = inr z -> exists x, o = Some x /\ Py.int x = Some z.
Proof.
  unfold int_attr. destruct o as [x|]; [|discriminate].
  destruct (Py.int x) as [z'|] eqn:E; [|discriminate]. intros [= <-]. eauto.
Qed.

(** An id above the watermark is the id of no slide of the list. *)
Lemma slide_id_fresh ns lst ids e k :
  slide_ids_of ns lst = inr ids ->
  In e (ET.findall_child (ET.tag_is (ET.qname ns "sldId")) lst) ->
  Py.max_or 255 ids < k ->
  ET.get "id" e <> Some (Py.str k).
Proof.
  intros Hids He Hk Heq. apply mapE_Forall2 in Hids.
  pose proof (max_or_ge 255 ids) as Hmax. revert Hmax.
  generalize (Py.max_or 255 ids) Hk. clear Hk. intros mx Hmx.
  remember (ET.findall_child (ET.tag_is (ET.qname ns "sldId")) lst) as l eqn:El. clear El.
  induction Hids as [|x y l ys Hxy Hrest IH]; [destruct He|].
  intros [Hy Hmax]%Forall_cons. destruct He as [->|He]; [|auto].
  apply int_attr_inr in Hxy as (s & Hs & Hint).
  rewrite Heq in Hs. injection Hs as <-. rewrite int_str in Hint. injection Hint as <-. lia.
Qed.

(** A relationship id above the watermark is used by no relationship of
    the document. *)
Lemma rel_id_fresh rels0 rids e k :
  rel_ids_of rels0 = inr rids ->
  In e (ET.findall_desc (ET.has_attr "Id") rels0) ->
  Py.max_or 0 rids < k ->
  ET.get "Id" e <> Some ("rId" ++ Py.str k).
Proof.
  intros Hids He Hk Heq. apply mapE_Forall2 in Hids.
  pose proof (max_or_ge 0 rids) as Hmax. revert Hmax.
  generalize (Py.max_or 0 rids) Hk. clear Hk. intros mx Hmx.
  remember (ET.findall_desc (ET.has_attr "Id") rels0) as l eqn:El. clear El.
  induction Hids as [|x y l ys Hxy Hrest IH]; [destruct He|].
  intros [Hy Hmax]%Forall_cons. destruct He as [->|He]; [|auto].
  rewrite Heq in Hxy.
  change (int_attr (Some (Py.replace "rId" "" ("rId" ++ Py.str k))) = inr y) in Hxy.
  rewrite replace_rId_str in Hxy.
  apply int_attr_inr in Hxy as (s & [= <-] & Hint).
  rewrite int_str in Hint. injection Hint as <-. lia.
Qed.

Lemma find_desc_true p e x : ET.find_desc p e = Some x -> p x = true.
Proof.
  unfold ET.find_desc. intros H.
  assert (Hin : In x (List.filter p (ET.descendants e))).
  { destruct (List.filter p (ET.descendants e)); [discriminate|].
    injection H as ->. left. reflexivity. }
  apply filter_In in Hin. apply Hin.
Qed.

Lemma tag_is_children t t0 a cs cs' :
  ET.tag_is t (ET.Element t0 a cs) = ET.tag_is t (ET.Element t0 a cs').
Proof. reflexivity. Qed.

Lemma extends_tag_is t e e' news : extends e e' news -> ET.tag_is t e' = ET.tag_is t e.
Proof. intros (Ht & _). unfold ET.tag_is. rewrite Ht. reflexivity. Qed.

End IdFacts.

Section CemIds.
Import FS Sys CopyElementsMethod.
Variable uuid4 : nat -> Z.

(** [loop_post] for a loop started from given variables. *)
Lemma loop_post_proj add ns rns rels_ns srcs sl rl m r am v' s s' :
  loop_post add ns rns rels_ns srcs (Vars sl rl m r am) v' s s' ->
  max_slide_id v' = m + Z.of_nat (length srcs)
  /\ max_rel_id v' = r + Z.of_nat (length srcs)
  /\ extends sl (slides_element v')
       (map (fun i : nat => new_slide_elem ns rns (m + Z.of_nat i) (r + Z.of_nat i))
            (seq 1 (length srcs)))
  /\ extends rl (rels_root v')
       (map (fun i : nat => new_rel_elem rels_ns (m + Z.of_nat i) (r + Z.of_nat i))
            (seq 1 (length srcs)))
  /\ frame (loop_key m (max_slide_id v')) s s'
  /\ am ⊆ added_media v'
  /\ media_inv add (added_media v') (base s')
  /\ forall (j : nat) sp, srcs !! j = Some sp ->
       (exists c, read add (in_dir ["ppt"; sp]) = inr c
                  /\ base s' !! slide_key (m + Z.of_nat (S j)) = Some c)
       /\ unit_closed add (base s') sp (m + Z.of_nat (S j)).
Proof. intros H. exact H. Qed.

(** The two lists of a package the script created, against those of the
    target it started from: one [sldId] and one [Relationship] per unit
    that was not skipped, numbered upwards from the seeds. *)
Lemma merge_body_ids add out s0 pkg s root lst :
  merge_body uuid4 add out s0 = Ok (Created pkg) s ->
  parse (base s0) pres_key = inr root ->
  ET.find_desc (ET.tag_is (ET.qname (get_namespace root "p") "sldIdLst")) root = Some lst ->
  exists root' lst' rels0 rels',
    pkg !! pres_key = Some (Xml root')
    /\ ET.find_desc (ET.tag_is (ET.qname (get_namespace root "p") "sldIdLst")) root' = Some lst'
    /\ parse (base s0) rels_key = inr rels0
    /\ pkg !! rels_key = Some (Xml rels')
    /\ extends lst lst'
         (map (fun i : nat =>
                 new_slide_elem (get_namespace root "p") (get_namespace root "r")
                   (unit_seed (base s0) + Z.of_nat i) (rel_seed (base s0) + Z.of_nat i))
              (seq 1 (length (merged_sources add))))
    /\ extends rels0 rels'
         (map (fun i : nat =>
                 new_rel_elem (get_namespace rels0 "p")
                   (unit_seed (base s0) + Z.of_nat i) (rel_seed (base s0) + Z.of_nat i))
              (seq 1 (length (merged_sources add)))).
Proof.
  intros H Hroot Hfind. apply merge_body_spec in H
    as (root0 & slides0 & parent & rels0 & v & s1 & Hroot0 & Hloc & Hrels & Hpost
        & Hpres & Hrk & _).
  assert (root0 = root) as -> by congruence.
  unfold locate_slides in Hloc. rewrite Hfind in Hloc. injection Hloc as <- <-.
  apply loop_post_proj in Hpost as (_ & _ & Hse & Hre & _).
  assert (Hp : ET.tag_is (ET.qname (get_namespace root "p") "sldIdLst") (slides_element v) = true).
  { rewrite (extends_tag_is _ _ _ _ Hse). apply (find_desc_true _ _ _ Hfind). }
  destruct (replace_first_found _ (tag_is_children _) (slides_element v) root lst Hp Hfind)
    as (root' & Hrep & Hfind' & _).
  exists root', (slides_element v), rels0, (rels_root v).
  split; [rewrite Hpres; unfold written_root; rewrite Hrep; reflexivity|].
  auto.
Qed.

End CemIds.

Section CemSeeds.
Import FS Sys CopyElementsMethod.
Variable uuid4 : nat -> Z.

Lemma merge_body_seeds add out s0 pkg s root lst :
  merge_body uuid4 add out s0 = Ok (Created pkg) s ->
  parse (base s0) pres_key = inr root ->
  ET.find_desc (ET.tag_is (ET.qname (get_namespace root "p") "sldIdLst")) root = Some lst ->
  exists ids rels0 rids,
    slide_ids_of (get_namespace root "p") lst = inr ids
    /\ parse (base s0) rels_key = inr rels0
    /\ rel_ids_of rels0 = inr rids
    /\ unit_seed (base s0) = Py.max_or 255 ids
    /\ rel_seed (base s0) = Py.max_or 0 rids.
Proof.
  intros H Hroot Hfind. apply merge_body_inv in H
    as (root0 & slides0 & parent & ids & rels0 & rids & _ & _ & _ & _
        & Hroot0 & Hloc & Hids & Hrels & Hrids & _).
  assert (root0 = root) as -> by congruence.
  unfold locate_slides in Hloc. rewrite Hfind in Hloc. injection Hloc as <- <-.
  exists ids, rels0, rids. repeat (split; [assumption|]). split.
  - unfold unit_seed, locate_slides. rewrite Hroot, Hfind, Hids. reflexivity.
  - unfold rel_seed. rewrite Hrels, Hrids. reflexivity.
Qed.

Lemma map_seq_ids {A} (f : nat -> A) (g : A -> option string) (h : nat -> option string) n :
  (forall i, g (f i) = h i) -> map g (map f (seq 1 n)) = map h (seq 1 n).
Proof. intros H. rewrite map_map. apply map_ext, H. Qed.

Lemma in_map_seq {A} (f : nat -> A) n x :
  In x (map f (seq 1 n)) -> exists i : nat, (1 <= i)%nat /\ x = f i.
Proof.
  intros (i & <- & Hi)%in_map_iff. apply in_seq in Hi. exists i. split; [lia|reflexivity].
Qed.

End CemSeeds.

Section ContentTypes.
Import FS Sys.

(** A loop that appends [mk x] to the root for the [x] that pass a test. *)
Lemma fold_append_extends {A} (f : ET.element -> A -> ET.element)
    (skip : A -> bool) (mk : A -> ET.element) :
  (forall r x, f r x = if skip x then r else ET.append (mk x) r) ->
  forall l root,
    extends root (fold_left f l root) (map mk (List.filter (fun x => negb (skip x)) l)).
Proof.
  intros Hf. induction l as [|x l IH]; intros root; cbn [fold_left List.filter map].
  - apply extends_refl.
  - rewrite Hf. destruct (skip x); cbn [negb].
    + apply IH.
    + cbn [map]. apply extends_append_then, IH.
Qed.

Lemma extends_trans e1 e2 e3 n1 n2 :
  extends e1 e2 n1 -> extends e2 e3 n2 -> extends e1 e3 (n1 ++ n2).
Proof.
  intros (Ht & Ha & Hc) (Ht' & Ha' & Hc'). unfold extends.
  rewrite Ht', Ha', Hc', Hc, app_assoc. auto.
Qed.

(** The elements a step [.//{*}l] finds are those it found before an
    extension by leaves with other tags. *)
Lemma findall_desc_extends p e e' news :
  extends e e' news ->
  Forall (fun n => ET.children n = [] /\ p n = false) news ->
  ET.findall_desc p e' = ET.findall_desc p e.
Proof.
  intros (_ & _ & Hc) Hnews. unfold ET.findall_desc, ET.descendants.
  rewrite Hc, flat_map_app, List.filter_app.
  assert (Hn : List.filter p (flat_map ET.iter news) = []).
  { clear Hc. induction Hnews as [|n news [Hch Hp] _ IH]; [reflexivity|].
    cbn [flat_map]. rewrite List.filter_app, IH, iter_unfold, Hch.
    cbn [flat_map List.filter List.app]. rewrite Hp. reflexivity. }
  rewrite Hn, app_nil_r. reflexivity.
Qed.

Import CopyElementsMethod.

Lemma leaf_set k v e : ET.children e = [] -> ET.children (ET.set k v e) = [].
Proof. intros H. rewrite children_set. exact H. Qed.

(** [update_content_types] on a tree that holds the document [root]. *)
Lemma update_content_types_inv u s s' root :
  update_content_types s = Ok u s' ->
  parse (base s) ct_key = inr root ->
  exists slide_files chart_files,
    let existing_defaults :=
      map (ET.get "Extension") (ET.findall_desc (ET.local_is "Default") root) in
    let root1 := fold_left (add_default existing_defaults) extensions root in
    let existing_overrides :=
      omap (fun override =>
              match ET.get "PartName" override with
              | Some part_name => if String.eqb part_name "" then None else Some part_name
              | None => None
              end)
           (ET.findall_desc (ET.local_is "Override") root1) in
    let root2 :=
      fold_left (add_override "/ppt/slides/" content_type_slides existing_overrides)
                slide_files root1 in
    let root3 :=
      fold_left (add_override "/ppt/charts/" content_type_chart existing_overrides)
                chart_files root2 in
    s' = State (<[ct_key := Xml root3]> (base s)) (stdout s) (draws s).
Proof.
  unfold update_content_types. change (in_dir ["[Content_Types].xml"]) with ct_key.
  intros (b & s0 & [-> ->]%get_base_Ok & H)%bind_Ok Hroot.
  rewrite (parse_exists _ _ _ Hroot) in H. cbn [negb] in H.
  apply bind_Ok in H as (root0 & s1 & [Hroot0 <-]%lift_Ok & H).
  assert (root0 = root) as -> by congruence.
  apply bind_Ok in H as (slide_files & s2 & [_ <-]%lift_Ok & H).
  apply bind_Ok in H as (root' & s3 & H3 & Hw).
  destruct (exists_ (base s) (in_dir ["ppt"; "charts"])).
  - apply bind_Ok in H3 as (chart_files & s4 & [_ <-]%lift_Ok & [<- <-]%ret_Ok).
    exists slide_files, chart_files. apply write_Ok in Hw. exact Hw.
  - apply ret_Ok in H3 as [<- <-]. exists slide_files, []. apply write_Ok in Hw. exact Hw.
Qed.

End ContentTypes.

Section Claims6.
Import FS Sys CopyElementsMethod.

Lemma add_override_test folder ct existing root file :
  add_override folder ct existing root file
  = if negb (Py.endswith ".xml" file) || bool_decide (folder ++ file ∈ existing)
    then root
    else ET.append
           (ET.set "ContentType" ct
              (ET.set "PartName" (folder ++ file)
                 (ET.Element (ET.qname ct_ns "Override") [] []))) root.
Proof.
  unfold add_override. destruct (Py.endswith ".xml" file); [|reflexivity].
  cbn [negb orb]. reflexivity.
Qed.

Lemma Forall_map_filter {A B} (P : B -> Prop) (mk : A -> B) (keep : A -> bool) l :
  (forall x, In x l -> keep x = true -> P (mk x)) ->
  Forall P (map mk (List.filter keep l)).
Proof.
  intros H. apply List.Forall_forall. intros y (x & <- & Hx)%in_map_iff.
  apply filter_In in Hx as [Hin Hk]. auto.
Qed.

(** What [update_content_types] appends declares nothing the document
    declared. *)
Lemma update_content_types_keeps u s s' root :
  update_content_types s = Ok u s' ->
  parse (base s) ct_key = inr root ->
  exists root' extra,
    base s' !! ct_key = Some (Xml root')
    /\ extends root root' extra
    /\ stdout s' = stdout s
    /\ Forall (new_declaration root) extra.
Proof.
  intros H Hroot.
  destruct (update_content_types_inv _ _ _ _ H Hroot) as (slide_files & chart_files & Hs').
  cbv zeta in Hs'.
  set (existing_defaults := map (ET.get "Extension")
                              (ET.findall_desc (ET.local_is "Default") root)) in *.
  set (root1 := fold_left (add_default existing_defaults) extensions root) in *.
  set (existing_overrides := omap _ (ET.findall_desc (ET.local_is "Override") root1)) in *.
  pose proof (fold_append_extends (add_default existing_defaults)
                (fun em => bool_decide (Some (tail_str (fst em)) ∈ existing_defaults))
                (fun em => ET.set "ContentType" (snd em)
                             (ET.set "Extension" (tail_str (fst em))
                                (ET.Element (ET.qname ct_ns "Default") [] [])))
                (fun r x => eq_refl) extensions root) as H1.
  fold root1 in H1.
  pose proof (fold_append_extends
                (add_override "/ppt/slides/" content_type_slides existing_overrides)
                _ _ (add_override_test _ _ _) slide_files root1) as H2.
  pose proof (fold_append_extends
                (add_override "/ppt/charts/" content_type_chart existing_overrides)
                _ _ (add_override_test _ _ _) chart_files
                (fold_left (add_override "/ppt/slides/" content_type_slides
                              existing_overrides) slide_files root1)) as H3.
  pose proof (extends_trans _ _ _ _ _ (extends_trans _ _ _ _ _ H1 H2) H3) as Hext.
  assert (Hover : ET.findall_desc (ET.local_is "Override") root1
                  = ET.findall_desc (ET.local_is "Override") root).
  { apply (findall_desc_extends _ _ _ _ H1). apply Forall_map_filter.
    intros em _ _. split; reflexivity. }
  assert (Hnew_over : forall folder ct files,
            Py.startswith "/" folder = true ->
            Forall (new_declaration root)
              (map (fun file => ET.set "ContentType" ct
                       (ET.set "PartName" (folder ++ file)
                          (ET.Element (ET.qname ct_ns "Override") [] [])))
                   (List.filter
                      (fun file => negb (negb (Py.endswith ".xml" file)
                                         || bool_decide (folder ++ file ∈ existing_overrides)))
                      files))).
  { intros folder ct files Hfolder. apply Forall_map_filter.
    intros file _ Hkeep. split; [reflexivity|]. right. split; [reflexivity|].
    exists (folder ++ file). split.
    - rewrite get_set_ne by discriminate. apply get_set_eq.
    - intros (e & He & Hpart).
      apply negb_true_iff, orb_false_iff in Hkeep as [_ Hkeep].
      apply bool_decide_eq_false in Hkeep. apply Hkeep.
      unfold existing_overrides. rewrite Hover. apply list_elem_of_omap.
      exists e. split; [apply list_elem_of_In; exact He|]. rewrite Hpart.
      destruct folder; [discriminate|]. reflexivity. }
  eexists _, _. split; [rewrite Hs'; simpl; apply lookup_insert_eq|].
  split; [exact Hext|]. split; [rewrite Hs'; reflexivity|].
  apply Forall_app. split; [apply Forall_app; split|].
  - apply Forall_map_filter. intros em _ Hkeep. split; [reflexivity|]. left.
    split; [reflexivity|]. exists (tail_str (fst em)). split.
    + rewrite get_set_ne by discriminate. apply get_set_eq.
    + intros (e & He & Hext'). apply negb_true_iff, bool_decide_eq_false in Hkeep.
      apply Hkeep. unfold existing_defaults. rewrite <- Hext'.
      apply list_elem_of_In, in_map, He.
  - apply Hnew_over. reflexivity.
  - apply Hnew_over. reflexivity.
Qed.

End Claims6.

(* ===================================================================== *)
(** * Facts about mk2.py *)
(* ===================================================================== *)

Section Mk2Facts.
Import FS Sys.

Lemma mk2_bind_Ok {A B} (m : Mk2.M A) (f : A -> Mk2.M B) s b s' :
  Mk2.bind m f s = Mk2.Ok b s' <-> exists a s1, m s = Mk2.Ok a s1 /\ f a s1 = Mk2.Ok b s'.
Proof.
  unfold Mk2.bind. destruct (m s) as [a s1|e s1]; split.
  - intros H. exists a, s1. split; [reflexivity|exact H].
  - intros (a' & s1' & E & H). injection E as <- <-. exact H.
  - discriminate.
  - intros (a' & s1' & E & _). discriminate.
Qed.

Lemma mk2_ret_Ok {A} (a b : A) s s' : Mk2.ret a s = Mk2.Ok b s' <-> a = b /\ s = s'.
Proof. unfold Mk2.ret. split; [intros H; injection H; auto|intros [-> ->]; reflexivity]. Qed.

Lemma mk2_slide_elem_id ns sid rid :
  ET.get "id" (mk2_slide_elem ns sid rid) = Some (Py.str sid).
Proof.
  unfold mk2_slide_elem. rewrite get_set_ne by (apply qname_ne_plain; reflexivity).
  apply get_set_eq.
Qed.

(** One iteration of the loop of [mk2.py]: both counters advance, whether
    the unit is copied or passed over. *)
Lemma mk2_slide_step_inv second ns v u v' s s' :
  Mk2.slide_step second ns v u s = Mk2.Ok v' s' ->
  Mk2.max_id v' = Mk2.max_id v + 1
  /\ Mk2.max_rel_id v' = Mk2.max_rel_id v + 1
  /\ ((Mk2.slide_id_list1 v' = Mk2.slide_id_list1 v /\ Mk2.rels_root v' = Mk2.rels_root v)
      \/ exists new_rel,
           Mk2.slide_id_list1 v'
           = ET.append (mk2_slide_elem ns (Mk2.max_id v + 1) (Mk2.max_rel_id v + 1))
               (Mk2.slide_id_list1 v)
           /\ Mk2.rels_root v' = ET.append new_rel (Mk2.rels_root v)
           /\ ET.get "Id" new_rel = Some ("rId" ++ Py.str (Mk2.max_rel_id v + 1))).
Proof.
  unfold Mk2.slide_step.
  intros (rel_root & s1 & _ & (found & s2 & _ & H)%mk2_bind_Ok)%mk2_bind_Ok.
  destruct (match found with [] => None | rel :: _ => ET.get "Target" rel end)
    as [slide_path|].
  2:{ apply mk2_ret_Ok in H as [<- _]. simpl. auto. }
  destruct (String.eqb slide_path "").
  { apply mk2_ret_Ok in H as [<- _]. simpl. auto. }
  apply mk2_bind_Ok in H as (u1 & s3 & _ & (u2 & s4 & _ & [<- _]%mk2_ret_Ok)%mk2_bind_Ok).
  cbn [Mk2.max_id Mk2.max_rel_id Mk2.slide_id_list1 Mk2.rels_root].
  split; [reflexivity|]. split; [reflexivity|]. right.
  eexists. split; [reflexivity|]. split; [reflexivity|].
  rewrite !get_set_ne by discriminate. apply get_set_eq.
Qed.

Lemma sorted_shift ks :
  StronglySorted lt ks -> StronglySorted lt (map S ks).
Proof.
  induction 1 as [|k ks Hs IH Hall]; cbn [map]; constructor; [exact IH|].
  apply List.Forall_forall. intros x (y & <- & Hy)%in_map_iff.
  pose proof (proj1 (List.Forall_forall _ _) Hall y Hy). simpl in *. lia.
Qed.

(** The loop of [mk2.py]: each unit takes the next number of each counter;
    the entries appended carry the numbers of the units that were copied. *)
Lemma mk2_slides_loop_post second ns units : forall v v' s s',
  Mk2.slides_loop second ns v units s = Mk2.Ok v' s' ->
  Mk2.max_id v' = Mk2.max_id v + Z.of_nat (length units)
  /\ Mk2.max_rel_id v' = Mk2.max_rel_id v + Z.of_nat (length units)
  /\ exists (ks : list nat) news_r,
       StronglySorted lt ks
       /\ Forall (fun i => (1 <= i <= length units)%nat) ks
       /\ extends (Mk2.slide_id_list1 v) (Mk2.slide_id_list1 v')
            (map (fun i : nat => mk2_slide_elem ns (Mk2.max_id v + Z.of_nat i)
                                   (Mk2.max_rel_id v + Z.of_nat i)) ks)
       /\ extends (Mk2.rels_root v) (Mk2.rels_root v') news_r
       /\ map (ET.get "Id") news_r
          = map (fun i : nat => Some ("rId" ++ Py.str (Mk2.max_rel_id v + Z.of_nat i))) ks.
Proof.
  induction units as [|u rest IH]; intros v v' s s'; cbn [Mk2.slides_loop length].
  - intros [<- _]%mk2_ret_Ok. rewrite !Z.add_0_r. split; [reflexivity|]. split; [reflexivity|].
    exists [], []. split; [constructor|]. split; [constructor|].
    split; [apply extends_refl|]. split; [apply extends_refl|reflexivity].
  - intros (v1 & s1 & Hstep & Hloop)%mk2_bind_Ok.
    apply mk2_slide_step_inv in Hstep as (Hm1 & Hr1 & Hcase).
    destruct (IH _ _ _ _ Hloop) as (Hm & Hr & ks & news_r & Hs & Hb & Hse & Hre & Hids).
    rewrite Hm1 in Hm, Hse. rewrite Hr1 in Hr, Hse, Hids.
    split; [lia|]. split; [lia|].
    assert (Hshift : forall (F : Z -> Z -> ET.element) l,
              map (fun i : nat => F (Mk2.max_id v + 1 + Z.of_nat i)
                                    (Mk2.max_rel_id v + 1 + Z.of_nat i)) l
              = map (fun i : nat => F (Mk2.max_id v + Z.of_nat i)
                                      (Mk2.max_rel_id v + Z.of_nat i)) (map S l)).
    { intros F l. rewrite map_map. apply map_ext. intros i. f_equal; lia. }
    assert (Hshift' : forall l : list nat,
              map (fun i : nat => Some ("rId" ++ Py.str (Mk2.max_rel_id v + 1 + Z.of_nat i))) l
              = map (fun i : nat => Some ("rId" ++ Py.str (Mk2.max_rel_id v + Z.of_nat i)))
                    (map S l)).
    { intros l. rewrite map_map. apply map_ext. intros i. do 3 f_equal. lia. }
    assert (Hb' : Forall (fun i => (1 <= i <= S (length rest))%nat) (map S ks)).
    { apply List.Forall_forall. intros x (y & <- & Hy)%in_map_iff.
      pose proof (proj1 (List.Forall_forall _ _) Hb y Hy). simpl in *. lia. }
    rewrite Hshift in Hse. rewrite Hshift' in Hids.
    destruct Hcase as [[El Er]|(new_rel & El & Er & Hid)].
    + exists (map S ks), news_r. rewrite El in Hse. rewrite Er in Hre.
      split; [apply sorted_shift, Hs|]. auto.
    + exists (1%nat :: map S ks), (new_rel :: news_r).
      rewrite El in Hse. rewrite Er in Hre.
      split.
      { constructor; [apply sorted_shift, Hs|].
        apply List.Forall_forall. intros x (y & <- & Hy)%in_map_iff.
        pose proof (proj1 (List.Forall_forall _ _) Hb y Hy). simpl in *. lia. }
      split; [constructor; [lia|exact Hb']|].
      split; [cbn [map]; apply extends_append_then; exact Hse|].
      split; [apply extends_append_then; exact Hre|].
      cbn [map]. rewrite Hid, Hids. reflexivity.
Qed.

Lemma sorted_ids_from m ks :
  StronglySorted lt ks -> StronglySorted Z.lt (ids_from m ks).
Proof.
  induction 1 as [|k ks Hs IH Hall]; cbn [ids_from map]; constructor; [exact IH|].
  apply List.Forall_forall. intros x (y & <- & Hy)%in_map_iff.
  pose proof (proj1 (List.Forall_forall _ _) Hall y Hy). simpl in *. lia.
Qed.

Lemma sorted_seq a n : StronglySorted lt (seq a n).
Proof.
  revert a. induction n as [|n IH]; intros a; cbn [seq]; constructor; [apply IH|].
  apply List.Forall_forall. intros x Hx%in_seq. lia.
Qed.

Lemma sorted_nodup (f : Z -> string) l :
  (forall a b, f a = f b -> a = b) ->
  StronglySorted Z.lt l -> List.NoDup (map (fun k => Some (f k)) l).
Proof.
  intros Hf. induction 1 as [|k ks Hs IH Hall]; cbn [map]; constructor; [|exact IH].
  intros (y & [= E] & Hy)%in_map_iff. apply Hf in E. subst y.
  pose proof (proj1 (List.Forall_forall _ _) Hall k Hy). simpl in *. lia.
Qed.

Lemma rid_inj a b : "rId" ++ Py.str a = "rId" ++ Py.str b -> a = b.
Proof. intros H. apply (app_inv_head_str "rId") in H. apply str_inj, H. Qed.

End Mk2Facts.

(* ===================================================================== *)
(** * Two runs of copy_elements_method.py on the same packages *)
(* ===================================================================== *)

Section TwoRuns.
Import FS Sys CopyElementsMethod.

Lemma same_paths_refl t : same_paths t t.
Proof. intros key _. reflexivity. Qed.

Lemma same_paths_insert key c1 c2 t1 t2 :
  same_paths t1 t2 -> same_paths (<[key := c1]> t1) (<[key := c2]> t2).
Proof.
  intros H k Hk. destruct (decide (key = k)) as [->|Hne].
  - rewrite !lookup_insert_eq. split; eauto.
  - rewrite !lookup_insert_ne by exact Hne. apply H, Hk.
Qed.

Lemma same_paths_frame s1 s1' s2 s2' :
  frame drawn s1 s1' -> frame drawn s2 s2' ->
  same_paths (base s1) (base s2) -> same_paths (base s1') (base s2').
Proof.
  intros (_ & _ & H1) (_ & _ & H2) H key Hk.
  rewrite H1, H2 by (unfold drawn; rewrite Hk; discriminate). apply H, Hk.
Qed.

Section OneRun.
Variable uuid4 : nat -> Z.

Lemma drawn_chart_rel_step add rel rel' s s' :
  chart_rel_step uuid4 add rel s = Ok rel' s' -> frame drawn s s'.
Proof.
  unfold chart_rel_step.
  destruct (ET.get "Target" rel) as [target|]; [|intros []%raise_Ok].
  destruct (ET.get "Type" rel) as [rel_type|]; [|intros []%raise_Ok].
  destruct (_ && _).
  - intros (h & s1 & Hd & (u & s2 & Hc & [_ <-]%ret_Ok)%bind_Ok)%bind_Ok.
    eapply frame_trans; [eapply frame_draw; exact Hd|].
    destruct (exists_ add _).
    + eapply frame_copy2; [|exact Hc]. reflexivity.
    + apply ret_Ok in Hc as [_ <-]. apply frame_refl.
  - intros [_ <-]%ret_Ok. apply frame_refl.
Qed.

Lemma drawn_process_chart add h crp u s s' :
  process_chart_relationships uuid4 add crp
    (in_dir ["ppt"; "charts"; "_rels"; ("chart" ++ h) ++ ".xml.rels"]) s = Ok u s' ->
  frame drawn s s'.
Proof.
  unfold process_chart_relationships. destruct (negb _).
  - intros [_ <-]%ret_Ok. apply frame_refl.
  - intros (root & s1 & [_ <-]%lift_Ok & (news & s2 & Hm & Hw)%bind_Ok)%bind_Ok.
    eapply frame_trans.
    + eapply frame_mapM; [|exact Hm]. intros; eapply drawn_chart_rel_step; eauto.
    + eapply frame_write; [|exact Hw]. reflexivity.
Qed.

(** The chart branch of [slide_rel_step] writes drawn keys only. *)
Lemma drawn_chart_branch add chart_path h u s s' :
  (if exists_ add (in_dir ["ppt"; chart_path]) then
     bind (copy2 add (in_dir ["ppt"; chart_path])
             (in_dir ["ppt"; "charts/" ++ ("chart" ++ h) ++ ".xml"]))
       (fun _ =>
          if exists_ add (in_dir ["ppt"; "charts"; "_rels";
                                  Path.basename chart_path ++ ".rels"])
          then process_chart_relationships uuid4 add
                 (in_dir ["ppt"; "charts"; "_rels"; Path.basename chart_path ++ ".rels"])
                 (in_dir ["ppt"; "charts"; "_rels"; ("chart" ++ h) ++ ".xml.rels"])
          else ret tt)
   else ret tt) s = Ok u s' ->
  frame drawn s s'.
Proof.
  destruct (exists_ add (in_dir ["ppt"; chart_path])).
  - intros (u1 & s3 & Hc1 & Hc2)%bind_Ok.
    eapply frame_trans.
    + eapply frame_copy2; [|exact Hc1]. rewrite chart_key. reflexivity.
    + destruct (exists_ add _).
      * eapply drawn_process_chart; exact Hc2.
      * apply ret_Ok in Hc2 as [_ <-]. apply frame_refl.
  - intros [_ <-]%ret_Ok. apply frame_refl.
Qed.

End OneRun.

Variables uuid4 uuid4' : nat -> Z.

Lemma two_slide_rel_step add sp am rel am1 rel1 am2 rel2 s1 s1' s2 s2' :
  slide_rel_step uuid4 add sp am rel s1 = Ok (am1, rel1) s1' ->
  slide_rel_step uuid4' add sp am rel s2 = Ok (am2, rel2) s2' ->
  same_paths (base s1) (base s2) ->
  am1 = am2 /\ same_paths (base s1') (base s2').
Proof.
  unfold slide_rel_step.
  destruct (ET.get "Target" rel) as [target|]; [|intros []%raise_Ok].
  destruct (ET.get "Type" rel) as [rel_type|]; [|intros []%raise_Ok].
  destruct (is_media_type rel_type).
  - destruct (negb _).
    2:{ intros [[= <- _] <-]%ret_Ok [[= <- _] <-]%ret_Ok H. auto. }
    destruct (am !! _) as [f|].
    { intros [[= <- _] <-]%ret_Ok [[= <- _] <-]%ret_Ok H. auto. }
    intros (u1 & t1 & Hc1 & [[= <- _] <-]%ret_Ok)%bind_Ok
           (u2 & t2 & Hc2 & [[= <- _] <-]%ret_Ok)%bind_Ok H.
    split; [reflexivity|].
    destruct (exists_ add _).
    + apply copy2_Ok in Hc1 as (c1 & _ & ->). apply copy2_Ok in Hc2 as (c2 & _ & ->).
      cbn [base]. apply same_paths_insert, H.
    + apply ret_Ok in Hc1 as [_ <-]. apply ret_Ok in Hc2 as [_ <-]. exact H.
  - destruct (Py.contains "chart" rel_type).
    2:{ intros [[= <- _] <-]%ret_Ok [[= <- _] <-]%ret_Ok H. auto. }
    intros (h1 & t1 & Hd1 & (u1 & t1' & Hc1 & [[= <- _] <-]%ret_Ok)%bind_Ok)%bind_Ok
           (h2 & t2 & Hd2 & (u2 & t2' & Hc2 & [[= <- _] <-]%ret_Ok)%bind_Ok)%bind_Ok H.
    split; [reflexivity|].
    apply drawn_chart_branch in Hc1, Hc2.
    eapply same_paths_frame.
    + eapply frame_trans; [eapply frame_draw; exact Hd1|exact Hc1].
    + eapply frame_trans; [eapply frame_draw; exact Hd2|exact Hc2].
    + exact H.
Qed.

Lemma two_slide_rels_loop add sp rels : forall am am1 news1 am2 news2 s1 s1' s2 s2',
  slide_rels_loop uuid4 add sp am rels s1 = Ok (am1, news1) s1' ->
  slide_rels_loop uuid4' add sp am rels s2 = Ok (am2, news2) s2' ->
  same_paths (base s1) (base s2) ->
  am1 = am2 /\ same_paths (base s1') (base s2').
Proof.
  induction rels as [|rel rest IH]; cbn [slide_rels_loop];
    intros am am1 news1 am2 news2 s1 s1' s2 s2'.
  - intros [[= <- _] <-]%ret_Ok [[= <- _] <-]%ret_Ok H. auto.
  - intros ([a1 r1] & t1 & Ha1 & ([b1 l1] & t1' & Hb1 & [[= <- _] <-]%ret_Ok)%bind_Ok)%bind_Ok
           ([a2 r2] & t2 & Ha2 & ([b2 l2] & t2' & Hb2 & [[= <- _] <-]%ret_Ok)%bind_Ok)%bind_Ok H.
    destruct (two_slide_rel_step _ _ _ _ _ _ _ _ _ _ _ _ Ha1 Ha2 H) as [<- H'].
    exact (IH _ _ _ _ _ _ _ _ _ Hb1 Hb2 H').
Qed.

Lemma two_process_slide_relationships add sp nsp am am1 am2 s1 s1' s2 s2' :
  process_slide_relationships uuid4 add sp nsp am s1 = Ok am1 s1' ->
  process_slide_relationships uuid4' add sp nsp am s2 = Ok am2 s2' ->
  same_paths (base s1) (base s2) ->
  am1 = am2 /\ same_paths (base s1') (base s2').
Proof.
  unfold process_slide_relationships. destruct (negb _).
  - intros [<- <-]%ret_Ok [<- <-]%ret_Ok H. auto.
  - intros (r1 & t1 & [Hp1 <-]%lift_Ok
            & ([a1 l1] & t1' & Hl1 & (u1 & t1'' & ->%write_Ok & [<- <-]%ret_Ok)%bind_Ok)%bind_Ok)%bind_Ok
           (r2 & t2 & [Hp2 <-]%lift_Ok
            & ([a2 l2] & t2' & Hl2 & (u2 & t2'' & ->%write_Ok & [<- <-]%ret_Ok)%bind_Ok)%bind_Ok)%bind_Ok H.
    assert (r2 = r1) as -> by congruence.
    destruct (two_slide_rels_loop _ _ _ _ _ _ _ _ _ _ _ _ Hl1 Hl2 H) as [<- H'].
    split; [reflexivity|]. cbn [base]. apply same_paths_insert, H'.
Qed.

Lemma two_slide_step add ns rns rels_ns add_rns v u v1 v2 s1 s1' s2 s2' :
  slide_step uuid4 add ns rns rels_ns add_rns v u s1 = Ok v1 s1' ->
  slide_step uuid4' add ns rns rels_ns add_rns v u s2 = Ok v2 s2' ->
  same_paths (base s1) (base s2) ->
  v1 = v2 /\ same_paths (base s1') (base s2').
Proof.
  unfold slide_step.
  intros (r1 & t1 & [Hp1 <-]%lift_Ok & H1)%bind_Ok (r2 & t2 & [Hp2 <-]%lift_Ok & H2)%bind_Ok H.
  assert (r2 = r1) as -> by congruence.
  destruct (List.find _ _) as [slide_rel|].
  2:{ apply ret_Ok in H1 as [<- <-]. apply ret_Ok in H2 as [<- <-]. auto. }
  destruct (ET.get "Target" slide_rel) as [slide_path|]; [|apply raise_Ok in H1 as []].
  destruct (negb _).
  { apply ret_Ok in H1 as [<- <-]. apply ret_Ok in H2 as [<- <-]. auto. }
  apply bind_Ok in H1 as (u1 & t1 & (c1 & _ & ->)%copy2_Ok
                          & (a1 & t1' & Hr1 & [<- <-]%ret_Ok)%bind_Ok).
  apply bind_Ok in H2 as (u2 & t2 & (c2 & _ & ->)%copy2_Ok
                          & (a2 & t2' & Hr2 & [<- <-]%ret_Ok)%bind_Ok).
  destruct (two_process_slide_relationships _ _ _ _ _ _ _ _ _ _ Hr1 Hr2) as [<- H'].
  { cbn [base]. apply same_paths_insert, H. }
  auto.
Qed.

Lemma two_slides_loop add ns rns rels_ns add_rns units : forall v v1 v2 s1 s1' s2 s2',
  slides_loop uuid4 add ns rns rels_ns add_rns v units s1 = Ok v1 s1' ->
  slides_loop uuid4' add ns rns rels_ns add_rns v units s2 = Ok v2 s2' ->
  same_paths (base s1) (base s2) ->
  v1 = v2 /\ same_paths (base s1') (base s2').
Proof.
  induction units as [|u rest IH]; cbn [slides_loop]; intros v v1 v2 s1 s1' s2 s2'.
  - intros [<- <-]%ret_Ok [<- <-]%ret_Ok H. auto.
  - intros (w1 & t1 & Ha1 & Hb1)%bind_Ok (w2 & t2 & Ha2 & Hb2)%bind_Ok H.
    destruct (two_slide_step _ _ _ _ _ _ _ _ _ _ _ _ _ Ha1 Ha2 H) as [<- H'].
    exact (IH _ _ _ _ _ _ _ Hb1 Hb2 H').
Qed.

End TwoRuns.

(* ===================================================================== *)
(** * The properties of the specification *)
(* ===================================================================== *)

Section Claims.
Import FS Sys CopyElementsMethod.

Lemma run_a_eq :
  merge_body Example.uuid_a Example.add_pkg "out.pptx" Example.start
  = Ok (Created Example.pkg_a) Example.end_a.
Proof. vm_compute. reflexivity. Defined.

Lemma run_b_eq :
  merge_body Example.uuid_b Example.add_pkg "out.pptx" Example.start
  = Ok (Created Example.pkg_b) Example.end_b.
Proof. vm_compute. reflexivity. Defined.

(** ** C10 *)

(** C10.  In a package [copy_elements_method.py] created, the slide list is
    the target's with one entry appended per merged unit.  When the
    target's list holds no slide, the appended ids are 256, 257, ... (the
    counter starts at 255); when it holds slides, every appended id is a
    number strictly greater than each id the list held. *)
Theorem C10_unit_id_watermark uuid4 add out s0 pkg s root lst ids :
  merge_body uuid4 add out s0 = Ok (Created pkg) s ->
  parse (base s0) pres_key = inr root ->
  ET.find_desc (ET.tag_is (ET.qname (get_namespace root "p") "sldIdLst")) root = Some lst ->
  slide_ids_of (get_namespace root "p") lst = inr ids ->
  exists root' lst' news,
    pkg !! pres_key = Some (Xml root')
    /\ ET.find_desc (ET.tag_is (ET.qname (get_namespace root "p") "sldIdLst")) root' = Some lst'
    /\ extends lst lst' news
    /\ (ids = [] ->
        map (ET.get "id") news
        = map (fun i : nat => Some (Py.str (255 + Z.of_nat i))) (seq 1 (length news)))
    /\ (forall new x, In new news -> In x ids ->
          exists k, ET.get "id" new = Some (Py.str k) /\ x < k).
Proof.
  intros Hrun Hroot Hfind Hids.
  destruct (merge_body_seeds _ _ _ _ _ _ _ _ Hrun Hroot Hfind)
    as (ids' & rels0 & rids & Hids' & _ & _ & Hseed & _).
  assert (ids' = ids) as -> by congruence.
  destruct (merge_body_ids _ _ _ _ _ _ _ _ Hrun Hroot Hfind)
    as (root' & lst' & rels0' & rels' & Hpres & Hfind' & _ & _ & Hext & _).
  rewrite Hseed in Hext.
  eexists root', lst', _. split; [exact Hpres|]. split; [exact Hfind'|].
  split; [exact Hext|]. split.
  - intros ->. rewrite length_map, length_seq. apply map_seq_ids.
    intros i. apply new_slide_elem_id.
  - intros new x (i & Hi & ->)%in_map_seq Hx.
    eexists. split; [apply new_slide_elem_id|].
    pose proof (proj1 (List.Forall_forall _ _) (max_or_ge 255 ids) x Hx) as Hmax.
    simpl in Hmax. lia.
Qed.

(** A target whose slide list is empty: the units receive 256 and 257. *)
Lemma C10_witness :
  exists root' lst' news,
    Example.pkg_e !! pres_key = Some (Xml root')
    /\ ET.find_desc (ET.tag_is (ET.qname Example.pns "sldIdLst")) root' = Some lst'
    /\ extends (Example.slide_list []) lst' news
    /\ (@nil Z = [] ->
        map (ET.get "id") news
        = map (fun i : nat => Some (Py.str (255 + Z.of_nat i))) (seq 1 (length news)))
    /\ (forall new x, In new news -> In x (@nil Z) ->
          exists k, ET.get "id" new = Some (Py.str k) /\ x < k).
Proof.
  apply (C10_unit_id_watermark Example.uuid_a Example.add_pkg "out.pptx" Example.empty_start
           Example.pkg_e Example.end_e (Example.presentation []) (Example.slide_list []) []);
    vm_compute; reflexivity.
Defined.

End Claims.

Section Claims2.
Import FS Sys CopyElementsMethod.

(** ** C2 *)

(** C2, as the code has it.  The two counters are seeded from the
    top-level documents of the target alone: the slide counter from the
    ids of the slide list of [ppt/presentation.xml] (255 when there is
    none), the relationship counter from the ids of
    [ppt/_rels/presentation.xml.rels] (0 when there is none).  The ids given
    to the merged units count upwards from the seeds, and none of them is
    the id of a slide of that list, or of a relationship of that document.
    No other relationship document is read. *)
Theorem C2_seeds_from_top_level uuid4 add out s0 pkg s root lst :
  merge_body uuid4 add out s0 = Ok (Created pkg) s ->
  parse (base s0) pres_key = inr root ->
  ET.find_desc (ET.tag_is (ET.qname (get_namespace root "p") "sldIdLst")) root = Some lst ->
  exists ids rels0 rids root' lst' rels' news_s news_r,
    slide_ids_of (get_namespace root "p") lst = inr ids
    /\ parse (base s0) rels_key = inr rels0
    /\ rel_ids_of rels0 = inr rids
    /\ pkg !! pres_key = Some (Xml root')
    /\ ET.find_desc (ET.tag_is (ET.qname (get_namespace root "p") "sldIdLst")) root' = Some lst'
    /\ pkg !! rels_key = Some (Xml rels')
    /\ extends lst lst' news_s
    /\ extends rels0 rels' news_r
    /\ map (ET.get "id") news_s
       = map (fun i : nat => Some (Py.str (Py.max_or 255 ids + Z.of_nat i)))
             (seq 1 (length news_s))
    /\ map (ET.get "Id") news_r
       = map (fun i : nat => Some ("rId" ++ Py.str (Py.max_or 0 rids + Z.of_nat i)))
             (seq 1 (length news_r))
    /\ (forall e x, In e (ET.findall_child (ET.tag_is (ET.qname (get_namespace root "p") "sldId")) lst) ->
                    In x news_s -> ET.get "id" x <> ET.get "id" e)
    /\ (forall e x, In e (ET.findall_desc (ET.has_attr "Id") rels0) ->
                    In x news_r -> ET.get "Id" x <> ET.get "Id" e).
Proof.
  intros Hrun Hroot Hfind.
  destruct (merge_body_seeds _ _ _ _ _ _ _ _ Hrun Hroot Hfind)
    as (ids & rels0 & rids & Hids & Hrels & Hrids & Hseed & Hrseed).
  destruct (merge_body_ids _ _ _ _ _ _ _ _ Hrun Hroot Hfind)
    as (root' & lst' & rels0' & rels' & Hpres & Hfind' & Hrels' & Hrk & Hext & Hrext).
  assert (rels0' = rels0) as -> by congruence.
  rewrite Hseed, Hrseed in Hext, Hrext.
  eexists ids, rels0, rids, root', lst', rels', _, _.
  repeat (split; [eassumption|]).
  split; [rewrite length_map, length_seq; apply map_seq_ids; intros i; apply new_slide_elem_id|].
  split; [rewrite length_map, length_seq; apply map_seq_ids; intros i; apply new_rel_elem_id|].
  split.
  - intros e x He (i & Hi & ->)%in_map_seq Heq. rewrite new_slide_elem_id in Heq.
    symmetry in Heq. revert Heq. apply (slide_id_fresh _ _ _ _ _ Hids He). lia.
  - intros e x He (i & Hi & ->)%in_map_seq Heq. rewrite new_rel_elem_id in Heq.
    symmetry in Heq. revert Heq. apply (rel_id_fresh _ _ _ _ Hrids He). lia.
Qed.

Lemma C2_witness :
  exists ids rels0 rids root' lst' rels' news_s news_r,
    slide_ids_of Example.pns (Example.slide_list [Example.sld "256" "rId2"]) = inr ids
    /\ parse Example.base_pkg rels_key = inr rels0
    /\ rel_ids_of rels0 = inr rids
    /\ Example.pkg_a !! pres_key = Some (Xml root')
    /\ ET.find_desc (ET.tag_is (ET.qname Example.pns "sldIdLst")) root' = Some lst'
    /\ Example.pkg_a !! rels_key = Some (Xml rels')
    /\ extends (Example.slide_list [Example.sld "256" "rId2"]) lst' news_s
    /\ extends rels0 rels' news_r
    /\ map (ET.get "id") news_s
       = map (fun i : nat => Some (Py.str (Py.max_or 255 ids + Z.of_nat i)))
             (seq 1 (length news_s))
    /\ map (ET.get "Id") news_r
       = map (fun i : nat => Some ("rId" ++ Py.str (Py.max_or 0 rids + Z.of_nat i)))
             (seq 1 (length news_r))
    /\ (forall e x, In e (ET.findall_child (ET.tag_is (ET.qname Example.pns "sldId"))
                            (Example.slide_list [Example.sld "256" "rId2"])) ->
                    In x news_s -> ET.get "id" x <> ET.get "id" e)
    /\ (forall e x, In e (ET.findall_desc (ET.has_attr "Id") rels0) ->
                    In x news_r -> ET.get "Id" x <> ET.get "Id" e).
Proof.
  apply (C2_seeds_from_top_level Example.uuid_a Example.add_pkg "out.pptx" Example.start
           Example.pkg_a Example.end_a Example.base_root
           (Example.slide_list [Example.sld "256" "rId2"]));
    vm_compute; reflexivity.
Defined.

(** C2, as the specification states it, fails: the relationship file of
    the target's own slide uses [rId3]; the counter, seeded from the
    top-level document, stands at 2, and the first merged unit receives
    [rId3]. *)
Lemma C2_counterexample :
  rel_seed Example.base_pkg = 2
  /\ used_rel_id Example.base_pkg "rId3"
  /\ exists rels' new,
       Example.pkg_a !! rels_key = Some (Xml rels')
       /\ In new (ET.children rels') /\ ~ In new (ET.children Example.base_rels)
       /\ ET.get "Id" new = Some "rId3".
Proof.
  split; [vm_compute; reflexivity|]. split.
  - exists "ppt/slides/_rels/slide257.xml.rels", Example.base_slide_rels,
      (Example.rel "rId3" Example.image_type "../media/image1.png").
    split; [vm_compute; reflexivity|]. split; [reflexivity|].
    split; [right; left; reflexivity|reflexivity].
  - eexists _, (Example.rel "rId3" Example.slide_type "slides/slide257.xml").
    split; [vm_compute; reflexivity|]. split; [right; right; left; reflexivity|].
    split; [|reflexivity].
    intros [H|[H|[]]]; discriminate H.
Qed.

End Claims2.

Section Claims3.
Import FS Sys CopyElementsMethod.

(** ** C5 *)

(** C5, as the code has it.  The part of the [j]-th merged unit is written
    at [ppt/slides/slide<id>.xml], where [id] is the slide id the unit
    receives; the created package holds the bytes of the source part there,
    and two merged units never share that place.  The place is not checked
    against the parts of the target. *)
Theorem C5_unit_part_written uuid4 add out s0 pkg s (j : nat) sp :
  merge_body uuid4 add out s0 = Ok (Created pkg) s ->
  merged_sources add !! j = Some sp ->
  (exists c, read add (in_dir ["ppt"; sp]) = inr c
             /\ pkg !! slide_key (unit_seed (base s0) + Z.of_nat (S j)) = Some c)
  /\ (forall j' : nat, j' <> j ->
        slide_key (unit_seed (base s0) + Z.of_nat (S j'))
        <> slide_key (unit_seed (base s0) + Z.of_nat (S j))).
Proof.
  intros Hrun Hj. apply merge_body_spec in Hrun
    as (root & slides0 & parent & rels0 & v & s1 & _ & _ & _ & Hpost & _ & _ & Hother & _).
  apply loop_post_proj in Hpost as (_ & _ & _ & _ & _ & _ & _ & Hunits).
  destruct (Hunits j sp Hj) as [(c & Hc & Hkey) _]. split.
  - exists c. split; [exact Hc|]. rewrite Hother; [exact Hkey|discriminate..].
  - intros j' Hne E. apply slide_key_inj in E. lia.
Qed.

Lemma C5_witness :
  (exists c, read Example.add_pkg (in_dir ["ppt"; "slides/slide1.xml"]) = inr c
             /\ Example.pkg_a !! slide_key (unit_seed Example.base_pkg + Z.of_nat 1) = Some c)
  /\ (forall j' : nat, j' <> 0%nat ->
        slide_key (unit_seed Example.base_pkg + Z.of_nat (S j'))
        <> slide_key (unit_seed Example.base_pkg + Z.of_nat 1)).
Proof.
  apply (C5_unit_part_written Example.uuid_a Example.add_pkg "out.pptx" Example.start
           Example.pkg_a Example.end_a 0 "slides/slide1.xml");
    vm_compute; reflexivity.
Defined.

(** C5, as the specification states it, fails: the target holds a part at
    [ppt/slides/slide257.xml]; the first merged unit receives the id 257
    and its bytes replace those of the target's part. *)
Lemma C5_counterexample :
  Example.base_pkg !! "ppt/slides/slide257.xml" = Some (Blob "target slide")
  /\ Example.pkg_a !! "ppt/slides/slide257.xml" = Some (Blob "source slide 1").
Proof. split; vm_compute; reflexivity. Qed.

(** ** C1 *)

(** C1, as the code has it.  For the [j]-th merged unit of a package the
    script created: the top-level relationship document holds a
    relationship to the unit's new part, that part is in the package, and
    so is the rewritten copy of the unit's relationship file, in which
    every media relationship with a local target and every chart
    relationship whose source part is in the source package names a part
    of the created package.  Relationships of other types are copied as
    they are. *)
Theorem C1_copied_relationships_closed uuid4 add out s0 pkg s (j : nat) sp :
  merge_body uuid4 add out s0 = Ok (Created pkg) s ->
  merged_sources add !! j = Some sp ->
  let k := unit_seed (base s0) + Z.of_nat (S j) in
  (exists rels' top, pkg !! rels_key = Some (Xml rels')
      /\ In top (ET.children rels') /\ ET.get "Target" top = Some (new_slide_path k))
  /\ is_Some (pkg !! ("ppt/" ++ new_slide_path k))
  /\ unit_closed add pkg sp k.
Proof.
  intros Hrun Hj k. apply merge_body_spec in Hrun
    as (root & slides0 & parent & rels0 & v & s1 & _ & _ & _ & Hpost & _ & Hrk & Hother
        & Hgrow & _).
  apply loop_post_proj in Hpost as (_ & _ & _ & (_ & _ & Hch) & _ & _ & _ & Hunits).
  destruct (Hunits j sp Hj) as [(c & Hc & Hkey) Hclosed]. fold k in Hkey, Hclosed.
  split; [|split].
  - exists (rels_root v), (new_rel_elem (get_namespace rels0 "p") k
                             (rel_seed (base s0) + Z.of_nat (S j))).
    split; [exact Hrk|]. split; [|apply new_rel_elem_target].
    rewrite Hch. apply in_or_app. right.
    apply in_map_iff. exists (S j). split; [reflexivity|].
    apply in_seq. apply lookup_lt_Some in Hj. lia.
  - change ("ppt/" ++ new_slide_path k) with (slide_key k). apply Hgrow. eauto.
  - intros rels_doc Hdoc. destruct (Hclosed rels_doc Hdoc) as (news & Hfile & Hall).
    exists news. split.
    + rewrite Hother; [exact Hfile|discriminate..].
    + eapply Forall2_impl; [exact Hall|]. intros rel rel'. apply closed_rel_mono, Hgrow.
Qed.

Lemma C1_witness :
  let k := unit_seed Example.base_pkg + Z.of_nat 2 in
  (exists rels' top, Example.pkg_a !! rels_key = Some (Xml rels')
      /\ In top (ET.children rels') /\ ET.get "Target" top = Some (new_slide_path k))
  /\ is_Some (Example.pkg_a !! ("ppt/" ++ new_slide_path k))
  /\ unit_closed Example.add_pkg Example.pkg_a "slides/slide2.xml" k.
Proof.
  apply (C1_copied_relationships_closed Example.uuid_a Example.add_pkg "out.pptx"
           Example.start Example.pkg_a Example.end_a 1 "slides/slide2.xml");
    vm_compute; reflexivity.
Defined.

(** C1, as the specification states it, fails: the second merged slide
    names a picture that the source package does not hold; its
    relationship is rewritten to [../media/image2.png] all the same, and
    the created package has no such part. *)
Lemma C1_counterexample : ~ graph_closed (ET.qname Example.rns "id") Example.pkg_a.
Proof.
  intros H.
  assert (Hpres : exists root, Example.pkg_a !! pres_key = Some (Xml root)
                               /\ In (Example.sld "258" "rId4") (ET.descendants root)).
  { eexists. split; [vm_compute; reflexivity|]. vm_compute. tauto. }
  assert (Hrels : exists doc, Example.pkg_a !! rels_key = Some (Xml doc)
             /\ In (Example.rel "rId4" Example.slide_type "slides/slide258.xml")
                   (ET.descendants doc)).
  { eexists. split; [vm_compute; reflexivity|]. vm_compute. tauto. }
  assert (Hslide : exists doc, Example.pkg_a !! slide_rel_path "slides/slide258.xml"
                               = Some (Xml doc)
             /\ In (Example.rel "rId3" Example.image_type "../media/image2.png")
                   (ET.descendants doc)).
  { eexists. split; [vm_compute; reflexivity|]. vm_compute. tauto. }
  destruct Hpres as (root & Hroot & Hunit), Hrels as (doc & Hdoc & Htop),
    Hslide as (sdoc & Hsdoc & Hrel).
  specialize (H root doc _ "rId4" _ "slides/slide258.xml" sdoc _ "../media/image2.png"
                Hroot Hdoc Hunit eq_refl Htop eq_refl eq_refl Hsdoc Hrel eq_refl).
  destruct H as [c Hc]; [discriminate|]. vm_compute in Hc. discriminate Hc.
Qed.

End Claims3.

Section Claims4.
Import FS Sys CopyElementsMethod.

(** ** C3 *)

(** C3, as the code has it.  A unit whose relationship id names no
    relationship of the source's top-level relationship document, or names
    one whose target is not in the source package, is passed over: the loop
    over the units ends as it would without that unit, with the same
    variables, the same tree and the same output, or the same exception.
    So no entry is added for the unit, the units after it are merged as
    before, and nothing is printed or recorded about it. *)
Theorem C3_dangling_unit_skipped uuid4 add ns rns rels_ns add_rns add_rels_root u
    units1 units2 v s :
  parse add (in_dir ["ppt"; "_rels"; "presentation.xml.rels"]) = inr add_rels_root ->
  (List.find (fun rel => bool_decide (ET.get "Id" rel = ET.get (ET.qname add_rns "id") u))
             (ET.findall_desc (ET.has_attr "Id") add_rels_root) = None
   \/ exists slide_rel slide_path,
        List.find (fun rel => bool_decide (ET.get "Id" rel = ET.get (ET.qname add_rns "id") u))
                  (ET.findall_desc (ET.has_attr "Id") add_rels_root) = Some slide_rel
        /\ ET.get "Target" slide_rel = Some slide_path
        /\ exists_ add (in_dir ["ppt"; slide_path]) = false) ->
  slides_loop uuid4 add ns rns rels_ns add_rns v (units1 ++ u :: units2) s
  = slides_loop uuid4 add ns rns rels_ns add_rns v (units1 ++ units2) s.
Proof.
  intros Hparse Hskip.
  assert (Hstep : forall v s, slide_step uuid4 add ns rns rels_ns add_rns v u s = Ok v s).
  { intros v' s'. destruct Hskip as [Hfind|(slide_rel & slide_path & Hfind & Ht & He)].
    - exact (slide_step_dangling uuid4 _ _ _ _ _ _ _ _ _ Hparse Hfind).
    - exact (slide_step_absent uuid4 _ _ _ _ _ _ _ _ _ _ _ Hparse Hfind Ht He). }
  revert v s.
  induction units1 as [|x units1 IH]; intros v s; cbn [app slides_loop].
  - unfold bind at 1. rewrite Hstep. reflexivity.
  - unfold bind. destruct (slide_step uuid4 add ns rns rels_ns add_rns v x s) as [v1 s1|e];
      [apply IH|reflexivity].
Qed.

Lemma C3_witness :
  slides_loop Example.uuid_a Example.add_pkg Example.pns Example.rns Example.relns
    Example.rns
    (Vars (Example.slide_list [Example.sld "256" "rId2"]) Example.base_rels 256 2 ∅)
    ([Example.sld "256" "rId2"] ++ Example.sld "257" "rId9" :: [Example.sld "258" "rId3"])
    Example.start
  = slides_loop Example.uuid_a Example.add_pkg Example.pns Example.rns Example.relns
      Example.rns
      (Vars (Example.slide_list [Example.sld "256" "rId2"]) Example.base_rels 256 2 ∅)
      ([Example.sld "256" "rId2"] ++ [Example.sld "258" "rId3"])
      Example.start.
Proof.
  apply (C3_dangling_unit_skipped Example.uuid_a Example.add_pkg Example.pns Example.rns
           Example.relns Example.rns Example.add_rels (Example.sld "257" "rId9")).
  - vm_compute. reflexivity.
  - left. vm_compute. reflexivity.
Defined.

(** C3, as the specification states it, fails: the second unit of the
    source names [rId9], which the source does not have; the merge
    completes, and all the script has recorded when it returns is the line
    that reports success. *)
Lemma C3_counterexample :
  unit_source Example.add_pkg Example.rns (Example.sld "257" "rId9") = None
  /\ In (Example.sld "257" "rId9") (source_units Example.add_pkg)
  /\ snd (merge_presentations Example.uuid_a Example.disk "base.pptx" "add.pptx" "out.pptx")
     = [SuccessfullyMerged "out.pptx"]
  /\ archives (fst (merge_presentations Example.uuid_a Example.disk
                      "base.pptx" "add.pptx" "out.pptx")) !! "out.pptx"
     = Some Example.pkg_a.
Proof.
  split; [vm_compute; reflexivity|]. split; [vm_compute; tauto|].
  split; vm_compute; reflexivity.
Qed.

(** ** C4 *)

(** C4, as the code has it.  Media files are copied once per merge: the
    first relationship that names a media file enters it in the dictionary
    with its destination and is rewritten to that destination; whatever
    the dictionary has become when a later media relationship, of any
    slide, names the same file, that relationship is rewritten to the same
    destination and the step changes neither the dictionary nor the tree.
    Charts are not entered in the dictionary. *)
Theorem C4_media_copied_once uuid4 add sp1 sp2 am rel1 rel2 am1 rel1' s s1 am2 s2
    target1 ty1 target2 ty2 :
  ET.get "Target" rel1 = Some target1 -> ET.get "Type" rel1 = Some ty1 ->
  is_media_type ty1 = true -> Py.startswith "http" target1 = false ->
  ET.get "Target" rel2 = Some target2 -> ET.get "Type" rel2 = Some ty2 ->
  is_media_type ty2 = true -> Py.startswith "http" target2 = false ->
  resolve sp1 target1 = resolve sp2 target2 ->
  slide_rel_step uuid4 add sp1 am rel1 s = Ok (am1, rel1') s1 ->
  am1 ⊆ am2 ->
  exists f,
    am1 !! resolve sp1 target1 = Some f
    /\ ET.get "Target" rel1' = Some ("../" ++ f)
    /\ slide_rel_step uuid4 add sp2 am2 rel2 s2
       = Ok (am2, ET.set "Target" ("../" ++ f) rel2) s2.
Proof.
  intros Ht1 Hy1 Hm1 Hh1 Ht2 Hy2 Hm2 Hh2 Hsame Hstep Hsub.
  assert (H1 : exists f, am1 !! resolve sp1 target1 = Some f
                         /\ ET.get "Target" rel1' = Some ("../" ++ f)).
  { revert Hstep. unfold slide_rel_step. rewrite Ht1, Hy1, Hm1, Hh1. cbn [negb].
    fold (resolve sp1 target1).
    destruct (am !! resolve sp1 target1) as [f|] eqn:Ef.
    - intros [[= <- <-] _]%ret_Ok. exists f. split; [exact Ef|apply get_set_eq].
    - intros (u & s' & _ & [[= <- <-] _]%ret_Ok)%bind_Ok.
      eexists. split; [apply lookup_insert_eq|apply get_set_eq]. }
  destruct H1 as (f & Hf & Hrel). exists f. split; [exact Hf|]. split; [exact Hrel|].
  unfold slide_rel_step. rewrite Ht2, Hy2, Hm2, Hh2. cbn [negb].
  fold (resolve sp2 target2). rewrite <- Hsame.
  rewrite (lookup_weaken _ _ _ _ Hf Hsub). reflexivity.
Qed.

(** The dictionary only grows while the merge goes on. *)
Lemma added_media_grows uuid4 add ns rns rels_ns add_rns units v v' s s' :
  slides_loop uuid4 add ns rns rels_ns add_rns v units s = Ok v' s' ->
  media_inv add (added_media v) (base s) ->
  added_media v ⊆ added_media v'.
Proof.
  intros Hloop Hinv.
  pose proof (slides_loop_post uuid4 add _ _ _ _ _ _ _ _ _ Hinv Hloop) as Hpost.
  destruct Hpost as (_ & _ & _ & _ & _ & Hsub & _). exact Hsub.
Qed.

Lemma C4_witness :
  exists f,
    ({["media/image1.png" := "media/image1.png"]} : gmap string string)
      !! resolve "slides/slide1.xml" "../media/image1.png" = Some f
    /\ ET.get "Target" (Example.rel "rId1" Example.image_type "../media/image1.png")
       = Some ("../" ++ f)
    /\ slide_rel_step Example.uuid_a Example.add_pkg "slides/slide2.xml"
         {["media/image1.png" := "media/image1.png"]}
         (Example.rel "rId1" Example.image_type "../media/image1.png") Example.end_a
       = Ok ({["media/image1.png" := "media/image1.png"]},
             ET.set "Target" ("../" ++ f)
               (Example.rel "rId1" Example.image_type "../media/image1.png"))
            Example.end_a.
Proof.
  apply (C4_media_copied_once Example.uuid_a Example.add_pkg
           "slides/slide1.xml" "slides/slide2.xml" ∅
           (Example.rel "rId1" Example.image_type "../media/image1.png")
           (Example.rel "rId1" Example.image_type "../media/image1.png")
           {["media/image1.png" := "media/image1.png"]}
           (Example.rel "rId1" Example.image_type "../media/image1.png")
           Example.start
           (State (<["ppt/media/image1.png" := Blob "source picture"]> Example.base_pkg) [] 0)
           {["media/image1.png" := "media/image1.png"]} Example.end_a
           "../media/image1.png" Example.image_type
           "../media/image1.png" Example.image_type);
    try (vm_compute; reflexivity).
  reflexivity.
Defined.

(** C4, as the specification states it, fails for charts: both source
    slides name the chart [charts/chart1.xml]; the created package holds
    its bytes twice, under two names, and the two rewritten relationships
    name different parts. *)
Lemma C4_counterexample :
  Example.pkg_a !! "ppt/charts/chart00000064.xml" = Some (Blob "source chart")
  /\ Example.pkg_a !! "ppt/charts/chart00000065.xml" = Some (Blob "source chart")
  /\ resolve "slides/slide1.xml" "../charts/chart1.xml"
     = resolve "slides/slide2.xml" "../charts/chart1.xml"
  /\ (exists doc1 doc2,
        Example.pkg_a !! slide_rels_key 257 = Some (Xml doc1)
        /\ Example.pkg_a !! slide_rels_key 258 = Some (Xml doc2)
        /\ In (Example.rel "rId2" Example.chart_type "../charts/chart00000064.xml")
              (ET.descendants doc1)
        /\ In (Example.rel "rId2" Example.chart_type "../charts/chart00000065.xml")
              (ET.descendants doc2)).
Proof.
  split; [vm_compute; reflexivity|]. split; [vm_compute; reflexivity|].
  split; [vm_compute; reflexivity|].
  eexists _, _. split; [vm_compute; reflexivity|]. split; [vm_compute; reflexivity|].
  split; vm_compute; tauto.
Qed.

End Claims4.

Section RegistryAndIds.
Import FS Sys.

(** What [mk2.py] appends to the content-type document of the target: the
    elements of the source's document that carry a part name the target's
    document has on none of its elements. *)
Lemma mk2_merge_content_types_keeps ct_root1 ct_root2 :
  exists extra,
    extends ct_root1 (Mk2.merge_content_types ct_root1 ct_root2) extra
    /\ Forall (fun e =>
                 In e (ET.findall_desc (ET.has_attr "PartName") ct_root2)
                 /\ forall o, In o (ET.findall_desc (ET.has_attr "PartName") ct_root1) ->
                              ET.get "PartName" o <> ET.get "PartName" e) extra.
Proof.
  unfold Mk2.merge_content_types.
  set (existing := map (ET.get "PartName") (ET.findall_desc (ET.has_attr "PartName") ct_root1)).
  pose proof (fold_append_extends
                (fun root override =>
                   if bool_decide (ET.get "PartName" override ∈ existing) then root
                   else ET.append override root)
                (fun override => bool_decide (ET.get "PartName" override ∈ existing))
                (fun override => override) (fun r x => eq_refl)
                (ET.findall_desc (ET.has_attr "PartName") ct_root2) ct_root1) as H.
  eexists. split; [exact H|].
  rewrite map_id. apply List.Forall_forall. intros e [He Hk]%filter_In.
  split; [exact He|]. intros o Ho E.
  apply negb_true_iff, bool_decide_eq_false in Hk. apply Hk.
  apply list_elem_of_In, in_map_iff. exists o. auto.
Qed.

(** ** C6 *)

(** C6, as the code has it.  The merged content-type document is the
    target's with elements appended: its tag, its attributes and every
    declaration of the target stay as they were, in their order.
    [copy_elements_method.py] appends only a [Default] for an extension,
    or an [Override] for a part name, that the target's document does not
    declare, and prints nothing while it does so; [mk2.py] appends only
    elements of the source's document whose part name no element of the
    target's document carries. *)
Theorem C6_target_declarations_kept :
  (forall u s s' root,
      CopyElementsMethod.update_content_types s = CopyElementsMethod.Ok u s' ->
      parse (CopyElementsMethod.base s) ct_key = inr root ->
      exists root' extra,
        CopyElementsMethod.base s' !! ct_key = Some (Xml root')
        /\ extends root root' extra
        /\ CopyElementsMethod.stdout s' = CopyElementsMethod.stdout s
        /\ Forall (new_declaration root) extra)
  /\ (forall ct_root1 ct_root2,
        exists extra,
          extends ct_root1 (Mk2.merge_content_types ct_root1 ct_root2) extra
          /\ Forall (fun e =>
                       In e (ET.findall_desc (ET.has_attr "PartName") ct_root2)
                       /\ forall o,
                            In o (ET.findall_desc (ET.has_attr "PartName") ct_root1) ->
                            ET.get "PartName" o <> ET.get "PartName" e) extra).
Proof.
  split.
  - intros u s s' root. apply update_content_types_keeps.
  - apply mk2_merge_content_types_keeps.
Qed.

(** The content-type step of [copy_elements_method.py] on the target
    package of the example. *)
Lemma C6_witness :
  exists root' extra,
    CopyElementsMethod.base Example.end_types !! ct_key = Some (Xml root')
    /\ extends Example.base_types root' extra
    /\ CopyElementsMethod.stdout Example.end_types
       = CopyElementsMethod.stdout Example.start
    /\ Forall (new_declaration Example.base_types) extra.
Proof.
  apply (proj1 C6_target_declarations_kept tt Example.start Example.end_types
           Example.base_types); vm_compute; reflexivity.
Defined.

(** C6, as the specification states it, fails: the two registries of the
    example disagree on [png] and on the slide [/ppt/slides/slide257.xml];
    the merge keeps the target's declarations and prints its one line of
    success: nothing records the conflict. *)
Lemma C6_counterexample :
  In (Example.default_type "png" "image/png") (ET.children Example.base_types)
  /\ In (Example.default_type "png" "image/x-png") (ET.children Example.add_types)
  /\ (exists root',
        archives (fst (CopyElementsMethod.merge_presentations Example.uuid_a Example.disk
                         "base.pptx" "add.pptx" "out.pptx")) !! "out.pptx"
        = Some Example.pkg_a
        /\ Example.pkg_a !! ct_key = Some (Xml root')
        /\ In (Example.default_type "png" "image/png") (ET.children root')
        /\ ~ In (Example.default_type "png" "image/x-png") (ET.children root'))
  /\ snd (CopyElementsMethod.merge_presentations Example.uuid_a Example.disk
            "base.pptx" "add.pptx" "out.pptx")
     = [CopyElementsMethod.SuccessfullyMerged "out.pptx"].
Proof.
  split; [left; reflexivity|]. split; [left; reflexivity|]. split.
  - eexists. split; [vm_compute; reflexivity|]. split; [vm_compute; reflexivity|].
    split; [left; reflexivity|].
    cbn. intros H. repeat destruct H as [H|H]; try discriminate H. exact H.
  - vm_compute. reflexivity.
Qed.

End RegistryAndIds.

Section Allocation.
Import FS Sys.

Lemma ids_from_seq m n : ids_from m (seq 1 n) = upfrom m n.
Proof. reflexivity. Qed.

Lemma map_ids_from {A} (f : Z -> A) m ks :
  map f (ids_from m ks) = map (fun i : nat => f (m + Z.of_nat i)) ks.
Proof. unfold ids_from. apply map_map. Qed.

(** ** C7 *)

(** C7.  The ids a merge hands out, per counter, are strictly increasing
    and pairwise distinct.  In a package [copy_elements_method.py] created,
    the entries appended to the slide list and to the relationship
    document carry, in order, the numbers that follow the two watermarks.
    In the loop of [mk2.py] every unit, copied or passed over, takes the
    next number of each counter: the counters end [length units] higher,
    and the entries appended carry the numbers of the copied units only, so
    the number a skipped unit took is given to no other unit. *)
Theorem C7_allocated_ids_increase :
  (forall uuid4 add out s0 pkg s root lst,
      CopyElementsMethod.merge_body uuid4 add out s0
      = CopyElementsMethod.Ok (CopyElementsMethod.Created pkg) s ->
      parse (CopyElementsMethod.base s0) pres_key = inr root ->
      ET.find_desc
        (ET.tag_is (ET.qname (CopyElementsMethod.get_namespace root "p") "sldIdLst")) root
      = Some lst ->
      exists root' lst' rels0 rels' news_s news_r (ks : list nat),
        pkg !! pres_key = Some (Xml root')
        /\ ET.find_desc
             (ET.tag_is (ET.qname (CopyElementsMethod.get_namespace root "p") "sldIdLst"))
             root' = Some lst'
        /\ parse (CopyElementsMethod.base s0) rels_key = inr rels0
        /\ pkg !! rels_key = Some (Xml rels')
        /\ extends lst lst' news_s /\ extends rels0 rels' news_r
        /\ map (ET.get "id") news_s
           = map (fun k => Some (Py.str k))
               (ids_from (unit_seed (CopyElementsMethod.base s0)) ks)
        /\ map (ET.get "Id") news_r
           = map (fun k => Some ("rId" ++ Py.str k))
               (ids_from (rel_seed (CopyElementsMethod.base s0)) ks)
        /\ StronglySorted Z.lt (ids_from (unit_seed (CopyElementsMethod.base s0)) ks)
        /\ StronglySorted Z.lt (ids_from (rel_seed (CopyElementsMethod.base s0)) ks)
        /\ List.NoDup (map (ET.get "id") news_s)
        /\ List.NoDup (map (ET.get "Id") news_r))
  /\ (forall second ns units v v' s s',
        Mk2.slides_loop second ns v units s = Mk2.Ok v' s' ->
        Mk2.max_id v' = Mk2.max_id v + Z.of_nat (length units)
        /\ Mk2.max_rel_id v' = Mk2.max_rel_id v + Z.of_nat (length units)
        /\ exists news_s news_r (ks : list nat),
             Forall (fun i => (1 <= i <= length units)%nat) ks
             /\ extends (Mk2.slide_id_list1 v) (Mk2.slide_id_list1 v') news_s
             /\ extends (Mk2.rels_root v) (Mk2.rels_root v') news_r
             /\ map (ET.get "id") news_s
                = map (fun k => Some (Py.str k)) (ids_from (Mk2.max_id v) ks)
             /\ map (ET.get "Id") news_r
                = map (fun k => Some ("rId" ++ Py.str k)) (ids_from (Mk2.max_rel_id v) ks)
             /\ StronglySorted Z.lt (ids_from (Mk2.max_id v) ks)
             /\ StronglySorted Z.lt (ids_from (Mk2.max_rel_id v) ks)
             /\ List.NoDup (map (ET.get "id") news_s)
             /\ List.NoDup (map (ET.get "Id") news_r)).
Proof.
  split.
  - intros uuid4 add out s0 pkg s root lst Hrun Hroot Hfind.
    destruct (merge_body_ids _ _ _ _ _ _ _ _ Hrun Hroot Hfind)
      as (root' & lst' & rels0 & rels' & Hpres & Hfind' & Hrels0 & Hrels' & Hes & Her).
    set (ks := seq 1 (length (merged_sources add))) in *.
    assert (Hs : map (ET.get "id")
                   (map (fun i : nat =>
                           new_slide_elem (CopyElementsMethod.get_namespace root "p")
                             (CopyElementsMethod.get_namespace root "r")
                             (unit_seed (CopyElementsMethod.base s0) + Z.of_nat i)
                             (rel_seed (CopyElementsMethod.base s0) + Z.of_nat i)) ks)
                 = map (fun k => Some (Py.str k))
                     (ids_from (unit_seed (CopyElementsMethod.base s0)) ks)).
    { rewrite map_ids_from, map_map. apply map_ext. intros i. apply new_slide_elem_id. }
    assert (Hr : map (ET.get "Id")
                   (map (fun i : nat =>
                           new_rel_elem (CopyElementsMethod.get_namespace rels0 "p")
                             (unit_seed (CopyElementsMethod.base s0) + Z.of_nat i)
                             (rel_seed (CopyElementsMethod.base s0) + Z.of_nat i)) ks)
                 = map (fun k => Some ("rId" ++ Py.str k))
                     (ids_from (rel_seed (CopyElementsMethod.base s0)) ks)).
    { rewrite map_ids_from, map_map. apply map_ext. intros i. apply new_rel_elem_id. }
    pose proof (sorted_ids_from (unit_seed (CopyElementsMethod.base s0)) ks
                  (sorted_seq _ _)) as Hss.
    pose proof (sorted_ids_from (rel_seed (CopyElementsMethod.base s0)) ks
                  (sorted_seq _ _)) as Hsr.
    eexists root', lst', rels0, rels', _, _, ks.
    split; [exact Hpres|]. split; [exact Hfind'|]. split; [exact Hrels0|].
    split; [exact Hrels'|]. split; [exact Hes|]. split; [exact Her|].
    split; [exact Hs|]. split; [exact Hr|]. split; [exact Hss|]. split; [exact Hsr|].
    split.
    + rewrite Hs. apply (sorted_nodup Py.str); [apply str_inj|exact Hss].
    + rewrite Hr. apply (sorted_nodup (fun k => "rId" ++ Py.str k)); [apply rid_inj|exact Hsr].
  - intros second ns units v v' s s' Hloop.
    destruct (mk2_slides_loop_post _ _ _ _ _ _ _ Hloop)
      as (Hm & Hr & ks & news_r & Hsorted & Hb & Hes & Her & Hids).
    split; [exact Hm|]. split; [exact Hr|].
    assert (Hs : map (ET.get "id")
                   (map (fun i : nat => mk2_slide_elem ns (Mk2.max_id v + Z.of_nat i)
                                          (Mk2.max_rel_id v + Z.of_nat i)) ks)
                 = map (fun k => Some (Py.str k)) (ids_from (Mk2.max_id v) ks)).
    { rewrite map_ids_from, map_map. apply map_ext. intros i. apply mk2_slide_elem_id. }
    assert (Hr' : map (ET.get "Id") news_r
                  = map (fun k => Some ("rId" ++ Py.str k)) (ids_from (Mk2.max_rel_id v) ks)).
    { rewrite map_ids_from. exact Hids. }
    pose proof (sorted_ids_from (Mk2.max_id v) ks Hsorted) as Hss.
    pose proof (sorted_ids_from (Mk2.max_rel_id v) ks Hsorted) as Hsr.
    eexists _, news_r, ks.
    split; [exact Hb|]. split; [exact Hes|]. split; [exact Her|].
    split; [exact Hs|]. split; [exact Hr'|]. split; [exact Hss|]. split; [exact Hsr|].
    split.
    + rewrite Hs. apply (sorted_nodup Py.str); [apply str_inj|exact Hss].
    + rewrite Hr'. apply (sorted_nodup (fun k => "rId" ++ Py.str k)); [apply rid_inj|exact Hsr].
Qed.

(** The merge of the example: the two copied units receive 257 and 258, and
    the relationship ids [rId3] and [rId4].  The loop of [mk2.py] over two
    units of which the first is passed over: the counters end two higher,
    at 258 and 4. *)
Lemma C7_witness :
  (exists root' lst' rels0 rels' news_s news_r (ks : list nat),
      Example.pkg_a !! pres_key = Some (Xml root')
      /\ ET.find_desc (ET.tag_is (ET.qname Example.pns "sldIdLst")) root' = Some lst'
      /\ parse Example.base_pkg rels_key = inr rels0
      /\ Example.pkg_a !! rels_key = Some (Xml rels')
      /\ extends (Example.slide_list [Example.sld "256" "rId2"]) lst' news_s
      /\ extends rels0 rels' news_r
      /\ map (ET.get "id") news_s = map (fun k => Some (Py.str k)) (ids_from 256 ks)
      /\ map (ET.get "Id") news_r = map (fun k => Some ("rId" ++ Py.str k)) (ids_from 2 ks)
      /\ StronglySorted Z.lt (ids_from 256 ks)
      /\ StronglySorted Z.lt (ids_from 2 ks)
      /\ List.NoDup (map (ET.get "id") news_s)
      /\ List.NoDup (map (ET.get "Id") news_r))
  /\ (Mk2.max_id Example.mk2_end_vars = 256 + Z.of_nat (length Example.mk2_units)
      /\ Mk2.max_rel_id Example.mk2_end_vars = 2 + Z.of_nat (length Example.mk2_units)
      /\ exists news_s news_r (ks : list nat),
           Forall (fun i => (1 <= i <= length Example.mk2_units)%nat) ks
           /\ extends (Example.slide_list [Example.mk2_sld "256" "rId2"])
                (Mk2.slide_id_list1 Example.mk2_end_vars) news_s
           /\ extends Example.base_rels (Mk2.rels_root Example.mk2_end_vars) news_r
           /\ map (ET.get "id") news_s = map (fun k => Some (Py.str k)) (ids_from 256 ks)
           /\ map (ET.get "Id") news_r
              = map (fun k => Some ("rId" ++ Py.str k)) (ids_from 2 ks)
           /\ StronglySorted Z.lt (ids_from 256 ks)
           /\ StronglySorted Z.lt (ids_from 2 ks)
           /\ List.NoDup (map (ET.get "id") news_s)
           /\ List.NoDup (map (ET.get "Id") news_r)).
Proof.
  split.
  - apply (proj1 C7_allocated_ids_increase Example.uuid_a Example.add_pkg "out.pptx"
             Example.start Example.pkg_a Example.end_a Example.base_root
             (Example.slide_list [Example.sld "256" "rId2"]));
      vm_compute; reflexivity.
  - apply (proj2 C7_allocated_ids_increase Example.add_pkg Example.pns Example.mk2_units
             Example.mk2_vars Example.mk2_end_vars Example.base_pkg Example.mk2_end_base).
    vm_compute. reflexivity.
Defined.

End Allocation.

Section StagingAndRuns.
Import FS Sys.

(** [copy_elements_method.py] removes its working folder in a [finally]
    block: no run leaves it. *)
Lemma cem_removes_temp_dir uuid4 w base_ppt_path add_ppt_path output_path :
  folders (fst (CopyElementsMethod.merge_presentations uuid4 w base_ppt_path add_ppt_path
                  output_path)) !! CopyElementsMethod.temp_dir = None.
Proof.
  unfold CopyElementsMethod.merge_presentations. cbv zeta.
  destruct (match extract w base_ppt_path _ with inl e => _ | inr base0 => _ end)
    as [[|package] s|e]; apply lookup_delete_eq.
Qed.

(** [mk2.py] removes its working folder when it returns. *)
Lemma mk2_removes_temp_dir_on_return temp_dir w pptx1_path pptx2_path output_path p :
  snd (Mk2.merge_pptx_files temp_dir w pptx1_path pptx2_path output_path) = inr p ->
  folders (fst (Mk2.merge_pptx_files temp_dir w pptx1_path pptx2_path output_path))
    !! temp_dir = None.
Proof.
  unfold Mk2.merge_pptx_files. cbv zeta.
  destruct (extract w pptx1_path ∅) as [e|base0]; [discriminate|].
  destruct (extract w pptx2_path ∅) as [e|second]; [discriminate|].
  destruct (Mk2.merge_body second base0) as [u b|e b]; [|discriminate].
  intros _. apply lookup_delete_eq.
Qed.

(** An exception that escapes [mk2.py] leaves the working folder behind. *)
Lemma mk2_keeps_temp_dir_on_exception temp_dir w pptx1_path pptx2_path output_path e :
  snd (Mk2.merge_pptx_files temp_dir w pptx1_path pptx2_path output_path) = inl e ->
  is_Some (folders (fst (Mk2.merge_pptx_files temp_dir w pptx1_path pptx2_path output_path))
             !! temp_dir).
Proof.
  unfold Mk2.merge_pptx_files. cbv zeta.
  destruct (extract w pptx1_path ∅) as [e1|base0].
  { intros _. cbn [fst folders]. rewrite lookup_insert_eq. eauto. }
  destruct (extract w pptx2_path ∅) as [e2|second].
  { intros _. cbn [fst folders]. rewrite lookup_insert_eq. eauto. }
  destruct (Mk2.merge_body second base0) as [u b|e3 b]; [discriminate|].
  intros _. cbn [fst folders]. rewrite lookup_insert_eq. eauto.
Qed.

(** ** C8 *)

(** C8 fails for [mk2.py].  On a machine that holds [base.pptx] and no
    [missing.pptx], with no folder [tmp] before the call,
    [merge_pptx_files("base.pptx", "missing.pptx", "out")] ends with a
    [FileNotFoundError], and the folder [tmp] that [mkdtemp()] created is
    still there, with the extracted first package below [base]. *)
Theorem C8_mk2_leaves_working_folder :
  folders Example.disk !! "tmp" = None
  /\ snd (Mk2.merge_pptx_files "tmp" Example.disk "base.pptx" "missing.pptx" "out")
     = inl FileNotFoundError
  /\ folders (fst (Mk2.merge_pptx_files "tmp" Example.disk "base.pptx" "missing.pptx" "out"))
       !! "tmp"
     = Some (list_to_map [("base", Example.base_pkg); ("second", ∅)]).
Proof. split; [|split]; vm_compute; reflexivity. Qed.

(** ** C9 *)

(** C9, as the code has it.  Two runs of [copy_elements_method.py] on the
    same packages, whatever values [uuid.uuid4()] takes in each, that both
    create the output: the two packages hold the same paths outside
    [ppt/charts/] and [embeddings/], and the two runs print the same
    lines. *)
Theorem C9_same_paths_outside_drawn uuid4 uuid4' add out s0 pkg pkg' s s' :
  CopyElementsMethod.merge_body uuid4 add out s0
  = CopyElementsMethod.Ok (CopyElementsMethod.Created pkg) s ->
  CopyElementsMethod.merge_body uuid4' add out s0
  = CopyElementsMethod.Ok (CopyElementsMethod.Created pkg') s' ->
  same_paths pkg pkg' /\ CopyElementsMethod.stdout s = CopyElementsMethod.stdout s'.
Proof.
  intros H1 H2.
  apply merge_body_inv in H1
    as (root & slides0 & parent & ids & rels0 & rids & add_root & add_slides & v1 & t1
        & Hroot & Hloc & Hids & Hrels & Hrids & Hadd & Hfind & Hloop1 & _ & Hout1
        & Hpres1 & Hrk1 & Hother1 & Hgrow1 & Hct1).
  apply merge_body_inv in H2
    as (root' & slides0' & parent' & ids' & rels0' & rids' & add_root' & add_slides' & v2 & t2
        & Hroot' & Hloc' & Hids' & Hrels' & Hrids' & Hadd' & Hfind' & Hloop2 & _ & Hout2
        & Hpres2 & Hrk2 & Hother2 & Hgrow2 & Hct2).
  assert (root' = root) as -> by congruence.
  assert (slides0' = slides0) as -> by congruence.
  assert (ids' = ids) as -> by congruence.
  assert (rels0' = rels0) as -> by congruence.
  assert (rids' = rids) as -> by congruence.
  assert (add_root' = add_root) as -> by congruence.
  assert (add_slides' = add_slides) as -> by congruence.
  destruct (two_slides_loop _ _ _ _ _ _ _ _ _ _ _ _ _ _ _ Hloop1 Hloop2
              (same_paths_refl _)) as [_ Hsame].
  split; [|congruence].
  intros key Hk.
  destruct (decide (key = pres_key)) as [->|Hn1]; [rewrite Hpres1, Hpres2; split; eauto|].
  destruct (decide (key = rels_key)) as [->|Hn2]; [rewrite Hrk1, Hrk2; split; eauto|].
  destruct (decide (key = ct_key)) as [->|Hn3].
  - split; intros Hin.
    + apply Hgrow2, (Hsame _ Hk), Hct1, Hin.
    + apply Hgrow1, (Hsame _ Hk), Hct2, Hin.
  - rewrite (Hother1 _ Hn1 Hn2 Hn3), (Hother2 _ Hn1 Hn2 Hn3). apply Hsame, Hk.
Qed.

(** The two runs of the example. *)
Lemma C9_witness :
  same_paths Example.pkg_a Example.pkg_b
  /\ CopyElementsMethod.stdout Example.end_a = CopyElementsMethod.stdout Example.end_b.
Proof.
  exact (C9_same_paths_outside_drawn Example.uuid_a Example.uuid_b Example.add_pkg
           "out.pptx" Example.start Example.pkg_a Example.pkg_b Example.end_a Example.end_b
           run_a_eq run_b_eq).
Defined.

(** C9, as the specification states it, fails: the two runs of the example
    differ in the values [uuid.uuid4()] takes only, and the copy of the
    chart is at [ppt/charts/chart00000064.xml] in the first package and at
    no such path in the second. *)
Lemma C9_counterexample :
  CopyElementsMethod.merge_body Example.uuid_a Example.add_pkg "out.pptx" Example.start
  = CopyElementsMethod.Ok (CopyElementsMethod.Created Example.pkg_a) Example.end_a
  /\ CopyElementsMethod.merge_body Example.uuid_b Example.add_pkg "out.pptx" Example.start
     = CopyElementsMethod.Ok (CopyElementsMethod.Created Example.pkg_b) Example.end_b
  /\ is_Some (Example.pkg_a !! "ppt/charts/chart00000064.xml")
  /\ Example.pkg_b !! "ppt/charts/chart00000064.xml" = None
  /\ dom Example.pkg_a <> dom Example.pkg_b.
Proof.
  split; [exact run_a_eq|]. split; [exact run_b_eq|].
  assert (Ha : is_Some (Example.pkg_a !! "ppt/charts/chart00000064.xml"))
    by (vm_compute; eauto).
  assert (Hb : Example.pkg_b !! "ppt/charts/chart00000064.xml" = None)
    by (vm_compute; reflexivity).
  split; [exact Ha|]. split; [exact Hb|].
  intros E. apply elem_of_dom in Ha. rewrite E in Ha.
  apply elem_of_dom in Ha as [c Hc]. congruence.
Qed.

End StagingAndRuns.

(* ===================================================================== *)
(** * Further properties of copy_elements_method.py *)
(* ===================================================================== *)

Section CemEdges.
Import FS Sys CopyElementsMethod.
Variable uuid4 : nat -> Z.

(** No element that carries an [Id] has the id [None]. *)
Lemma find_rid_none (rid : option string) (add_rels_root : ET.element) :
  rid = None ->
  List.find (fun rel => bool_decide (ET.get "Id" rel = rid))
            (ET.findall_desc (ET.has_attr "Id") add_rels_root) = None.
Proof.
  intros Hrid. unfold ET.findall_desc.
  induction (ET.descendants add_rels_root) as [|e l IH]; cbn [List.filter List.find];
    [reflexivity|].
  unfold ET.has_attr at 1. destruct (ET.get "Id" e) as [i|] eqn:E; [|exact IH].
  cbn [List.find]. rewrite bool_decide_eq_false_2 by congruence. exact IH.
Qed.

(** A loop over units none of which carries the attribute the script
    reads, when it ends, has changed nothing. *)
Lemma unit_source_no_rid add add_rns u :
  ET.get (ET.qname add_rns "id") u = None -> unit_source add add_rns u = None.
Proof.
  intros Hu. unfold unit_source.
  destruct (parse add _) as [e|add_rels_root]; [reflexivity|].
  rewrite (find_rid_none _ _ Hu). reflexivity.
Qed.

Lemma slides_loop_no_rid add ns rns rels_ns add_rns units : forall v v' s s',
  Forall (fun u => ET.get (ET.qname add_rns "id") u = None) units ->
  slides_loop uuid4 add ns rns rels_ns add_rns v units s = Ok v' s' ->
  v' = v /\ s' = s.
Proof.
  induction units as [|u rest IH]; intros v v' s s' Hall; cbn [slides_loop].
  - intros [<- <-]%ret_Ok. auto.
  - apply Forall_cons in Hall as [Hu Hrest].
    intros (v1 & s1 & Hstep & Hloop)%bind_Ok.
    apply slide_step_inv in Hstep. rewrite (unit_source_no_rid _ _ _ Hu) in Hstep.
    destruct Hstep as [-> ->]. exact (IH _ _ _ _ Hrest Hloop).
Qed.

(** ** Units stored under another attribute name *)

(** When no unit of the source carries its relationship id under the
    attribute name [copy_elements_method.py] computes, a merge that creates
    the package has merged nothing: the slide list and the relationship
    document of the package are the target's, and every file other than
    the three documents is as it was in the target. *)
Theorem cem_units_without_rid_not_merged add out s0 pkg s add_root root lst :
  merge_body uuid4 add out s0 = Ok (Created pkg) s ->
  parse add pres_key = inr add_root ->
  Forall (fun u => ET.get (ET.qname (get_namespace add_root "r") "id") u = None)
         (source_units add) ->
  parse (base s0) pres_key = inr root ->
  ET.find_desc (ET.tag_is (ET.qname (get_namespace root "p") "sldIdLst")) root = Some lst ->
  (exists root',
      pkg !! pres_key = Some (Xml root')
      /\ ET.find_desc (ET.tag_is (ET.qname (get_namespace root "p") "sldIdLst")) root'
         = Some lst)
  /\ (exists rels0, parse (base s0) rels_key = inr rels0
                    /\ pkg !! rels_key = Some (Xml rels0))
  /\ (forall key, key <> pres_key -> key <> rels_key -> key <> ct_key ->
                  pkg !! key = base s0 !! key).
Proof.
  intros Hrun Hadd Hall Hroot Hfind.
  apply merge_body_inv in Hrun
    as (root0 & slides0 & parent & ids & rels0 & rids & add_root0 & add_slides & v & s1
        & Hroot0 & Hloc & Hids & Hrels & Hrids & Hadd0 & Hfind0 & Hloop & -> & Hout
        & Hpres & Hrk & Hother & Hgrow & _).
  assert (root0 = root) as -> by congruence.
  assert (add_root0 = add_root) as -> by congruence.
  unfold source_units in Hall. rewrite Hadd, Hfind0 in Hall.
  destruct (slides_loop_no_rid _ _ _ _ _ _ _ _ _ _ Hall Hloop) as [-> ->].
  unfold locate_slides in Hloc. rewrite Hfind in Hloc. injection Hloc as <- <-.
  cbn [slides_element rels_root] in Hpres, Hrk.
  split; [|split].
  - destruct (replace_first_found
                (ET.tag_is (ET.qname (get_namespace root "p") "sldIdLst"))
                (fun t a cs cs' => eq_refl) lst root lst) as (e' & He' & Hf' & _).
    + apply find_desc_true in Hfind. exact Hfind.
    + exact Hfind.
    + eexists. split; [exact Hpres|]. unfold written_root. rewrite He'. exact Hf'.
  - exists rels0. auto.
  - exact Hother.
Qed.

(** ** A source without a slide list *)

(** The [try] block returns early exactly by printing that no slides were
    found: the tree is as it was. *)
Lemma merge_body_returned_early add out s0 s :
  merge_body uuid4 add out s0 = Ok ReturnedEarly s ->
  s = State (base s0) (stdout s0 ++ [NoSlidesFound]) (draws s0)
  /\ exists add_root,
       parse add pres_key = inr add_root
       /\ ET.find_desc (ET.tag_is (ET.qname (get_namespace add_root "p") "sldIdLst"))
            add_root = None.
Proof.
  unfold merge_body.
  change (in_dir ["ppt"; "presentation.xml"]) with pres_key.
  change (in_dir ["ppt"; "_rels"; "presentation.xml.rels"]) with rels_key.
  intros (root & s' & [Hroot ->]%parse_base_Ok & H)%bind_Ok.
  apply bind_Ok in H as ([slides0 parent] & s' & [Hloc <-]%lift_Ok & H).
  apply bind_Ok in H as (ids & s' & [Hids <-]%lift_Ok & H).
  apply bind_Ok in H as (rels0 & s' & [Hrels ->]%parse_base_Ok & H).
  apply bind_Ok in H as (rids & s' & [Hrids <-]%lift_Ok & H).
  apply bind_Ok in H as (add_root & s' & [Hadd <-]%lift_Ok & H).
  destruct (ET.find_desc _ add_root) as [add_slides|] eqn:Hfind.
  - apply bind_Ok in H as (v & s1 & _ & H).
    apply bind_Ok in H as (u1 & s2 & _ & H).
    apply bind_Ok in H as (u2 & s3 & _ & H).
    apply bind_Ok in H as (u3 & s4 & _ & H).
    apply bind_Ok in H as (package & s5 & _ & H).
    apply bind_Ok in H as (u4 & s6 & _ & [[=] _]%ret_Ok).
  - apply bind_Ok in H as (u & s' & ->%print_Ok & [_ <-]%ret_Ok).
    split; [reflexivity|]. exists add_root. auto.
Qed.

End CemEdges.
Section CemOutcomes.
Import FS Sys CopyElementsMethod.
Variable uuid4 : nat -> Z.

Lemma mapE_first_error {A B} (f : A -> exn + B) (err : exn) l x :
  (forall y e, In y l -> f y = inl e -> e = err) ->
  In x l -> f x = inl err -> mapE f l = inl err.
Proof.
  intros Herr Hin Hx. induction l as [|y l IH]; [destruct Hin|].
  cbn [mapE]. destruct (f y) as [e|b] eqn:Ey.
  - f_equal. exact (Herr y e (or_introl eq_refl) Ey).
  - destruct Hin as [Hy|Hin]; [congruence|].
    assert (IH' : mapE f l = inl err).
    { apply IH; [|exact Hin]. intros y' e' Hy'. apply Herr. right. exact Hy'. }
    rewrite IH'. reflexivity.
Qed.

Lemma bind_lift_inr {A B} (r : exn + A) a (f : A -> M B) s :
  r = inr a -> bind (lift r) f s = f a s.
Proof. intros ->. reflexivity. Qed.

Lemma bind_lift_inl {A B} (r : exn + A) e (f : A -> M B) s :
  r = inl e -> bind (lift r) f s = Raise e.
Proof. intros ->. reflexivity. Qed.

Lemma bind_parse_base {B} path r (f : ET.element -> M B) s :
  parse (base s) path = inr r -> bind (parse_base path) f s = f r s.
Proof. intros H. unfold parse_base, bind, get_base, lift. rewrite H. reflexivity. Qed.

(** One relationship whose [Id], with [rId] removed, is no integer literal
    makes the scan of the relationship ids fail. *)
Lemma rel_ids_of_non_numeric rels0 e x :
  In e (ET.descendants rels0) -> ET.get "Id" e = Some x ->
  Py.int (Py.replace "rId" "" x) = None ->
  rel_ids_of rels0 = inl ValueError.
Proof.
  intros He Hx Hint. unfold rel_ids_of.
  apply (mapE_first_error _ ValueError _ e).
  - intros y err [_ Hy]%filter_In. unfold ET.has_attr in Hy.
    destruct (ET.get "Id" y) as [i|]; [|discriminate]. cbn [fmap option_fmap option_map].
    unfold int_attr. destruct (Py.int (Py.replace "rId" "" i)); [discriminate|].
    intros H. congruence.
  - apply filter_In. split; [exact He|]. unfold ET.has_attr. rewrite Hx. reflexivity.
  - rewrite Hx. cbn [fmap option_fmap option_map]. unfold int_attr. rewrite Hint. reflexivity.
Qed.

(** ** A relationship id that is not [rId<n>] *)

(** A target whose top-level relationship document holds one relationship
    with an [Id] that is no number once [rId] is removed cannot be merged
    into: when the presentation and its slide ids read well, the [try]
    block ends with a [ValueError], before anything is written. *)
Theorem cem_non_numeric_rel_id_aborts add out s0 root slides0 parent ids rels0 e x :
  parse (base s0) pres_key = inr root ->
  locate_slides (get_namespace root "p") root = inr (slides0, parent) ->
  slide_ids_of (get_namespace root "p") slides0 = inr ids ->
  parse (base s0) rels_key = inr rels0 ->
  In e (ET.descendants rels0) -> ET.get "Id" e = Some x ->
  Py.int (Py.replace "rId" "" x) = None ->
  merge_body uuid4 add out s0 = Raise ValueError.
Proof.
  intros Hroot Hloc Hids Hrels He Hx Hint.
  unfold merge_body. cbv zeta.
  change (in_dir ["ppt"; "presentation.xml"]) with pres_key.
  change (in_dir ["ppt"; "_rels"; "presentation.xml.rels"]) with rels_key.
  rewrite (bind_parse_base _ _ _ _ Hroot), (bind_lift_inr _ _ _ _ Hloc),
    (bind_lift_inr _ _ _ _ Hids), (bind_parse_base _ _ _ _ Hrels).
  apply bind_lift_inl. exact (rel_ids_of_non_numeric _ _ _ He Hx Hint).
Qed.

(** ** What a successful merge leaves alone *)

(** A merge that creates the package drops no file of the target, and
    changes none but the three documents, the files below [ppt/media/],
    [ppt/charts/] and [embeddings/], and the slide files and slide
    relationship files numbered after the watermark. *)
Theorem cem_target_files_kept add out s0 pkg s :
  merge_body uuid4 add out s0 = Ok (Created pkg) s ->
  (forall key, is_Some (base s0 !! key) -> is_Some (pkg !! key))
  /\ (forall key,
        key <> pres_key -> key <> rels_key -> key <> ct_key ->
        ~ loop_key (unit_seed (base s0))
            (unit_seed (base s0) + Z.of_nat (length (merged_sources add))) key ->
        pkg !! key = base s0 !! key).
Proof.
  intros Hrun. apply merge_body_spec in Hrun
    as (root & slides0 & parent & rels0 & v & s1 & _ & _ & _ & Hpost & _ & _ & Hother
        & Hgrow & _).
  apply loop_post_proj in Hpost as (Hm & _ & _ & _ & (_ & Hkeep & Hframe) & _).
  split.
  - intros key Hk. apply Hgrow, Hkeep, Hk.
  - intros key H1 H2 H3 Hl. rewrite (Hother _ H1 H2 H3). apply Hframe.
    rewrite Hm. exact Hl.
Qed.

(** ** The three ways [merge_presentations] ends *)

(** [merge_presentations] never lets an exception out and always removes
    its working folder.  It prints one line.  Either that line reports
    success and the archive at [output_path] is the only one written, or
    it reports a source without slides or the exception caught, and no
    archive is touched. *)
Theorem cem_merge_presentations_outcomes w base_ppt_path add_ppt_path output_path :
  folders (fst (merge_presentations uuid4 w base_ppt_path add_ppt_path output_path))
  = delete temp_dir (folders w)
  /\ ((exists package,
         archives (fst (merge_presentations uuid4 w base_ppt_path add_ppt_path output_path))
         = <[output_path := package]> (archives w)
         /\ snd (merge_presentations uuid4 w base_ppt_path add_ppt_path output_path)
            = [SuccessfullyMerged output_path])
      \/ (archives (fst (merge_presentations uuid4 w base_ppt_path add_ppt_path output_path))
          = archives w
          /\ (snd (merge_presentations uuid4 w base_ppt_path add_ppt_path output_path)
              = [NoSlidesFound]
              \/ exists e,
                   snd (merge_presentations uuid4 w base_ppt_path add_ppt_path output_path)
                   = [ErrorMerging e]))).
Proof.
  unfold merge_presentations. cbv zeta.
  destruct (extract w base_ppt_path _) as [e|base0].
  { split; [reflexivity|]. right. split; [reflexivity|]. right. exists e. reflexivity. }
  destruct (extract w add_ppt_path _) as [e|add0].
  { split; [reflexivity|]. right. split; [reflexivity|]. right. exists e. reflexivity. }
  destruct (merge_body uuid4 add0 output_path (State base0 [] 0)) as [[|package] s|e] eqn:Hrun.
  - split; [reflexivity|]. right. split; [reflexivity|]. left.
    apply merge_body_returned_early in Hrun as [-> _]. reflexivity.
  - split; [reflexivity|]. left. exists package. split; [reflexivity|].
    apply merge_body_inv in Hrun
      as (root & slides0 & parent & ids & rels0 & rids & add_root & add_slides & v & s1
          & _ & _ & _ & _ & _ & _ & _ & _ & _ & Hout & _).
    exact Hout.
  - split; [reflexivity|]. right. split; [reflexivity|]. right. exists e. reflexivity.
Qed.

End CemOutcomes.
Section CemEdgeExamples.
Import FS Sys CopyElementsMethod.

(** A source whose units carry their relationship ids under the
    relationships namespace: nothing is merged. *)
Lemma cem_units_without_rid_not_merged_witness :
  (exists root',
      Example2.pkg_std !! pres_key = Some (Xml root')
      /\ ET.find_desc (ET.tag_is (ET.qname (get_namespace Example.base_root "p") "sldIdLst"))
           root'
         = Some (Example.slide_list [Example.sld "256" "rId2"]))
  /\ (exists rels0, parse (base Example.start) rels_key = inr rels0
                    /\ Example2.pkg_std !! rels_key = Some (Xml rels0))
  /\ (forall key, key <> pres_key -> key <> rels_key -> key <> ct_key ->
                  Example2.pkg_std !! key = base Example.start !! key).
Proof.
  apply (cem_units_without_rid_not_merged Example.uuid_a Example2.std_add_pkg "out.pptx"
           Example.start Example2.pkg_std Example2.end_std Example2.std_add_root
           Example.base_root (Example.slide_list [Example.sld "256" "rId2"])).
  - vm_compute. reflexivity.
  - vm_compute. reflexivity.
  - vm_compute. repeat constructor.
  - vm_compute. reflexivity.
  - vm_compute. reflexivity.
Defined.

(** A target with the relationship id [slide1]. *)
Lemma cem_non_numeric_rel_id_aborts_witness :
  merge_body Example.uuid_a Example.add_pkg "out.pptx" Example2.odd_start = Raise ValueError.
Proof.
  apply (cem_non_numeric_rel_id_aborts Example.uuid_a Example.add_pkg "out.pptx"
           Example2.odd_start Example.base_root
           (Example.slide_list [Example.sld "256" "rId2"]) None [256] Example2.odd_rels
           (Example.rel "slide1" Example.slide_type "slides/slide257.xml") "slide1").
  - vm_compute. reflexivity.
  - vm_compute. reflexivity.
  - vm_compute. reflexivity.
  - vm_compute. reflexivity.
  - vm_compute. tauto.
  - vm_compute. reflexivity.
  - vm_compute. reflexivity.
Defined.

Lemma cem_target_files_kept_witness :
  (forall key, is_Some (base Example.start !! key) -> is_Some (Example.pkg_a !! key))
  /\ (forall key,
        key <> pres_key -> key <> rels_key -> key <> ct_key ->
        ~ loop_key (unit_seed (base Example.start))
            (unit_seed (base Example.start)
             + Z.of_nat (length (merged_sources Example.add_pkg))) key ->
        Example.pkg_a !! key = base Example.start !! key).
Proof.
  exact (cem_target_files_kept Example.uuid_a Example.add_pkg "out.pptx" Example.start
           Example.pkg_a Example.end_a run_a_eq).
Defined.

End CemEdgeExamples.

(* ===================================================================== *)
(** * The content-type registry after [update_content_types] *)
(* ===================================================================== *)

Section Registry.
Import FS Sys CopyElementsMethod.

(** ** Trees with the same paths *)

Lemma is_dir_dom (t t' : tree) cur : dom t = dom t' -> is_dir t cur = is_dir t' cur.
Proof. intros H. unfold is_dir. rewrite H. reflexivity. Qed.

Lemma kind_same (t t' : tree) cur :
  dom t = dom t' -> same_node (kind t cur) (kind t' cur).
Proof.
  intros H. unfold kind.
  destruct (t !! key_of cur) as [c|] eqn:E; destruct (t' !! key_of cur) as [c'|] eqn:E'.
  - exact I.
  - apply (elem_of_dom_2 t) in E. rewrite H in E. apply elem_of_dom in E as [x Hx].
    congruence.
  - apply (elem_of_dom_2 t') in E'. rewrite <- H in E'. apply elem_of_dom in E' as [x Hx].
    congruence.
  - rewrite (is_dir_dom _ _ _ H). destruct (is_dir t' cur); exact I.
Qed.

Lemma walk_same (t t' : tree) comps : forall cur,
  dom t = dom t' -> same_node (walk t cur comps) (walk t' cur comps).
Proof.
  induction comps as [|c rest IH]; intros cur H; cbn [walk].
  - apply kind_same, H.
  - rewrite (is_dir_dom _ _ _ H). destruct (is_dir t' cur); [|exact I].
    destruct (_ || _); [apply IH, H|].
    destruct (String.eqb c ".."); [|apply IH, H].
    destruct cur; [exact I|apply IH, H].
Qed.

Lemma stat_same (t t' : tree) path :
  dom t = dom t' -> same_node (stat t path) (stat t' path).
Proof.
  intros H. unfold stat. destruct (Py.startswith "/" path); [exact I|apply walk_same, H].
Qed.

Lemma exists_same (t t' : tree) path : dom t = dom t' -> exists_ t path = exists_ t' path.
Proof.
  intros H. unfold exists_. pose proof (stat_same _ _ path H) as Hs.
  destruct (stat t path), (stat t' path); try destruct Hs; reflexivity.
Qed.

Lemma listdir_same (t t' : tree) dir : dom t = dom t' -> listdir t dir = listdir t' dir.
Proof.
  intros H. unfold listdir, entries. pose proof (stat_same _ _ dir H) as Hs.
  destruct (stat t dir), (stat t' dir); try destruct Hs; try reflexivity.
  rewrite H. reflexivity.
Qed.

Lemma lookup_parse_ct (t : tree) r : t !! ct_key = Some (Xml r) -> parse t ct_key = inr r.
Proof.
  intros H. unfold parse, stat. cbn. unfold kind.
  change (key_of ["[Content_Types].xml"]) with ct_key. rewrite H. reflexivity.
Qed.

(** ** What [update_content_types] computes *)

Lemma update_content_types_run u s s' root :
  update_content_types s = Ok u s' ->
  parse (base s) ct_key = inr root ->
  exists slide_files chart_files,
    listdir (base s) (in_dir ["ppt"; "slides"]) = inr slide_files
    /\ chart_listing (base s) chart_files
    /\ s' = State (<[ct_key := Xml (updated_registry root slide_files chart_files)]> (base s))
                  (stdout s) (draws s).
Proof.
  unfold update_content_types. change (in_dir ["[Content_Types].xml"]) with ct_key.
  intros (b & s0 & [-> ->]%get_base_Ok & H)%bind_Ok Hroot.
  rewrite (parse_exists _ _ _ Hroot) in H. cbn [negb] in H.
  apply bind_Ok in H as (root0 & s1 & [Hroot0 <-]%lift_Ok & H).
  assert (root0 = root) as -> by congruence.
  apply bind_Ok in H as (slide_files & s2 & [Hsl <-]%lift_Ok & H).
  apply bind_Ok in H as (root' & s3 & H3 & Hw).
  unfold chart_listing.
  destruct (exists_ (base s) (in_dir ["ppt"; "charts"])) eqn:Ech.
  - apply bind_Ok in H3 as (chart_files & s4 & [Hcl <-]%lift_Ok & [<- <-]%ret_Ok).
    exists slide_files, chart_files. apply write_Ok in Hw. auto.
  - apply ret_Ok in H3 as [<- <-]. exists slide_files, []. apply write_Ok in Hw. auto.
Qed.

Lemma update_content_types_eq s root slide_files chart_files :
  parse (base s) ct_key = inr root ->
  listdir (base s) (in_dir ["ppt"; "slides"]) = inr slide_files ->
  chart_listing (base s) chart_files ->
  update_content_types s
  = Ok tt (State (<[ct_key := Xml (updated_registry root slide_files chart_files)]> (base s))
                 (stdout s) (draws s)).
Proof.
  intros Hroot Hsl Hcl. unfold update_content_types, chart_listing in *.
  change (in_dir ["[Content_Types].xml"]) with ct_key.
  unfold bind at 1. unfold get_base. rewrite (parse_exists _ _ _ Hroot). cbn [negb base].
  unfold bind at 1. rewrite Hroot. unfold lift at 1, ret at 1.
  unfold bind at 1. rewrite Hsl. unfold lift at 1, ret at 1.
  destruct (exists_ (base s) (in_dir ["ppt"; "charts"])).
  - unfold bind. rewrite Hcl. reflexivity.
  - subst chart_files. reflexivity.
Qed.

(** ** The declarations of the written registry *)

Lemma in_findall_extends_old p e e' news x :
  extends e e' news -> In x (ET.findall_desc p e) -> In x (ET.findall_desc p e').
Proof.
  intros (_ & _ & Hc). unfold ET.findall_desc, ET.descendants.
  rewrite Hc, flat_map_app, List.filter_app. intros H. apply in_or_app. left. exact H.
Qed.

Lemma in_findall_extends_new p e e' news n :
  extends e e' news -> In n news -> p n = true -> In n (ET.findall_desc p e').
Proof.
  intros (_ & _ & Hc) Hn Hp. unfold ET.findall_desc, ET.descendants.
  rewrite Hc, flat_map_app, List.filter_app. apply in_or_app. right.
  apply filter_In. split; [|exact Hp]. apply in_flat_map. exists n. split; [exact Hn|].
  rewrite iter_unfold. left. reflexivity.
Qed.

Lemma default_declared root ext :
  declares_default root ext
  <-> Some ext ∈ map (ET.get "Extension") (ET.findall_desc (ET.local_is "Default") root).
Proof.
  unfold declares_default. rewrite list_elem_of_In, in_map_iff. split.
  - intros (e & He & Hx). exists e. auto.
  - intros (e & Hx & He). exists e. auto.
Qed.

Lemma override_listed root part :
  declares_override root part -> part <> "" ->
  part ∈ omap (fun override =>
                 match ET.get "PartName" override with
                 | Some part_name => if String.eqb part_name "" then None else Some part_name
                 | None => None
                 end)
              (ET.findall_desc (ET.local_is "Override") root).
Proof.
  intros (e & He & Hp) Hne. apply list_elem_of_omap. exists e.
  split; [apply list_elem_of_In, He|]. rewrite Hp.
  destruct (String.eqb_spec part ""); [contradiction|reflexivity].
Qed.

Lemma listed_override root part :
  part ∈ omap (fun override =>
                 match ET.get "PartName" override with
                 | Some part_name => if String.eqb part_name "" then None else Some part_name
                 | None => None
                 end)
              (ET.findall_desc (ET.local_is "Override") root) ->
  declares_override root part.
Proof.
  intros (e & He & Hp)%list_elem_of_omap. exists e. split; [apply list_elem_of_In, He|].
  destruct (ET.get "PartName" e) as [q|]; [|discriminate].
  destruct (String.eqb q ""); [discriminate|]. congruence.
Qed.

Lemma fold_left_fixed {A B} (f : A -> B -> A) l r :
  (forall x, In x l -> f r x = r) -> fold_left f l r = r.
Proof.
  induction l as [|x l IH]; intros H; cbn [fold_left]; [reflexivity|].
  rewrite (H x (or_introl eq_refl)). apply IH. intros y Hy. apply H. right. exact Hy.
Qed.

(** The three stages of the written registry. *)
Lemma updated_registry_stages root slide_files chart_files :
  let existing_defaults :=
    map (ET.get "Extension") (ET.findall_desc (ET.local_is "Default") root) in
  let root1 := fold_left (add_default existing_defaults) extensions root in
  let existing_overrides :=
    omap (fun override =>
            match ET.get "PartName" override with
            | Some part_name => if String.eqb part_name "" then None else Some part_name
            | None => None
            end)
         (ET.findall_desc (ET.local_is "Override") root1) in
  let root2 :=
    fold_left (add_override "/ppt/slides/" content_type_slides existing_overrides)
              slide_files root1 in
  exists n1 n2 n3,
    extends root root1 n1 /\ extends root1 root2 n2
    /\ extends root2 (updated_registry root slide_files chart_files) n3
    /\ (forall em, In em extensions ->
          bool_decide (Some (tail_str (fst em)) ∈ existing_defaults) = false ->
          In (ET.set "ContentType" (snd em)
                (ET.set "Extension" (tail_str (fst em))
                   (ET.Element (ET.qname ct_ns "Default") [] []))) n1)
    /\ (forall file, In file slide_files -> Py.endswith ".xml" file = true ->
          bool_decide ("/ppt/slides/" ++ file ∈ existing_overrides) = false ->
          In (ET.set "ContentType" content_type_slides
                (ET.set "PartName" ("/ppt/slides/" ++ file)
                   (ET.Element (ET.qname ct_ns "Override") [] []))) n2)
    /\ (forall file, In file chart_files -> Py.endswith ".xml" file = true ->
          bool_decide ("/ppt/charts/" ++ file ∈ existing_overrides) = false ->
          In (ET.set "ContentType" content_type_chart
                (ET.set "PartName" ("/ppt/charts/" ++ file)
                   (ET.Element (ET.qname ct_ns "Override") [] []))) n3).
Proof.
  intros existing_defaults root1 existing_overrides root2.
  pose proof (fold_append_extends (add_default existing_defaults)
                (fun em => bool_decide (Some (tail_str (fst em)) ∈ existing_defaults))
                (fun em => ET.set "ContentType" (snd em)
                             (ET.set "Extension" (tail_str (fst em))
                                (ET.Element (ET.qname ct_ns "Default") [] [])))
                (fun r x => eq_refl) extensions root) as H1.
  pose proof (fold_append_extends
                (add_override "/ppt/slides/" content_type_slides existing_overrides)
                _ _ (add_override_test _ _ _) slide_files root1) as H2.
  pose proof (fold_append_extends
                (add_override "/ppt/charts/" content_type_chart existing_overrides)
                _ _ (add_override_test _ _ _) chart_files root2) as H3.
  eexists _, _, _. split; [exact H1|]. split; [exact H2|]. split; [exact H3|].
  split; [|split].
  - intros em Hem Hk.
    apply (in_map (fun em => ET.set "ContentType" (snd em)
                     (ET.set "Extension" (tail_str (fst em))
                        (ET.Element (ET.qname ct_ns "Default") [] [])))).
    apply filter_In. split; [exact Hem|]. rewrite Hk. reflexivity.
  - intros file Hf Hx Hk.
    apply (in_map (fun file => ET.set "ContentType" content_type_slides
                     (ET.set "PartName" ("/ppt/slides/" ++ file)
                        (ET.Element (ET.qname ct_ns "Override") [] [])))).
    apply filter_In. split; [exact Hf|]. rewrite Hx, Hk. reflexivity.
  - intros file Hf Hx Hk.
    apply (in_map (fun file => ET.set "ContentType" content_type_chart
                     (ET.set "PartName" ("/ppt/charts/" ++ file)
                        (ET.Element (ET.qname ct_ns "Override") [] [])))).
    apply filter_In. split; [exact Hf|]. rewrite Hx, Hk. reflexivity.
Qed.

Lemma updated_registry_extends root slide_files chart_files :
  exists extra, extends root (updated_registry root slide_files chart_files) extra.
Proof.
  destruct (updated_registry_stages root slide_files chart_files)
    as (n1 & n2 & n3 & H1 & H2 & H3 & _).
  eexists. exact (extends_trans _ _ _ _ _ (extends_trans _ _ _ _ _ H1 H2) H3).
Qed.

Lemma updated_registry_defaults root slide_files chart_files em :
  In em extensions ->
  declares_default (updated_registry root slide_files chart_files) (tail_str (fst em)).
Proof.
  intros Hem.
  destruct (updated_registry_stages root slide_files chart_files)
    as (n1 & n2 & n3 & H1 & H2 & H3 & Hd & _).
  pose proof (extends_trans _ _ _ _ _ H2 H3) as H23.
  destruct (bool_decide (Some (tail_str (fst em))
                         ∈ map (ET.get "Extension")
                             (ET.findall_desc (ET.local_is "Default") root))) eqn:Ek.
  - apply bool_decide_eq_true in Ek. apply default_declared in Ek as (e & He & Hx).
    exists e. split; [|exact Hx].
    eapply in_findall_extends_old; [exact H23|].
    eapply in_findall_extends_old; [exact H1|exact He].
  - eexists. split.
    + eapply in_findall_extends_old; [exact H23|].
      eapply in_findall_extends_new; [exact H1|exact (Hd em Hem Ek)|reflexivity].
    + rewrite get_set_ne by discriminate. apply get_set_eq.
Qed.

Lemma updated_registry_slides root slide_files chart_files file :
  In file slide_files -> Py.endswith ".xml" file = true ->
  declares_override (updated_registry root slide_files chart_files) ("/ppt/slides/" ++ file).
Proof.
  intros Hf Hx.
  destruct (updated_registry_stages root slide_files chart_files)
    as (n1 & n2 & n3 & H1 & H2 & H3 & _ & Hs & _).
  pose proof (extends_trans _ _ _ _ _ H2 H3) as H23.
  match type of Hs with
  | forall file, _ -> _ -> bool_decide (_ ∈ ?eo) = false -> _ =>
      destruct (bool_decide ("/ppt/slides/" ++ file ∈ eo)) eqn:Ek
  end.
  - apply bool_decide_eq_true in Ek. apply listed_override in Ek as (e & He & Hp).
    exists e. split; [|exact Hp]. eapply in_findall_extends_old; [exact H23|exact He].
  - eexists. split.
    + eapply in_findall_extends_old; [exact H3|].
      eapply in_findall_extends_new; [exact H2|exact (Hs file Hf Hx Ek)|reflexivity].
    + rewrite get_set_ne by discriminate. apply get_set_eq.
Qed.

Lemma updated_registry_charts root slide_files chart_files file :
  In file chart_files -> Py.endswith ".xml" file = true ->
  declares_override (updated_registry root slide_files chart_files) ("/ppt/charts/" ++ file).
Proof.
  intros Hf Hx.
  destruct (updated_registry_stages root slide_files chart_files)
    as (n1 & n2 & n3 & H1 & H2 & H3 & _ & _ & Hc).
  match type of Hc with
  | forall file, _ -> _ -> bool_decide (_ ∈ ?eo) = false -> _ =>
      destruct (bool_decide ("/ppt/charts/" ++ file ∈ eo)) eqn:Ek
  end.
  - apply bool_decide_eq_true in Ek. apply listed_override in Ek as (e & He & Hp).
    exists e. split; [|exact Hp].
    eapply in_findall_extends_old; [exact (extends_trans _ _ _ _ _ H2 H3)|exact He].
  - eexists. split.
    + eapply in_findall_extends_new; [exact H3|exact (Hc file Hf Hx Ek)|reflexivity].
    + rewrite get_set_ne by discriminate. apply get_set_eq.
Qed.

(** Updating an updated registry, with the same listings, changes nothing. *)
Lemma updated_registry_fixed root slide_files chart_files :
  updated_registry (updated_registry root slide_files chart_files) slide_files chart_files
  = updated_registry root slide_files chart_files.
Proof.
  set (r := updated_registry root slide_files chart_files).
  unfold updated_registry at 1. cbv zeta.
  assert (H1 : fold_left (add_default
                            (map (ET.get "Extension")
                               (ET.findall_desc (ET.local_is "Default") r))) extensions r = r).
  { apply fold_left_fixed. intros em Hem. unfold add_default.
    rewrite bool_decide_eq_true_2; [reflexivity|].
    apply default_declared, updated_registry_defaults, Hem. }
  rewrite H1.
  assert (H2 : forall folder ct files,
            (forall file, In file files -> Py.endswith ".xml" file = true ->
                          declares_override r (folder ++ file)) ->
            Py.startswith "/" folder = true ->
            fold_left (add_override folder ct
                         (omap (fun override =>
                                  match ET.get "PartName" override with
                                  | Some part_name =>
                                      if String.eqb part_name "" then None else Some part_name
                                  | None => None
                                  end)
                               (ET.findall_desc (ET.local_is "Override") r))) files r = r).
  { intros folder ct files Hdecl Hfolder. apply fold_left_fixed. intros file Hf.
    unfold add_override. destruct (Py.endswith ".xml" file) eqn:Ex; [|reflexivity].
    rewrite bool_decide_eq_true_2; [reflexivity|].
    apply override_listed; [exact (Hdecl file Hf Ex)|].
    destruct folder; discriminate. }
  rewrite (H2 "/ppt/slides/" _ slide_files); [|intros; apply updated_registry_slides; auto|reflexivity].
  apply H2; [intros; apply updated_registry_charts; auto|reflexivity].
Qed.

(** ** The registry declares what the package holds *)

(** After [update_content_types], the registry declares a default type for
    each of the eight extensions the script knows, and an override for
    every [.xml] file directly below [ppt/slides] and below [ppt/charts]. *)
Theorem cem_registry_complete u s s' root :
  update_content_types s = Ok u s' ->
  parse (base s) ct_key = inr root ->
  exists root' slide_files chart_files,
    base s' !! ct_key = Some (Xml root')
    /\ listdir (base s) (in_dir ["ppt"; "slides"]) = inr slide_files
    /\ chart_listing (base s) chart_files
    /\ (forall em, In em extensions -> declares_default root' (tail_str (fst em)))
    /\ (forall file, In file slide_files -> Py.endswith ".xml" file = true ->
          declares_override root' ("/ppt/slides/" ++ file))
    /\ (forall file, In file chart_files -> Py.endswith ".xml" file = true ->
          declares_override root' ("/ppt/charts/" ++ file)).
Proof.
  intros H Hroot.
  destruct (update_content_types_run _ _ _ _ H Hroot) as (sf & cf & Hsl & Hcl & ->).
  exists (updated_registry root sf cf), sf, cf. cbn [base].
  split; [apply lookup_insert_eq|]. split; [exact Hsl|]. split; [exact Hcl|].
  split; [intros em; apply updated_registry_defaults|].
  split; [intros file; apply updated_registry_slides|intros file; apply updated_registry_charts].
Qed.

(** ** Updating the registry twice *)

(** [update_content_types] on the tree it has just updated changes
    nothing. *)
Theorem cem_registry_update_idempotent u s s' :
  update_content_types s = Ok u s' -> update_content_types s' = Ok tt s'.
Proof.
  intros H. destruct (parse (base s) ct_key) as [e|root] eqn:Hroot.
  - assert (s' = s) as ->.
    { revert H. unfold update_content_types. change (in_dir ["[Content_Types].xml"]) with ct_key.
      intros (b & s0 & [-> ->]%get_base_Ok & H)%bind_Ok. revert H.
      destruct (negb _); [intros [_ <-]%ret_Ok; reflexivity|].
      intros (r & s1 & [Hr _]%lift_Ok & _)%bind_Ok. congruence. }
    destruct u. exact H.
  - destruct (update_content_types_run _ _ _ _ H Hroot) as (sf & cf & Hsl & Hcl & ->).
    pose proof (parse_ct_key _ _ Hroot) as Hlook.
    assert (Hdom : dom (<[ct_key := Xml (updated_registry root sf cf)]> (base s))
                   = dom (base s)).
    { apply dom_insert_lookup_L. rewrite Hlook. eauto. }
    rewrite (update_content_types_eq _ (updated_registry root sf cf) sf cf).
    + cbn [base stdout draws]. rewrite updated_registry_fixed, insert_insert_eq. reflexivity.
    + cbn [base]. apply lookup_parse_ct, lookup_insert_eq.
    + cbn [base]. rewrite (listdir_same _ _ _ Hdom). exact Hsl.
    + cbn [base]. unfold chart_listing in *.
      rewrite (exists_same _ _ _ Hdom), (listdir_same _ _ _ Hdom). exact Hcl.
Qed.

End Registry.
Section RegistryExamples.
Import FS Sys CopyElementsMethod.

Lemma cem_registry_complete_witness :
  exists root' slide_files chart_files,
    base Example.end_types !! ct_key = Some (Xml root')
    /\ listdir (base Example.start) (in_dir ["ppt"; "slides"]) = inr slide_files
    /\ chart_listing (base Example.start) chart_files
    /\ (forall em, In em extensions -> declares_default root' (tail_str (fst em)))
    /\ (forall file, In file slide_files -> Py.endswith ".xml" file = true ->
          declares_override root' ("/ppt/slides/" ++ file))
    /\ (forall file, In file chart_files -> Py.endswith ".xml" file = true ->
          declares_override root' ("/ppt/charts/" ++ file)).
Proof.
  apply (cem_registry_complete tt Example.start Example.end_types Example.base_types);
    vm_compute; reflexivity.
Defined.

Lemma cem_registry_update_idempotent_witness :
  update_content_types Example.end_types = Ok tt Example.end_types.
Proof.
  apply (cem_registry_update_idempotent tt Example.start Example.end_types).
  vm_compute. reflexivity.
Defined.

End RegistryExamples.

(* ===================================================================== *)
(** * The numbering of the copied media *)
(* ===================================================================== *)

Section MediaNumbers.
Import FS Sys CopyElementsMethod.
Variable uuid4 : nat -> Z.

Lemma numeral_then_ext x : forall y e1 e2,
  Py.all is_numeral_char x = true -> Py.all is_numeral_char y = true ->
  (e1 = "" \/ exists e, e1 = String "." e) ->
  (e2 = "" \/ exists e, e2 = String "." e) ->
  x ++ e1 = y ++ e2 -> x = y.
Proof.
  induction x as [|c x IH]; intros y e1 e2 Hx Hy H1 H2 E.
  - destruct y as [|d y]; [reflexivity|]. simpl in E, Hy.
    apply andb_prop in Hy as [Hd _].
    destruct H1 as [->|[e ->]]; [discriminate|]. injection E as <- _. discriminate Hd.
  - destruct y as [|d y]; simpl in E, Hx, Hy.
    + apply andb_prop in Hx as [Hc _].
      destruct H2 as [->|[e ->]]; [discriminate|]. injection E as -> _. discriminate Hc.
    + injection E as -> E. apply andb_prop in Hx as [_ Hx]. apply andb_prop in Hy as [_ Hy].
      f_equal. exact (IH _ _ _ Hx Hy H1 H2 E).
Qed.

(** Two names with different numbers differ, whatever their extensions. *)
Lemma media_name_inj i j p q : media_name i p = media_name j q -> i = j.
Proof.
  unfold media_name. intros E. apply (app_inv_head_str "media/image") in E.
  apply numeral_then_ext in E;
    [|apply all_numeral_str|apply all_numeral_str|apply splitext_ext_shape
     |apply splitext_ext_shape].
  apply str_inj in E. lia.
Qed.

Lemma media_numbered_empty : media_numbered ∅.
Proof.
  exists (fun _ => 0%nat). split.
  - intros p f H. rewrite lookup_empty in H. discriminate.
  - intros p1 p2 f1 f2 H. rewrite lookup_empty in H. discriminate.
Qed.

Lemma media_numbered_insert (am : gmap string string) p :
  am !! p = None -> media_numbered am ->
  media_numbered (<[p := media_name (size am) p]> am).
Proof.
  intros Hp (idx & Hidx & Hinj).
  exists (fun q => if decide (q = p) then size am else idx q).
  rewrite (map_size_insert_None _ _ _ Hp). split.
  - intros q f Hq. destruct (decide (q = p)) as [->|Hne].
    + rewrite lookup_insert_eq in Hq. injection Hq as <-. split; [lia|reflexivity].
    + rewrite lookup_insert_ne in Hq by congruence.
      destruct (Hidx q f Hq) as [Hlt ->]. split; [lia|reflexivity].
  - intros p1 p2 f1 f2 H1 H2.
    destruct (decide (p1 = p)) as [->|Hn1], (decide (p2 = p)) as [->|Hn2].
    + reflexivity.
    + rewrite lookup_insert_ne in H2 by congruence.
      destruct (Hidx p2 f2 H2) as [Hlt _]. lia.
    + rewrite lookup_insert_ne in H1 by congruence.
      destruct (Hidx p1 f1 H1) as [Hlt _]. lia.
    + rewrite lookup_insert_ne in H1, H2 by congruence. exact (Hinj _ _ _ _ H1 H2).
Qed.

Lemma media_numbered_slide_rel_step add sp am rel am' rel' s s' :
  slide_rel_step uuid4 add sp am rel s = Ok (am', rel') s' ->
  media_numbered am -> media_numbered am'.
Proof.
  unfold slide_rel_step.
  destruct (ET.get "Target" rel) as [target|]; [|intros []%raise_Ok].
  destruct (ET.get "Type" rel) as [rel_type|]; [|intros []%raise_Ok].
  destruct (is_media_type rel_type).
  - destruct (negb _); [|intros [[= <- _] _]%ret_Ok; auto].
    destruct (am !! _) as [f|] eqn:Ef.
    + intros [[= <- _] _]%ret_Ok. auto.
    + intros (u & s1 & _ & [[= <- _] _]%ret_Ok)%bind_Ok Ham.
      exact (media_numbered_insert _ _ Ef Ham).
  - destruct (Py.contains "chart" rel_type); [|intros [[= <- _] _]%ret_Ok; auto].
    intros (h & s1 & _ & (u & s2 & _ & [[= <- _] _]%ret_Ok)%bind_Ok)%bind_Ok. auto.
Qed.

Lemma media_numbered_slide_rels_loop add sp rels : forall am am' news s s',
  slide_rels_loop uuid4 add sp am rels s = Ok (am', news) s' ->
  media_numbered am -> media_numbered am'.
Proof.
  induction rels as [|rel rest IH]; cbn [slide_rels_loop]; intros am am' news s s'.
  - intros [[= <- _] _]%ret_Ok. auto.
  - intros ([am1 rel'] & s1 & H1 & ([am2 rest'] & s2 & H2 & [[= <- _] _]%ret_Ok)%bind_Ok)%bind_Ok
           Ham.
    exact (IH _ _ _ _ _ H2 (media_numbered_slide_rel_step _ _ _ _ _ _ _ _ H1 Ham)).
Qed.

Lemma media_numbered_slide_step add ns rns rels_ns add_rns v u v' s s' :
  slide_step uuid4 add ns rns rels_ns add_rns v u s = Ok v' s' ->
  media_numbered (added_media v) -> media_numbered (added_media v').
Proof.
  intros H Ham. apply slide_step_inv in H.
  destruct (unit_source add add_rns u) as [sp|]; [|destruct H as [-> _]; exact Ham].
  destruct H as (c & am' & _ & Hp & ->). cbn [added_media].
  apply process_slide_relationships_inv in Hp
    as [(_ & -> & _)|(rels_root & news & s1 & _ & Hl & _)]; [exact Ham|].
  exact (media_numbered_slide_rels_loop _ _ _ _ _ _ _ _ Hl Ham).
Qed.

Lemma media_numbered_slides_loop add ns rns rels_ns add_rns units : forall v v' s s',
  slides_loop uuid4 add ns rns rels_ns add_rns v units s = Ok v' s' ->
  media_numbered (added_media v) -> media_numbered (added_media v').
Proof.
  induction units as [|u rest IH]; cbn [slides_loop]; intros v v' s s'.
  - intros [<- _]%ret_Ok. auto.
  - intros (v1 & s1 & H1 & H2)%bind_Ok Ham.
    exact (IH _ _ _ _ H2 (media_numbered_slide_step _ _ _ _ _ _ _ _ _ _ H1 Ham)).
Qed.

(** ** Destinations of media files *)

(** Over the loop of one merge, which starts with an empty dictionary,
    each media file entered in [added_media] has the destination
    [media/image<i+1><ext>] with [ext] the extension of its source path
    and [i] below the size of the dictionary, and two different source
    paths never have the same destination. *)
Theorem cem_media_destinations_distinct add ns rns rels_ns add_rns units v v' s s' :
  slides_loop uuid4 add ns rns rels_ns add_rns v units s = Ok v' s' ->
  added_media v = ∅ ->
  (forall p f, added_media v' !! p = Some f ->
     exists i : nat, (i < size (added_media v'))%nat /\ f = media_name i p)
  /\ (forall p1 p2 f, added_media v' !! p1 = Some f -> added_media v' !! p2 = Some f ->
        p1 = p2).
Proof.
  intros Hloop Hv.
  assert (Ham : media_numbered (added_media v)) by (rewrite Hv; apply media_numbered_empty).
  destruct (media_numbered_slides_loop _ _ _ _ _ _ _ _ _ _ Hloop Ham) as (idx & Hidx & Hinj).
  split.
  - intros p f Hp. exists (idx p). exact (Hidx p f Hp).
  - intros p1 p2 f H1 H2. apply (Hinj _ _ _ _ H1 H2).
    destruct (Hidx _ _ H1) as [_ E1]. destruct (Hidx _ _ H2) as [_ E2].
    rewrite E1 in E2. exact (media_name_inj _ _ _ _ E2).
Qed.

End MediaNumbers.
Section MediaExamples.
Import FS Sys CopyElementsMethod.

Lemma cem_media_destinations_distinct_witness :
  (forall p f, added_media Example2.loop_end_vars !! p = Some f ->
     exists i : nat, (i < size (added_media Example2.loop_end_vars))%nat
                     /\ f = media_name i p)
  /\ (forall p1 p2 f, added_media Example2.loop_end_vars !! p1 = Some f ->
        added_media Example2.loop_end_vars !! p2 = Some f -> p1 = p2).
Proof.
  apply (cem_media_destinations_distinct Example.uuid_a Example.add_pkg Example.pns
           Example.rns Example.relns Example.rns Example2.loop_units Example2.loop_vars
           Example2.loop_end_vars Example.start Example2.loop_end);
    vm_compute; reflexivity.
Defined.

End MediaExamples.

(* ===================================================================== *)
(** * Further properties of mk2.py *)
(* ===================================================================== *)

Section Mk2More.
Import FS Sys.

Lemma split_last_none_all a s :
  Path.split_last a s = None -> Py.all (fun c => negb (Ascii.eqb c a)) s = true.
Proof.
  induction s as [|c r IH]; simpl; [reflexivity|].
  destruct (Path.split_last a r) as [[h t]|]; [discriminate|].
  destruct (Ascii.eqb c a); [discriminate|]. intros _. simpl. apply IH. reflexivity.
Qed.

(** [os.path.basename] returns a name without a slash. *)
Lemma basename_not_slash p : Py.all not_slash (Path.basename p) = true.
Proof.
  unfold Path.basename. destruct (Path.split_last "/" p) as [[h t]|] eqn:E.
  - apply split_last_some in E as [_ Ht]. exact Ht.
  - apply split_last_none_all in E. exact E.
Qed.

Lemma not_slash_startswith t : Py.all not_slash t = true -> Py.startswith "/" t = false.
Proof.
  destruct t as [|c t]; [reflexivity|]. cbn [Py.all Py.startswith].
  intros [Hc _]%andb_prop.
  unfold not_slash, Path.is_slash in Hc. apply negb_true_iff in Hc.
  rewrite Ascii.eqb_sym, Hc. reflexivity.
Qed.

Lemma in_dir_slides name :
  Py.all not_slash name = true -> in_dir ["ppt"; "slides"; name] = "ppt/slides/" ++ name.
Proof.
  intros H. unfold in_dir. cbn [fold_left].
  change (Path.join (Path.join "" "ppt") "slides") with "ppt/slides".
  unfold Path.join. rewrite (not_slash_startswith _ H). reflexivity.
Qed.

Lemma in_dir_slides_rels name :
  Py.all not_slash name = true ->
  in_dir ["ppt"; "slides"; "_rels"; name] = "ppt/slides/_rels/" ++ name.
Proof.
  intros H. unfold in_dir. cbn [fold_left].
  change (Path.join (Path.join (Path.join "" "ppt") "slides") "_rels")
    with "ppt/slides/_rels".
  unfold Path.join. rewrite (not_slash_startswith _ H). reflexivity.
Qed.

Lemma mk2_lift_Ok {A} (r : exn + A) a s s' :
  Mk2.lift r s = Mk2.Ok a s' <-> r = inr a /\ s = s'.
Proof.
  destruct r as [e|x]; cbn; split.
  - discriminate.
  - intros [[=] _].
  - intros [= <- <-]. auto.
  - intros [[= <-] <-]. reflexivity.
Qed.

Lemma mk2_write_Ok path c u s s' :
  Mk2.write path c s = Mk2.Ok u s' <-> s' = <[path := c]> s.
Proof.
  unfold Mk2.write. split; [intros [= H]; auto|intros ->; destruct u; reflexivity].
Qed.

Lemma mk2_copy2_Ok second src dst u s s' :
  Mk2.copy2 second src dst s = Mk2.Ok u s' <->
  exists c, read second src = inr c /\ s' = <[dst := c]> s.
Proof.
  unfold Mk2.copy2. rewrite mk2_bind_Ok. split.
  - intros (c & s1 & [-> ->]%mk2_lift_Ok & H%mk2_write_Ok). eauto.
  - intros (c & -> & ->). exists c, s. split; [apply mk2_lift_Ok; auto|apply mk2_write_Ok; auto].
Qed.

(** ** The ids [mk2.py] hands out against those of the target *)

Lemma highest_rel_id_ge rels : forall m,
  m <= Mk2.highest_rel_id m rels
  /\ forall rel k, In rel rels -> ET.get "Id" rel = Some ("rId" ++ Py.str k) ->
                   k <= Mk2.highest_rel_id m rels.
Proof.
  induction rels as [|rel rest IH]; intros m; cbn [Mk2.highest_rel_id].
  - split; [lia|]. intros rel k [].
  - set (rid := default "" (ET.get "Id" rel)).
    assert (Hcases : exists m', m <= m'
              /\ (if Py.startswith "rId" rid
                  then match Py.int (default "" (strip_prefix "rId" rid)) with
                       | Some n => Mk2.highest_rel_id (Z.max m n) rest
                       | None => Mk2.highest_rel_id m rest
                       end
                  else Mk2.highest_rel_id m rest) = Mk2.highest_rel_id m' rest
              /\ forall k, ET.get "Id" rel = Some ("rId" ++ Py.str k) -> k <= m').
    { assert (Hrid : forall k, ET.get "Id" rel = Some ("rId" ++ Py.str k) ->
                Py.startswith "rId" rid = true
                /\ Py.int (default "" (strip_prefix "rId" rid)) = Some k).
      { intros k Hk. unfold rid. rewrite Hk.
        change (default "" (Some ("rId" ++ Py.str k))) with ("rId" ++ Py.str k).
        rewrite startswith_app, strip_prefix_app. split; [reflexivity|apply int_str]. }
      destruct (Py.startswith "rId" rid) eqn:Es.
      - destruct (Py.int (default "" (strip_prefix "rId" rid))) as [n|] eqn:En.
        + exists (Z.max m n). split; [lia|]. split; [reflexivity|].
          intros k Hk. destruct (Hrid k Hk) as [_ [= ->]]. lia.
        + exists m. split; [lia|]. split; [reflexivity|].
          intros k Hk. destruct (Hrid k Hk) as [_ [=]].
      - exists m. split; [lia|]. split; [reflexivity|].
        intros k Hk. destruct (Hrid k Hk) as [[=] _]. }
    destruct Hcases as (m' & Hm & -> & Hrel). destruct (IH m') as [Hge Hall].
    split; [lia|]. intros r k [<-|Hin] Hid.
    + specialize (Hrel k Hid). lia.
    + exact (Hall r k Hin Hid).
Qed.

Lemma highest_slide_id_ge slides : forall m mx,
  Mk2.highest_slide_id m slides = inr mx ->
  m <= mx
  /\ forall slide k, In slide slides -> ET.get "id" slide = Some (Py.str k) -> k <= mx.
Proof.
  induction slides as [|slide rest IH]; intros m mx; cbn [Mk2.highest_slide_id].
  - intros [= <-]. split; [lia|]. intros slide k [].
  - destruct (Py.int (default "0" (ET.get "id" slide))) as [n|] eqn:En; [|discriminate].
    intros H. destruct (IH _ _ H) as [Hge Hall]. split; [lia|].
    intros s k [<-|Hin] Hid.
    + rewrite Hid in En. change (default "0" (Some (Py.str k))) with (Py.str k) in En.
      rewrite int_str in En. injection En as <-. lia.
    + exact (Hall s k Hin Hid).
Qed.

(** The ids [mk2.py] gives to the units it adds are the ids of no slide of
    the target's list and of no relationship of the target's top-level
    relationship document, whatever ids that document holds: an id that is
    not [rId<n>] is passed over by the scan instead of ending the merge. *)
Theorem mk2_allocated_ids_fresh second ns units list1 rels0 seed_id mapping1 mapping2
    sld_tag v' s s' :
  Mk2.highest_slide_id 0 (ET.findall_desc (ET.tag_is sld_tag) list1) = inr seed_id ->
  Mk2.slides_loop second ns
    (Mk2.Vars list1 rels0 seed_id
       (Mk2.highest_rel_id 0 (ET.findall_desc (ET.has_attr "Id") rels0)) mapping1 mapping2)
    units s = Mk2.Ok v' s' ->
  exists news_s news_r,
    extends list1 (Mk2.slide_id_list1 v') news_s
    /\ extends rels0 (Mk2.rels_root v') news_r
    /\ (forall new old, In new news_s -> In old (ET.findall_desc (ET.tag_is sld_tag) list1) ->
          ET.get "id" new <> ET.get "id" old)
    /\ (forall new old, In new news_r -> In old (ET.findall_desc (ET.has_attr "Id") rels0) ->
          ET.get "Id" new <> ET.get "Id" old).
Proof.
  intros Hseed Hloop.
  destruct (mk2_slides_loop_post _ _ _ _ _ _ _ Hloop)
    as (_ & _ & ks & news_r & _ & Hb & Hes & Her & Hids).
  cbn [Mk2.slide_id_list1 Mk2.rels_root Mk2.max_id Mk2.max_rel_id] in Hes, Her, Hids.
  eexists _, news_r. split; [exact Hes|]. split; [exact Her|]. split.
  - intros new old (i & <- & Hi)%in_map_iff Hold E.
    rewrite mk2_slide_elem_id in E.
    destruct (highest_slide_id_ge _ _ _ Hseed) as [_ Hall].
    pose proof (Hall old _ Hold (eq_sym E)) as Hle.
    pose proof (proj1 (List.Forall_forall _ _) Hb i Hi) as Hi1. simpl in Hi1. lia.
  - intros new old Hnew Hold E.
    assert (Hn : In (ET.get "Id" new) (map (ET.get "Id") news_r)) by (apply in_map, Hnew).
    rewrite Hids in Hn. apply in_map_iff in Hn as (i & Ei & Hi).
    rewrite E in Ei.
    destruct (highest_rel_id_ge (ET.findall_desc (ET.has_attr "Id") rels0) 0) as [_ Hall].
    pose proof (Hall old _ Hold (eq_sym Ei)) as Hle.
    pose proof (proj1 (List.Forall_forall _ _) Hb i Hi) as Hi1. simpl in Hi1. lia.
Qed.

(** ** A unit [mk2.py] copies *)

(** When the relationship of a unit resolves, the iteration copies the
    source part to [ppt/slides/] under its own file name, whatever the
    target holds there, and the relationship it appends names that
    place; the relationship file of the source slide, when there is one,
    goes to [ppt/slides/_rels/] under its own name as well. *)
Theorem mk2_copied_unit_resolves second ns v u v' s s' rel_root rel others slide_path :
  Mk2.slide_step second ns v u s = Mk2.Ok v' s' ->
  parse second (in_dir ["ppt"; "_rels"; "presentation.xml.rels"]) = inr rel_root ->
  Mk2.findall_id (Mk2.fmt (ET.get (ET.qname ns "id") u)) rel_root = inr (rel :: others) ->
  ET.get "Target" rel = Some slide_path -> slide_path <> "" ->
  exists c new_rel,
    read second (in_dir ["ppt"; slide_path]) = inr c
    /\ s' !! ("ppt/slides/" ++ Path.basename slide_path) = Some c
    /\ Mk2.rels_root v' = ET.append new_rel (Mk2.rels_root v)
    /\ ET.get "Target" new_rel = Some ("slides/" ++ Path.basename slide_path)
    /\ ET.get "Type" new_rel = Some Mk2.slide_rel_type
    /\ (forall key, key <> "ppt/slides/" ++ Path.basename slide_path ->
                    key <> "ppt/slides/_rels/" ++ Path.basename slide_path ++ ".rels" ->
                    s' !! key = s !! key).
Proof.
  intros Hstep Hparse Hfound Htarget Hne.
  pose proof (basename_not_slash slide_path) as Hb.
  assert (Hb' : Py.all not_slash (Path.basename slide_path ++ ".rels") = true).
  { rewrite all_app, Hb. reflexivity. }
  revert Hstep. unfold Mk2.slide_step.
  intros (rel_root0 & s1 & [Hp <-]%mk2_lift_Ok & Hstep)%mk2_bind_Ok.
  assert (rel_root0 = rel_root) as -> by congruence.
  revert Hstep. intros (found & s2 & [Hf <-]%mk2_lift_Ok & Hstep)%mk2_bind_Ok.
  assert (found = rel :: others) as -> by congruence.
  revert Hstep. rewrite Htarget.
  destruct (String.eqb_spec slide_path ""); [contradiction|].
  rewrite (in_dir_slides _ Hb), (in_dir_slides_rels _ Hb').
  intros (u1 & s3 & (c & Hc & ->)%mk2_copy2_Ok
          & (u2 & s4 & Hrels & [<- <-]%mk2_ret_Ok)%mk2_bind_Ok)%mk2_bind_Ok.
  assert (Hdiff : "ppt/slides/_rels/" ++ Path.basename slide_path ++ ".rels"
                  <> "ppt/slides/" ++ Path.basename slide_path).
  { intros E. apply (app_inv_head_str "ppt/slides/") in E.
    rewrite <- E in Hb. discriminate Hb. }
  exists c. eexists. split; [exact Hc|].
  cbn [Mk2.rels_root].
  assert (Hs4 : s4 !! ("ppt/slides/" ++ Path.basename slide_path) = Some c
                /\ forall key, key <> "ppt/slides/" ++ Path.basename slide_path ->
                     key <> "ppt/slides/_rels/" ++ Path.basename slide_path ++ ".rels" ->
                     s4 !! key = s !! key).
  { destruct (exists_ second _).
    - apply mk2_copy2_Ok in Hrels as (c' & _ & ->). split.
      + rewrite lookup_insert_ne by exact Hdiff. apply lookup_insert_eq.
      + intros key H1 H2. rewrite !lookup_insert_ne by congruence. reflexivity.
    - apply mk2_ret_Ok in Hrels as [_ <-]. split.
      + apply lookup_insert_eq.
      + intros key H1 H2. rewrite lookup_insert_ne by congruence. reflexivity. }
  destruct Hs4 as [Hs4 Hother].
  split; [exact Hs4|]. split; [reflexivity|].
  split; [apply get_set_eq|].
  split; [rewrite get_set_ne by discriminate; apply get_set_eq|exact Hother].
Qed.

Lemma mk2_slide_step_skip second ns v u s rel_root :
  parse second (in_dir ["ppt"; "_rels"; "presentation.xml.rels"]) = inr rel_root ->
  ET.get (ET.qname ns "id") u = None ->
  ET.findall_desc (ET.attr_is "Id" "None") rel_root = [] ->
  exists w,
    Mk2.slide_step second ns v u s = Mk2.Ok w s
    /\ Mk2.slide_id_list1 w = Mk2.slide_id_list1 v
    /\ Mk2.rels_root w = Mk2.rels_root v
    /\ Mk2.max_id w = Mk2.max_id v + 1
    /\ Mk2.max_rel_id w = Mk2.max_rel_id v + 1.
Proof.
  intros Hp Hu Hnone. unfold Mk2.slide_step, Mk2.bind. rewrite Hp, Hu.
  unfold Mk2.lift at 1, Mk2.ret at 1. unfold Mk2.findall_id.
  change (Py.contains "'" (Mk2.fmt None)) with false. cbv iota.
  change (Mk2.fmt None) with "None". rewrite Hnone.
  unfold Mk2.lift, Mk2.ret. eexists. split; [reflexivity|]. cbn. auto.
Qed.

(** ** Units [mk2.py] cannot resolve *)

(** [mk2.py] reads the relationship id of a unit under the attribute
    [{ns}id], [ns] being the namespace of the presentation.  When no unit
    carries that attribute and no relationship of the source has the id
    [None], the loop copies nothing and appends nothing; it only advances
    its two counters by the number of units. *)
Theorem mk2_units_without_rid_not_merged second ns units rel_root : forall v v' s s',
  parse second (in_dir ["ppt"; "_rels"; "presentation.xml.rels"]) = inr rel_root ->
  Forall (fun u => ET.get (ET.qname ns "id") u = None) units ->
  ET.findall_desc (ET.attr_is "Id" "None") rel_root = [] ->
  Mk2.slides_loop second ns v units s = Mk2.Ok v' s' ->
  s' = s
  /\ Mk2.slide_id_list1 v' = Mk2.slide_id_list1 v
  /\ Mk2.rels_root v' = Mk2.rels_root v
  /\ Mk2.max_id v' = Mk2.max_id v + Z.of_nat (length units)
  /\ Mk2.max_rel_id v' = Mk2.max_rel_id v + Z.of_nat (length units).
Proof.
  induction units as [|u rest IH]; intros v v' s s' Hparse Hall Hnone;
    cbn [Mk2.slides_loop length].
  - intros [<- <-]%mk2_ret_Ok. rewrite !Z.add_0_r. auto.
  - apply Forall_cons in Hall as [Hu Hrest].
    intros (v1 & s1 & Hstep & Hloop)%mk2_bind_Ok.
    destruct (mk2_slide_step_skip second ns v u s rel_root Hparse Hu Hnone)
      as (w & Hw & Hl & Hr & Hm & Hmr).
    rewrite Hw in Hstep. injection Hstep as <- <-.
    destruct (IH _ _ _ _ Hparse Hrest Hnone Hloop) as (-> & -> & -> & -> & ->).
    repeat split; (congruence || lia).
Qed.

End Mk2More.
Section Mk2Examples.
Import FS Sys.

Lemma mk2_allocated_ids_fresh_witness :
  exists news_s news_r,
    extends (Example.slide_list [Example.mk2_sld "256" "rId2"])
      (Mk2.slide_id_list1 Example.mk2_end_vars) news_s
    /\ extends Example.base_rels (Mk2.rels_root Example.mk2_end_vars) news_r
    /\ (forall new old, In new news_s ->
          In old (ET.findall_desc (ET.tag_is (ET.qname Example.pns "sldId"))
                    (Example.slide_list [Example.mk2_sld "256" "rId2"])) ->
          ET.get "id" new <> ET.get "id" old)
    /\ (forall new old, In new news_r ->
          In old (ET.findall_desc (ET.has_attr "Id") Example.base_rels) ->
          ET.get "Id" new <> ET.get "Id" old).
Proof.
  apply (mk2_allocated_ids_fresh Example.add_pkg Example.pns Example.mk2_units
           (Example.slide_list [Example.mk2_sld "256" "rId2"]) Example.base_rels 256 ∅ ∅
           (ET.qname Example.pns "sldId") Example.mk2_end_vars Example.base_pkg
           Example.mk2_end_base);
    vm_compute; reflexivity.
Defined.

Lemma mk2_copied_unit_resolves_witness :
  exists c new_rel,
    read Example.add_pkg (in_dir ["ppt"; "slides/slide1.xml"]) = inr c
    /\ Example2.mk2_step_base !! ("ppt/slides/" ++ Path.basename "slides/slide1.xml") = Some c
    /\ Mk2.rels_root Example2.mk2_step_vars
       = ET.append new_rel (Mk2.rels_root Example.mk2_vars)
    /\ ET.get "Target" new_rel = Some ("slides/" ++ Path.basename "slides/slide1.xml")
    /\ ET.get "Type" new_rel = Some Mk2.slide_rel_type
    /\ (forall key, key <> "ppt/slides/" ++ Path.basename "slides/slide1.xml" ->
          key <> "ppt/slides/_rels/" ++ Path.basename "slides/slide1.xml" ++ ".rels" ->
          Example2.mk2_step_base !! key = Example.base_pkg !! key).
Proof.
  apply (mk2_copied_unit_resolves Example.add_pkg Example.pns Example.mk2_vars
           (Example.mk2_sld "301" "rId2") Example2.mk2_step_vars Example.base_pkg
           Example2.mk2_step_base Example.add_rels
           (Example.rel "rId2" Example.slide_type "slides/slide1.xml") []
           "slides/slide1.xml").
  - vm_compute. reflexivity.
  - vm_compute. reflexivity.
  - vm_compute. reflexivity.
  - vm_compute. reflexivity.
  - discriminate.
Defined.

Lemma mk2_units_without_rid_not_merged_witness :
  Example.base_pkg = Example.base_pkg
  /\ Mk2.slide_id_list1 Example2.mk2_skip_vars = Mk2.slide_id_list1 Example.mk2_vars
  /\ Mk2.rels_root Example2.mk2_skip_vars = Mk2.rels_root Example.mk2_vars
  /\ Mk2.max_id Example2.mk2_skip_vars
     = Mk2.max_id Example.mk2_vars
       + Z.of_nat (length [Example2.std_sld "256" "rId2"; Example2.std_sld "258" "rId3"])
  /\ Mk2.max_rel_id Example2.mk2_skip_vars
     = Mk2.max_rel_id Example.mk2_vars
       + Z.of_nat (length [Example2.std_sld "256" "rId2"; Example2.std_sld "258" "rId3"]).
Proof.
  apply (mk2_units_without_rid_not_merged Example.add_pkg Example.pns
           [Example2.std_sld "256" "rId2"; Example2.std_sld "258" "rId3"] Example.add_rels
           Example.mk2_vars Example2.mk2_skip_vars Example.base_pkg Example.base_pkg).
  - vm_compute. reflexivity.
  - vm_compute. repeat constructor.
  - vm_compute. reflexivity.
  - vm_compute. reflexivity.
Defined.

End Mk2Examples.

(* ===================================================================== *)
(** * mk3.py: the two loops over the documents *)
(* ===================================================================== *)

Section Mk3Facts.

Lemma mk3_bind_Ok {A B} (m : Mk3.M A) (f : A -> Mk3.M B) out b out' :
  Mk3.bind m f out = Mk3.Ok b out'
  <-> exists a out1, m out = Mk3.Ok a out1 /\ f a out1 = Mk3.Ok b out'.
Proof.
  unfold Mk3.bind. destruct (m out) as [a out1|e out1]; split.
  - intros H. exists a, out1. split; [reflexivity|exact H].
  - intros (a' & out1' & E & H). injection E as <- <-. exact H.
  - discriminate.
  - intros (a' & out1' & E & _). discriminate.
Qed.

Lemma mk3_ret_Ok {A} (a b : A) out out' :
  Mk3.ret a out = Mk3.Ok b out' <-> a = b /\ out = out'.
Proof. unfold Mk3.ret. split; [intros H; injection H; auto|intros [-> ->]; reflexivity]. Qed.

Lemma mk3_lift_Ok {A} (r : FS.exn + A) a out out' :
  Mk3.lift r out = Mk3.Ok a out' <-> r = inr a /\ out = out'.
Proof.
  destruct r as [e|x]; cbn; split.
  - discriminate.
  - intros [[=] _].
  - intros [= <- <-]. auto.
  - intros [[= <-] <-]. reflexivity.
Qed.

Lemma mk3_print_Ok l u out out' : Mk3.print l out = Mk3.Ok u out' <-> out' = (out ++ [l])%list.
Proof.
  unfold Mk3.print. split; [intros [= H]; auto|intros ->; destruct u; reflexivity].
Qed.

(** One iteration of step 3. *)
Lemma mk3_slide_step_inv ns rels_root2 v u v' out out' :
  Mk3.slide_step ns rels_root2 v u out = Mk3.Ok v' out' ->
  Mk3.max_id v' = Mk3.max_id v + 1
  /\ Mk3.max_rel_id v' = Mk3.max_rel_id v + 1
  /\ match mk3_unit_target rels_root2 u with
     | None =>
         out' = (out ++ [Mk3.NoRelationshipFor (ET.get "id" u)])%list
         /\ Mk3.slide_id_list1 v' = Mk3.slide_id_list1 v
         /\ Mk3.rels_root1 v' = Mk3.rels_root1 v
     | Some t =>
         out' = out
         /\ exists new_slide new_rel,
              Mk3.slide_id_list1 v' = ET.append new_slide (Mk3.slide_id_list1 v)
              /\ Mk3.rels_root1 v' = ET.append new_rel (Mk3.rels_root1 v)
              /\ ET.get "id" new_slide = Some (Py.str (Mk3.max_id v + 1))
              /\ ET.get (ET.qname Mk3.rel_ns "id") new_slide
                 = Some ("rId" ++ Py.str (Mk3.max_rel_id v + 1))
              /\ ET.get "Id" new_rel = Some ("rId" ++ Py.str (Mk3.max_rel_id v + 1))
              /\ ET.get "Type" new_rel = Some Mk3.slide_rel_type
              /\ ET.get "Target" new_rel = Some t
     end.
Proof.
  unfold Mk3.slide_step, mk3_unit_target. cbv zeta.
  intros (found & out1 & [Hf <-]%mk3_lift_Ok & H)%mk3_bind_Ok. rewrite Hf.
  assert (Hskip : forall w o,
            Mk3.bind (Mk3.print (Mk3.NoRelationshipFor (ET.get "id" u)))
              (fun _ => Mk3.ret w) out = Mk3.Ok v' o ->
            v' = w /\ o = (out ++ [Mk3.NoRelationshipFor (ET.get "id" u)])%list).
  { intros w o (u0 & o1 & ->%mk3_print_Ok & [<- <-]%mk3_ret_Ok)%mk3_bind_Ok. auto. }
  destruct found as [|rel others].
  { apply Hskip in H as [-> ->]. cbn. auto. }
  destruct (ET.get "Target" rel) as [t|].
  2:{ apply Hskip in H as [-> ->]. cbn. auto. }
  destruct (String.eqb t "").
  { apply Hskip in H as [-> ->]. cbn. auto. }
  apply mk3_ret_Ok in H as [<- <-]. cbn [Mk3.max_id Mk3.max_rel_id Mk3.slide_id_list1
                                          Mk3.rels_root1].
  split; [reflexivity|]. split; [reflexivity|]. split; [reflexivity|].
  eexists _, _. split; [reflexivity|]. split; [reflexivity|].
  split; [rewrite get_set_ne by (apply qname_ne_plain; reflexivity); apply get_set_eq|].
  split; [apply get_set_eq|].
  split; [rewrite !get_set_ne by discriminate; apply get_set_eq|].
  split; [rewrite get_set_ne by discriminate; apply get_set_eq|apply get_set_eq].
Qed.

(** ** Step 3: every unit is added or reported *)

(** The loop of [mk3.py] over the units of the second presentation gives
    each unit the next slide id and the next relationship number.  For a
    unit whose relationship it finds, it appends an entry and a
    relationship whose target is the source's, spelled as it is there; for
    any other unit it prints one line with the unit's id.  Nothing else is
    printed. *)
Theorem mk3_units_added_or_reported ns rels_root2 units : forall v v' out out',
  Mk3.slides_loop ns rels_root2 v units out = Mk3.Ok v' out' ->
  Mk3.max_id v' = Mk3.max_id v + Z.of_nat (length units)
  /\ Mk3.max_rel_id v' = Mk3.max_rel_id v + Z.of_nat (length units)
  /\ out' = (out ++ map (fun u => Mk3.NoRelationshipFor (ET.get "id" u))
                      (List.filter (fun u => negb (mk3_resolves rels_root2 u)) units))%list
  /\ exists news_s news_r,
       extends (Mk3.slide_id_list1 v) (Mk3.slide_id_list1 v') news_s
       /\ extends (Mk3.rels_root1 v) (Mk3.rels_root1 v') news_r
       /\ length news_s = length news_r
       /\ map (ET.get "Target") news_r = map Some (omap (mk3_unit_target rels_root2) units)
       /\ Forall (fun e => ET.get "Type" e = Some Mk3.slide_rel_type) news_r.
Proof.
  induction units as [|u rest IH]; intros v v' out out'; cbn [Mk3.slides_loop length].
  - intros [<- <-]%mk3_ret_Ok. rewrite !Z.add_0_r. cbn [List.filter map].
    rewrite app_nil_r. split; [reflexivity|]. split; [reflexivity|]. split; [reflexivity|].
    exists [], []. split; [apply extends_refl|]. split; [apply extends_refl|].
    split; [reflexivity|]. split; [reflexivity|constructor].
  - intros (v1 & out1 & Hstep & Hloop)%mk3_bind_Ok.
    apply mk3_slide_step_inv in Hstep as (Hm1 & Hr1 & Hcase).
    destruct (IH _ _ _ _ Hloop)
      as (Hm & Hr & Hout & news_s & news_r & Hes & Her & Hlen & Htg & Hty).
    split; [lia|]. split; [lia|].
    cbn [List.filter]. rewrite omap_cons_match. unfold mk3_resolves at 1.
    destruct (mk3_unit_target rels_root2 u) as [t|].
    + destruct Hcase as (-> & new_slide & new_rel & El & Er & _ & _ & _ & Hnty & Hnt).
      cbn [negb]. split; [exact Hout|].
      rewrite El in Hes. rewrite Er in Her.
      exists (new_slide :: news_s), (new_rel :: news_r).
      split; [apply extends_append_then, Hes|]. split; [apply extends_append_then, Her|].
      split; [cbn [length]; lia|]. split; [cbn [map]; rewrite Hnt, Htg; reflexivity|].
      constructor; [exact Hnty|exact Hty].
    + destruct Hcase as (-> & El & Er). cbn [negb map].
      split; [rewrite Hout, <- app_assoc; reflexivity|].
      rewrite El in Hes. rewrite Er in Her. exists news_s, news_r. auto.
Qed.

(** ** Step 4: the other relationships *)

Lemma findall_desc_append_leaf p n e :
  ET.children n = [] ->
  ET.findall_desc p (ET.append n e)
  = (ET.findall_desc p e ++ (if p n then [n] else []))%list.
Proof.
  intros Hn. unfold ET.findall_desc, ET.descendants.
  rewrite children_append, flat_map_app, List.filter_app. f_equal.
  cbn [flat_map]. rewrite iter_unfold, Hn. cbn [flat_map List.app List.filter].
  destruct (p n); reflexivity.
Qed.

Lemma target_exists_spec rels_root1 target rel_type :
  Mk3.target_exists rels_root1 target rel_type = true
  <-> exists e, In e (ET.findall_desc (ET.has_attr "Target") rels_root1)
                /\ rel_key e = (rel_type, target).
Proof.
  unfold Mk3.target_exists, rel_key. rewrite existsb_exists. split.
  - intros (e & He & [H1 H2]%andb_prop). apply bool_decide_eq_true in H1, H2.
    exists e. split; [exact He|]. congruence.
  - intros (e & He & [= H1 H2]). exists e. split; [exact He|].
    rewrite !bool_decide_eq_true_2 by assumption. reflexivity.
Qed.

(** One iteration of step 4 that does not end the run. *)
Lemma mk3_rel_step_inv v rel v' out out' :
  Mk3.rel_step v rel out = Mk3.Ok v' out' ->
  out' = out
  /\ Mk3.slide_id_list1 v' = Mk3.slide_id_list1 v
  /\ Mk3.max_id v' = Mk3.max_id v
  /\ ((v' = v
       /\ (ET.get "Type" rel = Some Mk3.slide_rel_type
           \/ Mk3.target_exists (Mk3.rels_root1 v) (ET.get "Target" rel) (ET.get "Type" rel)
              = true))
      \/ (ET.get "Type" rel <> Some Mk3.slide_rel_type
          /\ Mk3.target_exists (Mk3.rels_root1 v) (ET.get "Target" rel) (ET.get "Type" rel)
             = false
          /\ Mk3.max_rel_id v' = Mk3.max_rel_id v + 1
          /\ exists new_rel,
               Mk3.rels_root1 v' = ET.append new_rel (Mk3.rels_root1 v)
               /\ ET.children new_rel = []
               /\ ET.has_attr "Target" new_rel = true
               /\ rel_key new_rel = rel_key rel
               /\ ET.get "Id" new_rel = Some ("rId" ++ Py.str (Mk3.max_rel_id v + 1)))).
Proof.
  unfold Mk3.rel_step. cbv zeta.
  destruct (bool_decide (ET.get "Type" rel = Some Mk3.slide_rel_type)) eqn:Es.
  { apply bool_decide_eq_true in Es. intros [<- <-]%mk3_ret_Ok. auto 10. }
  apply bool_decide_eq_false in Es.
  destruct (Mk3.target_exists _ _ _) eqn:Ex.
  { intros [<- <-]%mk3_ret_Ok. auto 10. }
  destruct (ET.get "Type" rel) as [ty|] eqn:Ety; [|discriminate].
  destruct (ET.get "Target" rel) as [t|] eqn:Et; [|discriminate].
  intros [<- <-]%mk3_ret_Ok.
  cbn [Mk3.slide_id_list1 Mk3.max_id Mk3.max_rel_id Mk3.rels_root1].
  split; [reflexivity|]. split; [reflexivity|]. split; [reflexivity|]. right.
  split; [exact Es|]. split; [reflexivity|]. split; [reflexivity|].
  eexists. split; [reflexivity|]. unfold rel_key, ET.has_attr. rewrite Ety, Et.
  destruct (bool_decide (ET.get "TargetMode" rel = Some "External"));
    repeat first [rewrite get_set_eq | rewrite get_set_ne by discriminate
                 | rewrite children_set];
    auto.
Qed.

(** The loop of [mk3.py] over the relationships of the second
    presentation, when it does not end the run: it prints nothing and
    leaves the slide list alone; every relationship of the source that is
    not a slide relationship has, in the merged document, a relationship
    with its type and its target; each relationship appended has the type
    and the target of a source relationship that the document did not have
    before the loop, no two appended relationships have the same type and
    target, and their ids are the numbers that follow the counter. *)
Theorem mk3_other_relationships_merged rels : forall v v' out out',
  Mk3.rels_loop v rels out = Mk3.Ok v' out' ->
  out' = out
  /\ Mk3.slide_id_list1 v' = Mk3.slide_id_list1 v
  /\ exists news,
       extends (Mk3.rels_root1 v) (Mk3.rels_root1 v') news
       /\ Mk3.max_rel_id v' = Mk3.max_rel_id v + Z.of_nat (length news)
       /\ map (ET.get "Id") news
          = map (fun i : nat => Some ("rId" ++ Py.str (Mk3.max_rel_id v + Z.of_nat i)))
                (seq 1 (length news))
       /\ (forall rel, In rel rels -> ET.get "Type" rel <> Some Mk3.slide_rel_type ->
              exists e, In e (ET.findall_desc (ET.has_attr "Target") (Mk3.rels_root1 v'))
                        /\ rel_key e = rel_key rel)
       /\ (forall new, In new news ->
              (exists rel, In rel rels /\ rel_key new = rel_key rel
                           /\ ET.get "Type" rel <> Some Mk3.slide_rel_type)
              /\ forall e, In e (ET.findall_desc (ET.has_attr "Target") (Mk3.rels_root1 v)) ->
                           rel_key e <> rel_key new)
       /\ List.NoDup (map rel_key news).
Proof.
  induction rels as [|rel rest IH]; intros v v' out out'; cbn [Mk3.rels_loop].
  - intros [<- <-]%mk3_ret_Ok. split; [reflexivity|]. split; [reflexivity|].
    exists []. split; [apply extends_refl|]. cbn [length map seq].
    split; [lia|]. split; [reflexivity|]. split; [intros r []|].
    split; [intros n []|constructor].
  - intros (v1 & out1 & Hstep & Hloop)%mk3_bind_Ok.
    apply mk3_rel_step_inv in Hstep as (-> & Hl1 & _ & Hcase).
    destruct (IH _ _ _ _ Hloop)
      as (-> & Hl & news & Hext & Hmax & Hids & Hall & Hnew & Hnd).
    split; [reflexivity|]. split; [congruence|].
    destruct Hcase as [[-> Hskip]|(Hns & Hex & Hm1 & new_rel & Er & Hleaf & Hhas & Hkey & Hid)].
    + exists news. split; [exact Hext|]. split; [exact Hmax|]. split; [exact Hids|].
      split; [|split; [|exact Hnd]].
      * intros r [<-|Hr] Hty; [|exact (Hall r Hr Hty)].
        destruct Hskip as [Hs|Hs]; [contradiction|].
        apply target_exists_spec in Hs as (e & He & Hk). exists e.
        split; [eapply in_findall_extends_old; [exact Hext|exact He]|exact Hk].
      * intros n Hn. destruct (Hnew n Hn) as [(r & Hr & Hk & Hty) Hfresh].
        split; [exists r; split; [right; exact Hr|auto]|exact Hfresh].
    + rewrite Er in Hext, Hnew.
      assert (Hfind : forall e,
                In e (ET.findall_desc (ET.has_attr "Target")
                        (ET.append new_rel (Mk3.rels_root1 v)))
                <-> In e (ET.findall_desc (ET.has_attr "Target") (Mk3.rels_root1 v))
                    \/ e = new_rel).
      { intros e. rewrite (findall_desc_append_leaf _ _ _ Hleaf), Hhas, in_app_iff.
        cbn [In]. intuition. }
      exists (new_rel :: news). split; [apply extends_append_then, Hext|].
      cbn [length]. split; [lia|]. split.
      { cbn [map seq]. rewrite Hid, Hids. f_equal.
        rewrite <- (seq_shift (length news) 1), map_map. apply map_ext. intros i. rewrite Hm1.
        replace (Mk3.max_rel_id v + 1 + Z.of_nat i)
          with (Mk3.max_rel_id v + Z.of_nat (S i)) by lia.
        reflexivity. }
      split; [|split].
      * intros r [<-|Hr] Hty; [|exact (Hall r Hr Hty)].
        exists new_rel. split; [|exact Hkey].
        eapply in_findall_extends_old; [exact Hext|]. apply Hfind. right. reflexivity.
      * intros n [<-|Hn].
        -- split; [exists rel; split; [left; reflexivity|auto]|].
           intros e He Hk. rewrite Hkey in Hk.
           assert (Hyes : Mk3.target_exists (Mk3.rels_root1 v) (ET.get "Target" rel)
                            (ET.get "Type" rel) = true).
           { apply target_exists_spec. exists e. split; [exact He|exact Hk]. }
           congruence.
        -- destruct (Hnew n Hn) as [(r & Hr & Hk & Hty) Hfresh].
           split; [exists r; split; [right; exact Hr|auto]|].
           intros e He. apply Hfresh, Hfind. left. exact He.
      * cbn [map]. constructor; [|exact Hnd].
        intros (n & Hk & Hn)%in_map_iff.
        destruct (Hnew n Hn) as [_ Hfresh].
        apply (Hfresh new_rel); [apply Hfind; right; reflexivity|]. congruence.
Qed.

End Mk3Facts.
Section Mk3Examples.

Lemma mk3_units_added_or_reported_witness :
  Mk3.max_id Example2.mk3_vars3
  = Mk3.max_id Example2.mk3_vars + Z.of_nat (length Example2.mk3_units)
  /\ Mk3.max_rel_id Example2.mk3_vars3
     = Mk3.max_rel_id Example2.mk3_vars + Z.of_nat (length Example2.mk3_units)
  /\ Example2.mk3_out3
     = ([] ++ map (fun u => Mk3.NoRelationshipFor (ET.get "id" u))
                (List.filter (fun u => negb (mk3_resolves Example2.mk3_rels2 u))
                   Example2.mk3_units))%list
  /\ exists news_s news_r,
       extends (Mk3.slide_id_list1 Example2.mk3_vars)
         (Mk3.slide_id_list1 Example2.mk3_vars3) news_s
       /\ extends (Mk3.rels_root1 Example2.mk3_vars)
            (Mk3.rels_root1 Example2.mk3_vars3) news_r
       /\ length news_s = length news_r
       /\ map (ET.get "Target") news_r
          = map Some (omap (mk3_unit_target Example2.mk3_rels2) Example2.mk3_units)
       /\ Forall (fun e => ET.get "Type" e = Some Mk3.slide_rel_type) news_r.
Proof.
  apply (mk3_units_added_or_reported Example.pns Example2.mk3_rels2 Example2.mk3_units
           Example2.mk3_vars Example2.mk3_vars3 [] Example2.mk3_out3).
  vm_compute. reflexivity.
Defined.

Lemma mk3_other_relationships_merged_witness :
  Example2.mk3_out3 = Example2.mk3_out3
  /\ Mk3.slide_id_list1 Example2.mk3_vars4 = Mk3.slide_id_list1 Example2.mk3_vars3
  /\ exists news,
       extends (Mk3.rels_root1 Example2.mk3_vars3) (Mk3.rels_root1 Example2.mk3_vars4) news
       /\ Mk3.max_rel_id Example2.mk3_vars4
          = Mk3.max_rel_id Example2.mk3_vars3 + Z.of_nat (length news)
       /\ map (ET.get "Id") news
          = map (fun i : nat =>
                   Some ("rId" ++ Py.str (Mk3.max_rel_id Example2.mk3_vars3 + Z.of_nat i)))
                (seq 1 (length news))
       /\ (forall rel,
              In rel (ET.findall_desc (ET.has_attr "Id") Example2.mk3_rels2) ->
              ET.get "Type" rel <> Some Mk3.slide_rel_type ->
              exists e, In e (ET.findall_desc (ET.has_attr "Target")
                                (Mk3.rels_root1 Example2.mk3_vars4))
                        /\ rel_key e = rel_key rel)
       /\ (forall new, In new news ->
              (exists rel,
                  In rel (ET.findall_desc (ET.has_attr "Id") Example2.mk3_rels2)
                  /\ rel_key new = rel_key rel
                  /\ ET.get "Type" rel <> Some Mk3.slide_rel_type)
              /\ forall e, In e (ET.findall_desc (ET.has_attr "Target")
                                   (Mk3.rels_root1 Example2.mk3_vars3)) ->
                           rel_key e <> rel_key new)
       /\ List.NoDup (map rel_key news).
Proof.
  apply (mk3_other_relationships_merged
           (ET.findall_desc (ET.has_attr "Id") Example2.mk3_rels2)
           Example2.mk3_vars3 Example2.mk3_vars4 Example2.mk3_out3 Example2.mk3_out3).
  vm_compute. reflexivity.
Defined.

End Mk3Examples.

(* ===================================================================== *)
(** * mk3.py: the documents it writes *)
(* ===================================================================== *)

Section Mk3Documents.

(** The ids step 3 hands out: a unit that is passed over keeps its
    numbers. *)
Lemma mk3_slides_loop_ids ns rels_root2 units : forall v v' out out',
  Mk3.slides_loop ns rels_root2 v units out = Mk3.Ok v' out' ->
  exists (ks : list nat) news_s news_r,
    StronglySorted lt ks
    /\ Forall (fun i => (1 <= i <= length units)%nat) ks
    /\ extends (Mk3.slide_id_list1 v) (Mk3.slide_id_list1 v') news_s
    /\ extends (Mk3.rels_root1 v) (Mk3.rels_root1 v') news_r
    /\ map (ET.get "id") news_s
       = map (fun k => Some (Py.str k)) (ids_from (Mk3.max_id v) ks)
    /\ map (ET.get "Id") news_r
       = map (fun k => Some ("rId" ++ Py.str k)) (ids_from (Mk3.max_rel_id v) ks)
    /\ Mk3.max_rel_id v' = Mk3.max_rel_id v + Z.of_nat (length units).
Proof.
  induction units as [|u rest IH]; intros v v' out out'; cbn [Mk3.slides_loop length].
  - intros [<- <-]%mk3_ret_Ok. exists [], [], [].
    split; [constructor|]. split; [constructor|].
    split; [apply extends_refl|]. split; [apply extends_refl|].
    split; [reflexivity|]. split; [reflexivity|lia].
  - intros (v1 & out1 & Hstep & Hloop)%mk3_bind_Ok.
    apply mk3_slide_step_inv in Hstep as (Hm1 & Hr1 & Hcase).
    destruct (IH _ _ _ _ Hloop)
      as (ks & news_s & news_r & Hs & Hb & Hes & Her & Hsi & Hri & Hmax).
    assert (Hshift : forall m l, ids_from (m + 1) l = ids_from m (map S l)).
    { intros m l. unfold ids_from. rewrite map_map. apply map_ext. intros i. lia. }
    rewrite Hm1, Hshift in Hsi. rewrite Hr1, Hshift in Hri.
    assert (Hb' : Forall (fun i => (1 <= i <= S (length rest))%nat) (map S ks)).
    { apply List.Forall_forall. intros x (y & <- & Hy)%in_map_iff.
      pose proof (proj1 (List.Forall_forall _ _) Hb y Hy). simpl in *. lia. }
    destruct (mk3_unit_target rels_root2 u) as [t|].
    + destruct Hcase as (_ & new_slide & new_rel & El & Er & Hid & _ & Hrid & _).
      rewrite El in Hes. rewrite Er in Her.
      exists (1%nat :: map S ks), (new_slide :: news_s), (new_rel :: news_r).
      split.
      { constructor; [apply sorted_shift, Hs|].
        apply List.Forall_forall. intros x (y & <- & Hy)%in_map_iff.
        pose proof (proj1 (List.Forall_forall _ _) Hb y Hy). simpl in *. lia. }
      split; [constructor; [lia|exact Hb']|].
      split; [apply extends_append_then, Hes|]. split; [apply extends_append_then, Her|].
      unfold ids_from in *. cbn [map]. rewrite Hid, Hrid, Hsi, Hri.
      split; [reflexivity|]. split; [reflexivity|lia].
    + destruct Hcase as (_ & El & Er). rewrite El in Hes. rewrite Er in Her.
      exists (map S ks), news_s, news_r.
      split; [apply sorted_shift, Hs|]. split; [exact Hb'|]. split; [exact Hes|].
      split; [exact Her|]. split; [exact Hsi|]. split; [exact Hri|lia].
Qed.

(** The ids step 4 hands out. *)
Lemma mk3_rels_loop_ids rels : forall v v' out out',
  Mk3.rels_loop v rels out = Mk3.Ok v' out' ->
  Mk3.slide_id_list1 v' = Mk3.slide_id_list1 v
  /\ exists news,
       extends (Mk3.rels_root1 v) (Mk3.rels_root1 v') news
       /\ map (ET.get "Id") news
          = map (fun k => Some ("rId" ++ Py.str k))
                (ids_from (Mk3.max_rel_id v) (seq 1 (length news))).
Proof.
  induction rels as [|rel rest IH]; intros v v' out out'; cbn [Mk3.rels_loop].
  - intros [<- <-]%mk3_ret_Ok. split; [reflexivity|]. exists [].
    split; [apply extends_refl|reflexivity].
  - intros (v1 & out1 & Hstep & Hloop)%mk3_bind_Ok.
    apply mk3_rel_step_inv in Hstep as (_ & Hl1 & _ & Hcase).
    destruct (IH _ _ _ _ Hloop) as (Hl & news & Hext & Hids).
    split; [congruence|].
    destruct Hcase as [[-> _]|(_ & _ & Hm1 & new_rel & Er & _ & _ & _ & Hid)].
    + exists news. auto.
    + rewrite Er in Hext. exists (new_rel :: news).
      split; [apply extends_append_then, Hext|].
      cbn [length seq]. unfold ids_from in *. cbn [map]. rewrite Hid, Hids. f_equal.
      rewrite <- (seq_shift (length news) 1), !map_map. apply map_ext. intros i.
      rewrite Hm1. do 3 f_equal. lia.
Qed.

Lemma sorted_app_lt (l1 l2 : list Z) (b : Z) :
  StronglySorted Z.lt l1 -> StronglySorted Z.lt l2 ->
  Forall (fun x => x <= b) l1 -> Forall (fun y => b < y) l2 ->
  StronglySorted Z.lt (l1 ++ l2).
Proof.
  intros H1 H2 Hl1 Hl2. induction H1 as [|x l1 Hs IH Hall]; [exact H2|].
  apply Forall_cons in Hl1 as [Hx Hl1]. cbn [List.app]. constructor; [apply IH, Hl1|].
  apply Forall_app. split; [exact Hall|].
  apply List.Forall_forall. intros y Hy.
  pose proof (proj1 (List.Forall_forall _ _) Hl2 y Hy). simpl in *. lia.
Qed.

(** ** The documents of a merge by [mk3.py] *)

(** When [mk3.py] gets through the documents, the slide list it writes is
    the first presentation's with entries appended, and the relationship
    document is the first one's with relationships appended.  The ids of
    the appended entries are pairwise distinct and none is the id of a
    slide of the list; the ids of the appended relationships, those of the
    slides and those of the other relationships together, are pairwise
    distinct and none is the id of a relationship of the first document.
    The content-type document is the first one's with elements
    appended. *)
Theorem mk3_documents_written root1 root2 rels1 rels_root2 ct_root1 ct_root2 out
    root1' rels1' ct1' out' :
  Mk3.merge_documents root1 root2 rels1 rels_root2 ct_root1 ct_root2 out
  = Mk3.Ok (root1', rels1', ct1') out' ->
  (exists lst_tag sld_tag list1 list1' news_s,
      Mk2.p_tag (ET.brace_group (ET.tag root1)) "sldIdLst" = inr lst_tag
      /\ Mk2.p_tag (ET.brace_group (ET.tag root1)) "sldId" = inr sld_tag
      /\ ET.find_desc (ET.tag_is lst_tag) root1 = Some list1
      /\ ET.find_desc (ET.tag_is lst_tag) root1' = Some list1'
      /\ extends list1 list1' news_s
      /\ List.NoDup (map (ET.get "id") news_s)
      /\ forall new old, In new news_s ->
           In old (ET.findall_child (ET.tag_is sld_tag) list1) ->
           ET.get "id" new <> ET.get "id" old)
  /\ (exists news_r,
        extends rels1 rels1' news_r
        /\ List.NoDup (map (ET.get "Id") news_r)
        /\ forall new old, In new news_r ->
             In old (ET.findall_desc (ET.has_attr "Id") rels1) ->
             ET.get "Id" new <> ET.get "Id" old)
  /\ (exists extra, extends ct_root1 ct1' extra).
Proof.
  unfold Mk3.merge_documents.
  intros (lst_tag & o1 & [Hlt <-]%mk3_lift_Ok & H)%mk3_bind_Ok.
  revert H. intros (sld_tag & o2 & [Hst <-]%mk3_lift_Ok & H)%mk3_bind_Ok.
  destruct (ET.find_desc (ET.tag_is lst_tag) root1) as [list1|] eqn:E1.
  2:{ apply mk3_bind_Ok in H as (u1 & o3 & _ & (u2 & o4 & _ & [=])%mk3_bind_Ok). }
  destruct (ET.find_desc (ET.tag_is lst_tag) root2) as [list2|] eqn:E2.
  2:{ apply mk3_bind_Ok in H as (u1 & o3 & _ & (u2 & o4 & _ & [=])%mk3_bind_Ok). }
  revert H. intros (seed_id & o3 & [Hseed <-]%mk3_lift_Ok & H)%mk3_bind_Ok.
  revert H. intros (v & o4 & Hloop3 & H)%mk3_bind_Ok.
  revert H. intros (v' & o5 & Hloop4 & [[= <- <- <-] <-]%mk3_ret_Ok)%mk3_bind_Ok.
  destruct (mk3_slides_loop_ids _ _ _ _ _ _ _ Hloop3)
    as (ks & news_s & news_r & Hs & Hb & Hes & Her & Hsi & Hri & Hmr).
  destruct (mk3_rels_loop_ids _ _ _ _ _ Hloop4) as (Hl4 & news4 & Hext4 & Hids4).
  cbn [Mk3.slide_id_list1 Mk3.rels_root1 Mk3.max_id Mk3.max_rel_id] in *.
  set (r := Mk2.highest_rel_id 0 (ET.findall_desc (ET.has_attr "Id") rels1)) in *.
  set (units := ET.findall_child (ET.tag_is sld_tag) list2) in *.
  split; [|split].
  - destruct (replace_first_found (ET.tag_is lst_tag) (fun t a cs cs' => eq_refl)
                (Mk3.slide_id_list1 v') root1 list1) as (e' & He' & Hf' & _).
    { destruct Hes as (Ht & _). rewrite Hl4. unfold ET.tag_is. rewrite Ht.
      apply find_desc_true in E1. exact E1. }
    { exact E1. }
    rewrite He'. cbn [default].
    exists lst_tag, sld_tag, list1, (Mk3.slide_id_list1 v'), news_s.
    split; [exact Hlt|]. split; [exact Hst|].
    split; [exact E1|]. split; [exact Hf'|]. split; [rewrite Hl4; exact Hes|].
    pose proof (sorted_ids_from seed_id ks Hs) as Hsorted.
    split.
    + rewrite Hsi. apply (sorted_nodup Py.str); [apply str_inj|exact Hsorted].
    + intros new old Hnew Hold E.
      assert (Hn : In (ET.get "id" new) (map (ET.get "id") news_s)) by (apply in_map, Hnew).
      rewrite Hsi in Hn. apply in_map_iff in Hn as (k & Ek & Hk).
      apply in_map_iff in Hk as (i & <- & Hi). rewrite E in Ek.
      destruct (highest_slide_id_ge _ _ _ Hseed) as [_ Hall].
      pose proof (Hall old _ Hold (eq_sym Ek)) as Hle.
      pose proof (proj1 (List.Forall_forall _ _) Hb i Hi) as Hi1. simpl in Hi1. lia.
  - exists (news_r ++ news4)%list.
    split; [exact (extends_trans _ _ _ _ _ Her Hext4)|].
    assert (Hall_ids : map (ET.get "Id") (news_r ++ news4)
                       = map (fun k => Some ("rId" ++ Py.str k))
                             (ids_from r ks
                              ++ ids_from (r + Z.of_nat (length units))
                                   (seq 1 (length news4)))).
    { rewrite !map_app, Hri, Hids4, Hmr. reflexivity. }
    assert (Hsorted : StronglySorted Z.lt
                        (ids_from r ks
                         ++ ids_from (r + Z.of_nat (length units)) (seq 1 (length news4)))).
    { apply (sorted_app_lt _ _ (r + Z.of_nat (length units))).
      - apply sorted_ids_from, Hs.
      - apply sorted_ids_from, sorted_seq.
      - apply List.Forall_forall. intros x (i & <- & Hi)%in_map_iff.
        pose proof (proj1 (List.Forall_forall _ _) Hb i Hi) as Hi1. simpl in Hi1. lia.
      - apply List.Forall_forall. intros x (i & <- & Hi%in_seq)%in_map_iff. lia. }
    split.
    + rewrite Hall_ids.
      apply (sorted_nodup (fun k => "rId" ++ Py.str k)); [apply rid_inj|exact Hsorted].
    + intros new old Hnew Hold E.
      assert (Hn : In (ET.get "Id" new) (map (ET.get "Id") (news_r ++ news4)))
        by (apply in_map, Hnew).
      rewrite Hall_ids in Hn. apply in_map_iff in Hn as (k & Ek & Hk). rewrite E in Ek.
      destruct (highest_rel_id_ge (ET.findall_desc (ET.has_attr "Id") rels1) 0) as [_ Hall].
      pose proof (Hall old _ Hold (eq_sym Ek)) as Hle. fold r in Hle.
      apply in_app_or in Hk as [(i & <- & Hi)%in_map_iff|(i & <- & Hi%in_seq)%in_map_iff].
      * pose proof (proj1 (List.Forall_forall _ _) Hb i Hi) as Hi1. simpl in Hi1. lia.
      * lia.
  - destruct (mk2_merge_content_types_keeps ct_root1 ct_root2) as (extra & Hext & _).
    exists extra. exact Hext.
Qed.

End Mk3Documents.
Section Mk3DocumentExamples.

Lemma mk3_documents_written_witness :
  (exists lst_tag sld_tag list1 list1' news_s,
      Mk2.p_tag (ET.brace_group (ET.tag Example2.mk3_root1)) "sldIdLst" = inr lst_tag
      /\ Mk2.p_tag (ET.brace_group (ET.tag Example2.mk3_root1)) "sldId" = inr sld_tag
      /\ ET.find_desc (ET.tag_is lst_tag) Example2.mk3_root1 = Some list1
      /\ ET.find_desc (ET.tag_is lst_tag) (fst (fst Example2.mk3_written)) = Some list1'
      /\ extends list1 list1' news_s
      /\ List.NoDup (map (ET.get "id") news_s)
      /\ forall new old, In new news_s ->
           In old (ET.findall_child (ET.tag_is sld_tag) list1) ->
           ET.get "id" new <> ET.get "id" old)
  /\ (exists news_r,
        extends Example.base_rels (snd (fst Example2.mk3_written)) news_r
        /\ List.NoDup (map (ET.get "Id") news_r)
        /\ forall new old, In new news_r ->
             In old (ET.findall_desc (ET.has_attr "Id") Example.base_rels) ->
             ET.get "Id" new <> ET.get "Id" old)
  /\ (exists extra, extends Example.base_types (snd Example2.mk3_written) extra).
Proof.
  apply (mk3_documents_written Example2.mk3_root1 Example2.mk3_root2 Example.base_rels
           Example2.mk3_rels2 Example.base_types Example.add_types []
           (fst (fst Example2.mk3_written)) (snd (fst Example2.mk3_written))
           (snd Example2.mk3_written) [Mk3.NoRelationshipFor (Some "301")]).
  vm_compute. reflexivity.
Defined.

End Mk3DocumentExamples.

(* ===================================================================== *)
(** * [get_namespace] and the slide list of the target *)
(* ===================================================================== *)

Section Namespace.
Import FS Sys CopyElementsMethod.

Lemma first_line_app a b :
  Py.all (fun c => negb (Ascii.eqb c "010")) a = true ->
  ET.first_line (a ++ b) = a ++ ET.first_line b.
Proof.
  induction a as [|c a IH]; [reflexivity|]. cbn [Py.all String.append ET.first_line].
  intros [Hc Ha]%andb_prop. apply negb_true_iff in Hc. rewrite Hc, (IH Ha). reflexivity.
Qed.

Lemma first_line_all p s : Py.all p s = true -> Py.all p (ET.first_line s) = true.
Proof.
  induction s as [|c s IH]; [reflexivity|]. cbn [Py.all ET.first_line].
  intros [Hc Hs]%andb_prop. destruct (Ascii.eqb c "010"); [reflexivity|].
  cbn [Py.all]. rewrite Hc, (IH Hs). reflexivity.
Qed.

Lemma first_line_cons c s :
  Ascii.eqb c "010" = false -> ET.first_line (String c s) = String c (ET.first_line s).
Proof. intros H. cbn [ET.first_line]. rewrite H. reflexivity. Qed.

(** The group the expression of [get_namespace] catches in the tag of an
    element in the namespace [ns]. *)
Lemma brace_group_qname ns local_name :
  Py.all (fun c => negb (Ascii.eqb c "010")) ns = true ->
  Py.all (fun c => negb (Ascii.eqb c "}")) local_name = true ->
  ET.brace_group (ET.qname ns local_name) = Some ns.
Proof.
  intros Hns Hl. unfold ET.qname.
  change (ET.brace_group ("{" ++ ns ++ "}" ++ local_name))
    with (match Path.split_last "}" (ET.first_line (ns ++ "}" ++ local_name)) with
          | Some (g, _) => Some g
          | None => None
          end).
  rewrite (first_line_app _ _ Hns).
  change ("}" ++ local_name) with (String "}" local_name).
  rewrite (first_line_cons "}" local_name eq_refl).
  rewrite (split_last_app_tail "}" ns (ET.first_line local_name) (first_line_all _ _ Hl)).
  reflexivity.
Qed.

(** ** [get_namespace] on a qualified tag *)

(** For an element whose tag is [{ns}name], with no line feed in [ns] and
    no closing brace in [name], [get_namespace] returns [ns] under the
    prefix [p], [ns] with the [presentationml] path replaced by
    [officeDocument] under the prefix [r], and the empty string under any
    other prefix. *)
Theorem cem_get_namespace_of_qname ns local_name attrib children prefix :
  Py.all (fun c => negb (Ascii.eqb c "010")) ns = true ->
  Py.all (fun c => negb (Ascii.eqb c "}")) local_name = true ->
  get_namespace (ET.Element (ET.qname ns local_name) attrib children) prefix
  = if String.eqb prefix "p" then ns
    else if String.eqb prefix "r"
         then Py.replace "schemas.openxmlformats.org/presentationml"
                "schemas.openxmlformats.org/officeDocument" ns
         else "".
Proof.
  intros Hns Hl. unfold get_namespace. cbn [ET.tag].
  rewrite (brace_group_qname _ _ Hns Hl). reflexivity.
Qed.

Variable uuid4 : nat -> Z.

(** ** A target without a slide list *)


End Namespace.
Section NamespaceExamples.
Import FS Sys CopyElementsMethod.

(** The namespace the script computes for the prefix [r] from the root of
    a presentation: not the relationships namespace. *)
Lemma cem_get_namespace_of_qname_witness :
  get_namespace (ET.Element (ET.qname Example.pns "presentation") [] []) "r"
  = if String.eqb "r" "p" then Example.pns
    else if String.eqb "r" "r"
         then Py.replace "schemas.openxmlformats.org/presentationml"
                "schemas.openxmlformats.org/officeDocument" Example.pns
         else "".
Proof.
  apply (cem_get_namespace_of_qname Example.pns "presentation" [] [] "r");
    vm_compute; reflexivity.
Defined.


End NamespaceExamples.

(* ===================================================================== *)
(** * The embedded workbook of a copied chart *)
(* ===================================================================== *)

Section Workbooks.
Import FS Sys CopyElementsMethod.
Variable uuid4 : nat -> Z.

(** For a relationship of a chart to an embedded workbook,
    [process_chart_relationships] draws a name, looks for the workbook in
    the source at the target with a leading [../] removed, taken from the
    top of the package, copies it when it is there to [embeddings/] at the
    top of the target package, and rewrites the relationship to
    [../embeddings/<name>].  No other file changes: the part
    [ppt/embeddings/<name>], which the rewritten relationship names from
    [ppt/charts/], is not written. *)
Theorem cem_workbook_copied_outside_ppt add rel rel' s s' target rel_type :
  ET.get "Target" rel = Some target -> ET.get "Type" rel = Some rel_type ->
  Py.contains "package" rel_type = true -> Py.contains ".xlsx" target = true ->
  chart_rel_step uuid4 add rel s = Ok rel' s' ->
  let name := "embeddings/Microsoft_Excel_Sheet" ++ Py.hex8 (uuid4 (draws s)) ++ ".xlsx" in
  let source := in_dir [default target (strip_prefix "../" target)] in
  rel' = ET.set "Target" ("../" ++ name) rel
  /\ draws s' = S (draws s)
  /\ (exists_ add source = true ->
      exists c, read add source = inr c /\ base s' !! name = Some c)
  /\ (exists_ add source = false -> base s' = base s)
  /\ (forall key, key <> name -> base s' !! key = base s !! key)
  /\ base s' !! ("ppt/" ++ name) = base s !! ("ppt/" ++ name).
Proof.
  intros Ht Hy Hp Hx. unfold chart_rel_step. rewrite Ht, Hy, Hp, Hx. cbn [andb].
  intros (h & s1 & Hd & (u & s2 & Hc & [<- <-]%ret_Ok)%bind_Ok)%bind_Ok.
  pose proof (draw_value _ _ _ _ Hd) as ->.
  assert (Hs1 : s1 = State (base s) (stdout s) (S (draws s))).
  { unfold uuid4_hex8 in Hd. injection Hd as <-. reflexivity. }
  subst s1. rewrite excel_key in Hc. cbv zeta.
  assert (Hframe : forall key,
            key <> "embeddings/Microsoft_Excel_Sheet" ++ Py.hex8 (uuid4 (draws s)) ++ ".xlsx" ->
            base s2 !! key = base s !! key).
  { destruct (exists_ add _).
    - apply copy2_Ok in Hc as (c & _ & ->). intros key Hk. cbn [base].
      apply lookup_insert_ne. congruence.
    - apply ret_Ok in Hc as [_ <-]. reflexivity. }
  split; [reflexivity|]. split.
  { destruct (exists_ add _).
    - apply copy2_Ok in Hc as (c & _ & ->). reflexivity.
    - apply ret_Ok in Hc as [_ <-]. reflexivity. }
  split; [|split; [|split; [exact Hframe|apply Hframe; discriminate]]].
  - intros He. rewrite He in Hc. apply copy2_Ok in Hc as (c & Hr & ->).
    exists c. split; [exact Hr|]. cbn [base]. apply lookup_insert_eq.
  - intros He. rewrite He in Hc. apply ret_Ok in Hc as [_ <-]. reflexivity.
Qed.

End Workbooks.

Section WorkbookExamples.
Import FS Sys CopyElementsMethod.

(** A source that holds the workbook at [ppt/embeddings/], where the
    relationship of the chart points: the script looks for it at
    [embeddings/] at the top of the source, finds nothing, copies nothing
    and rewrites the relationship all the same. *)
Lemma cem_workbook_copied_outside_ppt_witness :
  is_Some (Example2.wb_add !! "ppt/embeddings/Microsoft_Excel_Sheet1.xlsx")
  /\ chart_rel_step Example.uuid_a Example2.wb_add Example2.wb_rel Example.start
     = Ok (ET.set "Target" ("../" ++ Example2.wb_name) Example2.wb_rel)
          (State Example.base_pkg [] 1)
  /\ exists_ Example2.wb_add
       (in_dir [default Example2.wb_target (strip_prefix "../" Example2.wb_target)])
     = false
  /\ (ET.set "Target" ("../" ++ Example2.wb_name) Example2.wb_rel
      = ET.set "Target" ("../" ++ Example2.wb_name) Example2.wb_rel
      /\ 1%nat = 1%nat
      /\ (exists_ Example2.wb_add
            (in_dir [default Example2.wb_target (strip_prefix "../" Example2.wb_target)])
          = true ->
          exists c,
            read Example2.wb_add
              (in_dir [default Example2.wb_target (strip_prefix "../" Example2.wb_target)])
            = inr c
            /\ Example.base_pkg !! Example2.wb_name = Some c)
      /\ (exists_ Example2.wb_add
            (in_dir [default Example2.wb_target (strip_prefix "../" Example2.wb_target)])
          = false ->
          Example.base_pkg = Example.base_pkg)
      /\ (forall key, key <> Example2.wb_name ->
            Example.base_pkg !! key = Example.base_pkg !! key)
      /\ Example.base_pkg !! ("ppt/" ++ Example2.wb_name)
         = Example.base_pkg !! ("ppt/" ++ Example2.wb_name)).
Proof.
  split; [vm_compute; eexists; reflexivity|].
  split; [vm_compute; reflexivity|].
  split; [vm_compute; reflexivity|].
  exact (cem_workbook_copied_outside_ppt Example.uuid_a Example2.wb_add Example2.wb_rel
           (ET.set "Target" ("../" ++ Example2.wb_name) Example2.wb_rel) Example.start
           (State Example.base_pkg [] 1) Example2.wb_target Example2.package_type
           eq_refl eq_refl eq_refl eq_refl eq_refl).
Defined.

End WorkbookExamples.

